(** * The asset generation pipeline of tools/scripts/generate_assets.py

    A shallow embedding of the script: the rate limiter, the routing of a
    request to a remote service, the polling protocol of the queued
    service, the artifact store, the batch driver and the loader of the
    configuration file, followed by the properties the specification
    states about them.

    Conventions.
    - Python [str] values are held as their UTF-8 bytes, [string]s of
      8-bit characters, so that [encode('utf-8')] is the identity on their
      bytes; a character is a lead byte with the continuation bytes after
      it, and a slice counts characters.  [bytes] are [list byte].
    - [time.time()] is a rational number of seconds ([Q]); [int(...)] of
      it truncates toward zero.
    - Effects are explicit: a computation is a function from the [World]
      (clock, printed lines, files, outbound requests, the generator's
      limiters and result list) to an outcome and the next world.  An
      outcome is a value or a raised exception.
    - The remote services and the disk are an [Env] of replies.  Only
      [asyncio.sleep] moves the clock.
    - [asyncio.gather] runs the tasks of a batch one after the other; the
      outcome of an item depends on the replies of [Env] only. *)

From Stdlib Require Import ZArith QArith String List Ascii Lia.
From Stdlib.Strings Require Import Byte.
From stdpp Require Import gmap strings list pretty.

Local Open Scope Z_scope.

(** ** hashlib: MD5 (RFC 1321) and SHA-256 (FIPS 180-4) *)

Module Hashlib.

Definition bytes := list byte.

Definition byte_to_Z (b : byte) : Z := Z.of_N (Byte.to_N b).

Definition byte_of_Z (z : Z) : byte :=
  match Byte.of_N (Z.to_N (z mod 256)) with
  | Some b => b
  | None => x00
  end.

Definition w32 (z : Z) : Z := z mod 2 ^ 32.
Definition add32 (a b : Z) : Z := w32 (a + b).
Definition not32 (a : Z) : Z := Z.lxor a 4294967295.
Definition rotl32 (a : Z) (s : Z) : Z :=
  Z.lor (w32 (Z.shiftl a s)) (Z.shiftr a (32 - s)).
Definition rotr32 (a : Z) (s : Z) : Z :=
  Z.lor (Z.shiftr a s) (w32 (Z.shiftl a (32 - s))).

Definition hex_digit (z : Z) : ascii :=
  nth (Z.to_nat z) (list_ascii_of_string "0123456789abcdef") "0"%char.

Definition hex_of_byte (b : byte) : string :=
  String (hex_digit (byte_to_Z b / 16)) (String (hex_digit (byte_to_Z b mod 16)) EmptyString).

Fixpoint hex_of_bytes (bs : bytes) : string :=
  match bs with
  | [] => EmptyString
  | b :: bs' => hex_of_byte b +:+ hex_of_bytes bs'
  end.

(* little-endian and big-endian encodings of a word in [n] bytes *)
Fixpoint le_bytes (n : nat) (z : Z) : bytes :=
  match n with
  | O => []
  | S n' => byte_of_Z z :: le_bytes n' (z / 256)
  end.
Definition be_bytes (n : nat) (z : Z) : bytes := rev (le_bytes n z).

Fixpoint le_word (bs : bytes) : Z :=
  match bs with
  | [] => 0
  | b :: bs' => byte_to_Z b + 256 * le_word bs'
  end.
Definition be_word (bs : bytes) : Z := le_word (rev bs).

Fixpoint chunks (fuel : nat) (n : nat) (bs : bytes) : list bytes :=
  match fuel with
  | O => []
  | S fuel' =>
      match bs with
      | [] => []
      | _ => take n bs :: chunks fuel' n (drop n bs)
      end
  end.

Definition pad_zeros (len : Z) : bytes :=
  replicate (Z.to_nat ((55 - len) mod 64)) x00.

Definition md5_pad (m : bytes) : bytes :=
  let len := Z.of_nat (length m) in
  m ++ x80 :: pad_zeros len ++ le_bytes 8 (8 * len).

Definition sha256_pad (m : bytes) : bytes :=
  let len := Z.of_nat (length m) in
  m ++ x80 :: pad_zeros len ++ be_bytes 8 (8 * len).

Definition md5_K : list Z :=
  [3614090360; 3905402710; 606105819; 3250441966; 4118548399; 1200080426; 2821735955; 4249261313;
   1770035416; 2336552879; 4294925233; 2304563134; 1804603682; 4254626195; 2792965006; 1236535329;
   4129170786; 3225465664; 643717713; 3921069994; 3593408605; 38016083; 3634488961; 3889429448;
   568446438; 3275163606; 4107603335; 1163531501; 2850285829; 4243563512; 1735328473; 2368359562;
   4294588738; 2272392833; 1839030562; 4259657740; 2763975236; 1272893353; 4139469664; 3200236656;
   681279174; 3936430074; 3572445317; 76029189; 3654602809; 3873151461; 530742520; 3299628645;
   4096336452; 1126891415; 2878612391; 4237533241; 1700485571; 2399980690; 4293915773; 2240044497;
   1873313359; 4264355552; 2734768916; 1309151649; 4149444226; 3174756917; 718787259; 3951481745].

Definition md5_s : list Z :=
  [7; 12; 17; 22; 7; 12; 17; 22; 7; 12; 17; 22; 7; 12; 17; 22;
   5; 9; 14; 20; 5; 9; 14; 20; 5; 9; 14; 20; 5; 9; 14; 20;
   4; 11; 16; 23; 4; 11; 16; 23; 4; 11; 16; 23; 4; 11; 16; 23;
   6; 10; 15; 21; 6; 10; 15; 21; 6; 10; 15; 21; 6; 10; 15; 21].

Definition md5_round (M : list Z) (st : Z * Z * Z * Z) (i : Z) : Z * Z * Z * Z :=
  let '(A, B, C, D) := st in
  let '(F, g) :=
    if i <? 16 then (Z.lor (Z.land B C) (Z.land (not32 B) D), i)
    else if i <? 32 then (Z.lor (Z.land D B) (Z.land (not32 D) C), (5 * i + 1) mod 16)
    else if i <? 48 then (Z.lxor (Z.lxor B C) D, (3 * i + 5) mod 16)
    else (Z.lxor C (Z.lor B (not32 D)), (7 * i) mod 16) in
  let F' := add32 (add32 (add32 F A) (nth (Z.to_nat i) md5_K 0)) (nth (Z.to_nat g) M 0) in
  (D, add32 B (rotl32 F' (nth (Z.to_nat i) md5_s 0)), B, C).

Definition md5_chunk (h : Z * Z * Z * Z) (chunk : bytes) : Z * Z * Z * Z :=
  let M := map le_word (chunks 16 4 chunk) in
  let '(a0, b0, c0, d0) := h in
  let '(A, B, C, D) := fold_left (md5_round M) (map Z.of_nat (seq 0 64)) h in
  (add32 a0 A, add32 b0 B, add32 c0 C, add32 d0 D).

Definition md5 (m : bytes) : bytes :=
  let p := md5_pad m in
  let '(a, b, c, d) :=
    fold_left md5_chunk (chunks (length p) 64 p)
      (1732584193, 4023233417, 2562383102, 271733878) in
  le_bytes 4 a ++ le_bytes 4 b ++ le_bytes 4 c ++ le_bytes 4 d.

Definition sha256_K : list Z :=
  [1116352408; 1899447441; 3049323471; 3921009573; 961987163; 1508970993; 2453635748; 2870763221;
   3624381080; 310598401; 607225278; 1426881987; 1925078388; 2162078206; 2614888103; 3248222580;
   3835390401; 4022224774; 264347078; 604807628; 770255983; 1249150122; 1555081692; 1996064986;
   2554220882; 2821834349; 2952996808; 3210313671; 3336571891; 3584528711; 113926993; 338241895;
   666307205; 773529912; 1294757372; 1396182291; 1695183700; 1986661051; 2177026350; 2456956037;
   2730485921; 2820302411; 3259730800; 3345764771; 3516065817; 3600352804; 4094571909; 275423344;
   430227734; 506948616; 659060556; 883997877; 958139571; 1322822218; 1537002063; 1747873779;
   1955562222; 2024104815; 2227730452; 2361852424; 2428436474; 2756734187; 3204031479; 3329325298].

Definition sha256_H0 : list Z :=
  [1779033703; 3144134277; 1013904242; 2773480762; 1359893119; 2600822924; 528734635; 1541459225].

(* message schedule: w holds the words computed so far, newest first *)
Definition sha256_extend (w : list Z) (_ : nat) : list Z :=
  let w2 := nth 1 w 0 in
  let w7 := nth 6 w 0 in
  let w15 := nth 14 w 0 in
  let w16 := nth 15 w 0 in
  let s0 := Z.lxor (Z.lxor (rotr32 w15 7) (rotr32 w15 18)) (Z.shiftr w15 3) in
  let s1 := Z.lxor (Z.lxor (rotr32 w2 17) (rotr32 w2 19)) (Z.shiftr w2 10) in
  add32 (add32 (add32 w16 s0) w7) s1 :: w.

Definition sha256_schedule (chunk : bytes) : list Z :=
  rev (fold_left sha256_extend (seq 16 48) (rev (map be_word (chunks 16 4 chunk)))).

Definition sha256_round (st : list Z) (kw : Z * Z) : list Z :=
  match st with
  | [a; b; c; d; e; f; g; h] =>
      let S1 := Z.lxor (Z.lxor (rotr32 e 6) (rotr32 e 11)) (rotr32 e 25) in
      let ch := Z.lxor (Z.land e f) (Z.land (not32 e) g) in
      let t1 := add32 (add32 (add32 (add32 h S1) ch) (fst kw)) (snd kw) in
      let S0 := Z.lxor (Z.lxor (rotr32 a 2) (rotr32 a 13)) (rotr32 a 22) in
      let maj := Z.lxor (Z.lxor (Z.land a b) (Z.land a c)) (Z.land b c) in
      let t2 := add32 S0 maj in
      [add32 t1 t2; a; b; c; add32 d t1; e; f; g]
  | _ => st
  end.

Definition sha256_chunk (h : list Z) (chunk : bytes) : list Z :=
  let w := sha256_schedule chunk in
  let st := fold_left sha256_round (combine sha256_K w) h in
  map (fun p => add32 (fst p) (snd p)) (combine h st).

Definition sha256 (m : bytes) : bytes :=
  let p := sha256_pad m in
  concat (map (be_bytes 4) (fold_left sha256_chunk (chunks (length p) 64 p) sha256_H0)).

Definition md5_hexdigest (m : bytes) : string := hex_of_bytes (md5 m).
Definition sha256_hexdigest (m : bytes) : string := hex_of_bytes (sha256 m).

End Hashlib.

Import Hashlib.

(** ** Exceptions and outcomes *)

Inductive Exn :=
| ValueError (msg : string)
| KeyError (key : string)
| IndexError
| TypeError (msg : string)
| AttributeError (msg : string)
| OSError (path : string)
| ClientError (msg : string)
| SystemExit (code : Z).

(** [except Exception] catches everything but [SystemExit]. *)
Definition is_Exception (e : Exn) : bool :=
  match e with
  | SystemExit _ => false
  | _ => true
  end.

Inductive result (A : Type) :=
| Ok (a : A)
| Raise (e : Exn).
Arguments Ok {A} a.
Arguments Raise {A} e.

(** ** Time *)

Definition Qltb (a b : Q) : bool := negb (Qle_bool b a).

(** [int(x)] for a float [x]: truncation toward zero. *)
Definition py_int (x : Q) : Z := Z.quot (Qnum x) (Zpos (Qden x)).

(** ** Configuration *)

Definition CONFIG_services : list (string * (string * Z)) :=
  [("nanobanana", ("https://api.nanobanana.com/v1", 10));
   ("stability", ("https://api.stability.ai/v1", 150));
   ("midjourney", ("https://api.midjourney.com/v1", 5));
   ("elevenlabs", ("https://api.elevenlabs.io/v1", 20))]%string.

Definition CONFIG_output_dirs : list (string * string) :=
  [("2d", "assets/generated/2d");
   ("3d", "assets/generated/3d");
   ("audio", "assets/generated/audio");
   ("metadata", "assets/generated/metadata")]%string.

(** [d[key]] on a dict literal. *)
Fixpoint getitem {A : Type} (d : list (string * A)) (key : string) : result A :=
  match d with
  | [] => Raise (KeyError key)
  | (k, v) :: d' => if String.eqb k key then Ok v else getitem d' key
  end.

Definition base_url (service : string) : string :=
  match getitem CONFIG_services service with
  | Ok (url, _) => url
  | Raise _ => ""
  end.

(** ** Data model *)

Record AssetRequest := {
  prompt : string;
  type : string;
  category : string;
  style : string;
  width : Z;
  height : Z;
  duration : Q;
  quality : Q;
  tags : list string;
  metadata : list (string * string)
}.

(** The metadata dict built by [_save_asset]. *)
Record Metadata := {
  generation_service : string;
  original_request : AssetRequest;
  file_format : string;
  md_file_size : Z;
  md_checksum : string;
  md_created_at : Q;
  version : string
}.

Record GeneratedAsset := {
  id : string;
  request : AssetRequest;
  file_path : string;
  service_used : string;
  generation_time : Q;
  file_size : Z;
  checksum : string;
  asset_metadata : Metadata;
  created_at : Q
}.

Definition set_generation_time (a : GeneratedAsset) (t : Q) : GeneratedAsset :=
  {| id := id a; request := request a; file_path := file_path a;
     service_used := service_used a; generation_time := t;
     file_size := file_size a; checksum := checksum a;
     asset_metadata := asset_metadata a; created_at := created_at a |}.

Record Report := {
  timestamp : Q;
  total_assets : nat;
  successful_generations : nat;
  assets : list GeneratedAsset
}.

Inductive FileContent :=
| Binary (data : bytes)
| MetadataJson (m : Metadata)
| ReportJson (r : Report)
(* a file that [open(path, 'w')] created or truncated and whose write did
   not complete: it holds some prefix of what was to be written *)
| Incomplete.

Record RateLimiter := {
  requests_per_minute : Z;
  requests : list Q
}.

(** ** What the program prints and sends *)

Inductive LogLine :=
| LStartingBatch (n : nat)
| LBatchItemFailed (i : nat) (e : Exn)
| LGenerating (ty : string) (prompt50 : string)
| LGenerated (asset_id : string) (seconds : Q)
| LFailedToGenerate (e : Exn)
| LNanoBananaApiError (status : Z)
| LNanoBananaFailed (e : Exn)
| LStabilityError (status : Z)
| LStabilityFailed (e : Exn)
| LMidjourneyApiError (status : Z)
| LMidjourneyFailed (e : Exn)
| LMidjourneyJobFailed (job_id : string)
| LPollingError (e : Exn)
| L3dNotImplemented (p : string)
| LAudioNotImplemented (p : string)
| LAudioFailed (e : Exn)
| LRateLimiting (wait_time : Q)
| LReportSaved (path : string)
| LLoadFailed (e : Exn)
| LConfigNotFound (path : string)
| LNoValidRequests
| LPipelineStart
| LProjectRoot (root : string)
| LConfigFile (path : string)
| LAssetsToGenerate (n : nat)
| LCompleted
| LGeneratedSuccessfully (n : nat).

(** The lines that report an error (the ones the script prefixes with a
    cross mark, and the per-service error lines). *)
Definition is_error_line (l : LogLine) : bool :=
  match l with
  | LBatchItemFailed _ _ | LFailedToGenerate _
  | LNanoBananaApiError _ | LNanoBananaFailed _
  | LStabilityError _ | LStabilityFailed _
  | LMidjourneyApiError _ | LMidjourneyFailed _ | LMidjourneyJobFailed _
  | LPollingError _ | LAudioFailed _ | LLoadFailed _
  | LConfigNotFound _ | LNoValidRequests => true
  | _ => false
  end.

Inductive NetCall :=
| HttpPost (url : string)
| HttpGet (url : string).

(** ** The world and the monad of effects *)

Record World := {
  clock : Q;
  stdout : list LogLine;
  files : gmap string FileContent;
  sent : list NetCall;
  rate_limiters : gmap string RateLimiter;
  generated_assets : list (option GeneratedAsset)
}.

Definition M (A : Type) : Type := World -> result A * World.

Definition ret {A} (a : A) : M A := fun w => (Ok a, w).

Definition raise {A} (e : Exn) : M A := fun w => (Raise e, w).

Definition bind {A B} (m : M A) (k : A -> M B) : M B :=
  fun w =>
    match m w with
    | (Ok a, w') => k a w'
    | (Raise e, w') => (Raise e, w')
    end.

Notation "x <- m ;; k" := (bind m (fun x => k))
  (at level 100, m at next level, right associativity).
Notation "m ;; k" := (bind m (fun _ => k))
  (at level 100, right associativity).

(** [try: m except Exception as e: handler e] *)
Definition try_except {A} (m : M A) (handler : Exn -> M A) : M A :=
  fun w =>
    match m w with
    | (Ok a, w') => (Ok a, w')
    | (Raise e, w') => if is_Exception e then handler e w' else (Raise e, w')
    end.

Definition lift {A} (r : result A) : M A := fun w => (r, w).

Definition time_time : M Q := fun w => (Ok (clock w), w).

Definition print (l : LogLine) : M unit :=
  fun w =>
    (Ok tt, {| clock := clock w; stdout := stdout w ++ [l]; files := files w;
               sent := sent w; rate_limiters := rate_limiters w;
               generated_assets := generated_assets w |}).

Definition asyncio_sleep (d : Q) : M unit :=
  fun w =>
    (Ok tt, {| clock := (clock w + d)%Q; stdout := stdout w; files := files w;
               sent := sent w; rate_limiters := rate_limiters w;
               generated_assets := generated_assets w |}).

Definition record_call (c : NetCall) : M unit :=
  fun w =>
    (Ok tt, {| clock := clock w; stdout := stdout w; files := files w;
               sent := sent w ++ [c]; rate_limiters := rate_limiters w;
               generated_assets := generated_assets w |}).

Definition set_files (fs : gmap string FileContent) : M unit :=
  fun w =>
    (Ok tt, {| clock := clock w; stdout := stdout w; files := fs;
               sent := sent w; rate_limiters := rate_limiters w;
               generated_assets := generated_assets w |}).

Definition set_rate_limiters (rl : gmap string RateLimiter) : M unit :=
  fun w =>
    (Ok tt, {| clock := clock w; stdout := stdout w; files := files w;
               sent := sent w; rate_limiters := rl;
               generated_assets := generated_assets w |}).

Definition set_generated_assets (l : list (option GeneratedAsset)) : M unit :=
  fun w =>
    (Ok tt, {| clock := clock w; stdout := stdout w; files := files w;
               sent := sent w; rate_limiters := rate_limiters w;
               generated_assets := l |}).

(** ** class RateLimiter *)

Definition RateLimiter__init__ (requests_per_minute : Z) : result RateLimiter :=
  Ok {| requests_per_minute := requests_per_minute; requests := [] |}.

(** The limiter objects live in [rate_limiters]; [self] is the key of the
    one a method is called on. *)
Definition get_limiter (self : string) : M RateLimiter :=
  fun w =>
    match rate_limiters w !! self with
    | Some l => (Ok l, w)
    | None => (Raise (KeyError self), w)
    end.

Definition set_requests (self : string) (reqs : list Q) : M unit :=
  l <- get_limiter self ;;
  fun w =>
    set_rate_limiters
      (<[self := {| requests_per_minute := requests_per_minute l;
                    requests := reqs |}]> (rate_limiters w)) w.

Definition wait (self : string) : M unit :=
  now <- time_time ;;
  l <- get_limiter self ;;
  (* Remove requests older than 1 minute *)
  let kept := filter (fun req_time => Qltb (now - req_time) 60 = true) (requests l) in
  set_requests self kept ;;
  (* Check if we need to wait *)
  (if Z.of_nat (length kept) >=? requests_per_minute l then
     match kept with
     | [] => raise IndexError
     | oldest :: _ =>
         let wait_time := (60 - (now - oldest))%Q in
         if Qltb 0 wait_time
         then print (LRateLimiting wait_time) ;; asyncio_sleep wait_time
         else ret tt
     end
   else ret tt) ;;
  l' <- get_limiter self ;;
  set_requests self (requests l' ++ [now]).

(** A caller that uses one limiter alone: each call is issued at the given
    instant, or as soon as the previous call has returned if that is later
    (the acquisitions are serialized).  The result lists the instants at
    which the calls were admitted, that is, at which [wait] returned. *)
Definition Qmax' (a b : Q) : Q := if Qle_bool a b then b else a.

Definition advance_to (t : Q) : M unit :=
  fun w =>
    (Ok tt, {| clock := Qmax' (clock w) t; stdout := stdout w; files := files w;
               sent := sent w; rate_limiters := rate_limiters w;
               generated_assets := generated_assets w |}).

Fixpoint serialized_calls (self : string) (arrivals : list Q) : M (list Q) :=
  match arrivals with
  | [] => ret []
  | t :: rest =>
      advance_to t ;;
      wait self ;;
      admitted <- time_time ;;
      later <- serialized_calls self rest ;;
      ret (admitted :: later)
  end.

(** Number of admissions inside the window [[start, start + 60)]. *)
Definition admissions_in_window (start : Q) (admissions : list Q) : nat :=
  length (filter (fun a => Qle_bool start a && Qltb a (start + 60) = true) admissions).

Definition empty_world : World :=
  {| clock := 0; stdout := []; files := ∅; sent := [];
     rate_limiters := ∅; generated_assets := [] |}.

(** A world holding one limiter, built by the constructor, under [self]. *)
Definition world_with_limiter (self : string) (quota : Z) : result World :=
  match RateLimiter__init__ quota with
  | Ok l =>
      Ok {| clock := 0; stdout := []; files := ∅; sent := [];
            rate_limiters := {[ self := l ]}; generated_assets := [] |}
  | Raise e => Raise e
  end.

(** ** The environment: remote services, disk, configuration files *)

Inductive HttpReply (A : Type) :=
| NoReply (e : Exn)
| Response (status : Z) (body : result A).
Arguments NoReply {A} e.
Arguments Response {A} status body.

Inductive Payload :=
| NanoBananaPayload (text : string) (w h : Z)
| StabilityPayload (text : string) (h w : Z)
| MidjourneyPayload (text : string).

(** The JSON document of a job: [data['status']], [data['image_url']]. *)
Inductive JobData :=
| Job (status : string) (image_url : option string).

(** An object of the [assets] array, seen through the fields of
    [AssetRequest]: a field is absent or holds a value of the annotated
    type; [unexpected] lists the other keys of the object. *)
Record Item := {
  item_prompt : option string;
  item_type : option string;
  item_category : option string;
  item_style : option string;
  item_width : option Z;
  item_height : option Z;
  item_duration : option Q;
  item_quality : option Q;
  item_tags : option (list string);
  item_metadata : option (list (string * string));
  unexpected : list string
}.

Inductive ConfigEntry :=
| EntryObject (item : Item)
| EntryOther.

Inductive ConfigDoc :=
| DocObject (assets_array : option (list ConfigEntry))
| DocOther.

Record Env := {
  (* POST {base_url}/generate: the decoded image *)
  nanobanana_generate : Payload -> HttpReply bytes;
  (* POST .../text-to-image: the decoded artifacts *)
  stability_text_to_image : Payload -> HttpReply (list bytes);
  (* POST {base_url}/imagine: the job id *)
  midjourney_imagine : Payload -> HttpReply string;
  (* GET {base_url}/jobs/{job_id}, by attempt number *)
  midjourney_job : string -> nat -> HttpReply JobData;
  (* GET image_url *)
  download : string -> HttpReply bytes;
  (* whether open(path, 'w') and the write succeed *)
  writable : string -> bool;
  (* where they do not: whether open(path, 'w') itself succeeded, so that
     the file was created or truncated before the write failed *)
  opened : string -> bool;
  (* whether mkdir(parents=True, exist_ok=True) succeeds *)
  can_mkdir : string -> bool;
  (* the configuration file at a path: absent, unreadable, or parsed *)
  read_config : string -> option (result ConfigDoc)
}.

Definition path_join (a b : string) : string := a +:+ "/" +:+ b.

(** The constructor of [AssetRequest] applied to the keys of an item,
    followed by [__post_init__]. *)
Definition AssetRequest__init__ (item : Item) : result AssetRequest :=
  match unexpected item with
  | k :: _ => Raise (TypeError ("unexpected keyword argument " +:+ k))
  | [] =>
      match item_prompt item, item_type item, item_category item with
      | Some p, Some t, Some c =>
          Ok {| prompt := p; type := t; category := c;
                style := default "cyberpunk"%string (item_style item);
                width := default 512 (item_width item);
                height := default 512 (item_height item);
                duration := default (2#1)%Q (item_duration item);
                quality := default (8#10)%Q (item_quality item);
                tags := default [] (item_tags item);
                metadata := default [] (item_metadata item) |}
      | _, _, _ => Raise (TypeError "missing required positional argument")
      end
  end.

(** [hashlib.md5(content.encode('utf-8')).hexdigest()[:8]] followed by the
    formatting of the identifier, at the instant [now]. *)
Definition short_hash (request : AssetRequest) : string :=
  let content :=
    prompt request +:+ "-" +:+ type request +:+ "-" +:+ category request
    +:+ "-" +:+ style request in
  let hash_input := list_byte_of_string content in
  substring 0 8 (md5_hexdigest hash_input).

Definition asset_id_at (now : Q) (request : AssetRequest) : string :=
  let timestamp := pretty (py_int now) in
  type request +:+ "_" +:+ category request +:+ "_" +:+ short_hash request
  +:+ "_" +:+ timestamp.

Definition _generate_asset_id (request : AssetRequest) : M string :=
  now <- time_time ;;
  ret (asset_id_at now request).

(** What the loop body of [_poll_midjourney_job] does to the loop. *)
Inductive LoopStep :=
| Return (content : bytes)
| Break
| Continue.

Section AssetGenerator.

Variable env : Env.
Variable project_root : string.

(** [with open(path, mode) as f:] followed by the write of [c].  When
    [open] fails nothing changes; when it succeeds the file is created or
    truncated at once, so that a write failing after it leaves the file
    behind, incomplete. *)
Definition write_file (path : string) (c : FileContent) : M unit :=
  fun w =>
    if writable env path
    then set_files (<[path := c]> (files w)) w
    else if opened env path
    then (set_files (<[path := Incomplete]> (files w)) ;; raise (OSError path)) w
    else (Raise (OSError path), w).

Definition _save_asset (request : AssetRequest) (data : bytes)
    (format service : string) : M GeneratedAsset :=
  (* Generate unique ID *)
  asset_id <- _generate_asset_id request ;;
  (* Determine output path *)
  dir <- lift (getitem CONFIG_output_dirs (type request)) ;;
  let output_dir := path_join project_root dir in
  let file_path := path_join output_dir (asset_id +:+ "." +:+ format) in
  (* Save file *)
  write_file file_path (Binary data) ;;
  (* Calculate checksum *)
  let checksum := sha256_hexdigest data in
  (* Create metadata *)
  created <- time_time ;;
  let metadata :=
    {| generation_service := service; original_request := request;
       file_format := format; md_file_size := Z.of_nat (length data);
       md_checksum := checksum; md_created_at := created;
       version := "1.0" |} in
  (* Save metadata *)
  mdir <- lift (getitem CONFIG_output_dirs "metadata") ;;
  let metadata_path :=
    path_join (path_join project_root mdir) (asset_id +:+ ".json") in
  write_file metadata_path (MetadataJson metadata) ;;
  created' <- time_time ;;
  ret {| id := asset_id; request := request; file_path := file_path;
         service_used := service; generation_time := 0;
         file_size := Z.of_nat (length data); checksum := checksum;
         asset_metadata := metadata; created_at := created' |}.

Definition _generate_with_nanobanana (request : AssetRequest)
  : M (option GeneratedAsset) :=
  wait "nanobanana" ;;
  let payload :=
    NanoBananaPayload
      (prompt request +:+ ", " +:+ style request
       +:+ " style, game asset, clean background")
      (width request) (height request) in
  try_except
    (record_call (HttpPost (base_url "nanobanana" +:+ "/generate")) ;;
     match nanobanana_generate env payload with
     | NoReply e => raise e
     | Response status body =>
         if status =? 200 then
           image_data <- lift body ;;
           asset <- _save_asset request image_data "png" "nanobanana" ;;
           ret (Some asset)
         else
           print (LNanoBananaApiError status) ;;
           ret None
     end)
    (fun e => print (LNanoBananaFailed e) ;; ret None).

Definition _generate_with_stability (request : AssetRequest)
  : M (option GeneratedAsset) :=
  wait "stability" ;;
  let payload :=
    StabilityPayload
      (prompt request +:+ ", " +:+ style request
       +:+ " aesthetic, game environment, high quality")
      (height request) (width request) in
  try_except
    (record_call
       (HttpPost (base_url "stability"
                  +:+ "/generation/stable-diffusion-xl-1024-v1-0/text-to-image")) ;;
     match stability_text_to_image env payload with
     | NoReply e => raise e
     | Response status body =>
         if status =? 200 then
           artifacts <- lift body ;;
           match artifacts with
           | image_data :: _ =>
               asset <- _save_asset request image_data "png" "stability" ;;
               ret (Some asset)
           | [] => ret None
           end
         else
           print (LStabilityError status) ;;
           ret None
     end)
    (fun e => print (LStabilityFailed e) ;; ret None).

Definition jobs_url (job_id : string) : string :=
  base_url "midjourney" +:+ "/jobs/" +:+ job_id.

(** One iteration of the [for] loop of [_poll_midjourney_job], after the
    sleep: the [try] block and its handler. *)
Definition poll_once (job_id : string) (attempt : nat) : M LoopStep :=
  try_except
    (record_call (HttpGet (jobs_url job_id)) ;;
     match midjourney_job env job_id attempt with
     | NoReply e => raise e
     | Response status body =>
         if status =? 200 then
           data <- lift body ;;
           let '(Job st url) := data in
           if String.eqb st "completed" then
             (* Download image *)
             image_url <- lift (match url with
                                | Some u => Ok u
                                | None => Raise (KeyError "image_url")
                                end) ;;
             record_call (HttpGet image_url) ;;
             match download env image_url with
             | NoReply e => raise e
             | Response img_status img_body =>
                 if img_status =? 200 then
                   content <- lift img_body ;;
                   ret (Return content)
                 else ret Continue
             end
           else if String.eqb st "failed" then
             print (LMidjourneyJobFailed job_id) ;;
             ret Break
           else ret Continue
         else ret Continue
     end)
    (fun e => print (LPollingError e) ;; ret Continue).

(** [for _ in range(remaining)], the iterations so far being [attempt]. *)
Fixpoint poll_loop (job_id : string) (remaining attempt : nat)
  : M (option bytes) :=
  match remaining with
  | O => ret None
  | S remaining' =>
      asyncio_sleep 10 ;;
      step <- poll_once job_id attempt ;;
      match step with
      | Return content => ret (Some content)
      | Break => ret None
      | Continue => poll_loop job_id remaining' (S attempt)
      end
  end.

Definition _poll_midjourney_job (job_id : string) : M (option bytes) :=
  poll_loop job_id 30 0.

Definition _generate_with_midjourney (request : AssetRequest)
  : M (option GeneratedAsset) :=
  wait "midjourney" ;;
  let payload :=
    MidjourneyPayload
      (prompt request +:+ " --style " +:+ style request +:+ " --ar "
       +:+ pretty (width request) +:+ ":" +:+ pretty (height request)
       +:+ " --v 6") in
  try_except
    ((* Start generation *)
     record_call (HttpPost (base_url "midjourney" +:+ "/imagine")) ;;
     match midjourney_imagine env payload with
     | NoReply e => raise e
     | Response status body =>
         if status =? 200 then
           job_id <- lift body ;;
           (* Poll for completion *)
           image_data <- _poll_midjourney_job job_id ;;
           match image_data with
           | Some (b :: bs) =>
               asset <- _save_asset request (b :: bs) "png" "midjourney" ;;
               ret (Some asset)
           | _ => ret None
           end
         else
           print (LMidjourneyApiError status) ;;
           ret None
     end)
    (fun e => print (LMidjourneyFailed e) ;; ret None).

(** [x in [a, b]] on strings. *)
Definition str_in (x : string) (l : list string) : bool :=
  existsb (String.eqb x) l.

Definition _generate_2d_asset (request : AssetRequest)
  : M (option GeneratedAsset) :=
  (* Choose service based on category *)
  if str_in (category request) ["sprite"; "character"]%string then
    _generate_with_nanobanana request
  else if str_in (category request) ["background"; "environment"]%string then
    _generate_with_stability request
  else if str_in (category request) ["ui"; "icon"]%string then
    _generate_with_midjourney request
  else
    _generate_with_stability request.

Definition _generate_3d_asset (request : AssetRequest)
  : M (option GeneratedAsset) :=
  print (L3dNotImplemented (prompt request)) ;;
  ret None.

Definition _generate_audio_asset (request : AssetRequest)
  : M (option GeneratedAsset) :=
  wait "elevenlabs" ;;
  try_except
    (print (LAudioNotImplemented (prompt request)) ;;
     ret None)
    (fun e => print (LAudioFailed e) ;; ret None).

(** [s[:n]] on a [str]: the first [n] characters of [s], each a lead byte
    together with the continuation bytes (10xxxxxx) that follow it. *)
Definition is_continuation (a : ascii) : bool :=
  let n := Z.of_N (N_of_ascii a) in (128 <=? n) && (n <? 192).

Fixpoint prefix_chars (n : nat) (s : string) : string :=
  match s with
  | EmptyString => EmptyString
  | String a rest =>
      if is_continuation a then String a (prefix_chars n rest)
      else match n with
           | O => EmptyString
           | S n' => String a (prefix_chars n' rest)
           end
  end.

Definition generate_single_asset (request : AssetRequest)
  : M (option GeneratedAsset) :=
  start_time <- time_time ;;
  try_except
    (print (LGenerating (type request) (prefix_chars 50 (prompt request))) ;;
     asset <-
       (if String.eqb (type request) "2d" then _generate_2d_asset request
        else if String.eqb (type request) "3d" then _generate_3d_asset request
        else if String.eqb (type request) "audio" then _generate_audio_asset request
        else raise (ValueError ("Unknown asset type: " +:+ type request))) ;;
     match asset with
     | Some a =>
         now <- time_time ;;
         let generation_time := (now - start_time)%Q in
         let a' := set_generation_time a generation_time in
         print (LGenerated (id a') generation_time) ;;
         ret (Some a')
     | None => ret None
     end)
    (fun e => print (LFailedToGenerate e) ;; ret None).

(** [asyncio.gather] with [return_exceptions=True]: every task runs to
    its end and leaves its value or the exception it raised. *)
Fixpoint gather {A} (tasks : list (M A)) : M (list (result A)) :=
  match tasks with
  | [] => ret []
  | t :: ts =>
      fun w =>
        match t w with
        | (Raise e, w') =>
            if is_Exception e
            then (rs <- gather ts ;; ret (Raise e :: rs)) w'
            else (Raise e, w')
        | (Ok a, w') => (rs <- gather ts ;; ret (Ok a :: rs)) w'
        end
  end.

(** The loop over [enumerate(results)]; [i] is the index of the head. *)
Fixpoint collect_successful (i : nat)
    (results : list (result (option GeneratedAsset)))
  : M (list (option GeneratedAsset)) :=
  match results with
  | [] => ret []
  | Raise e :: rest =>
      print (LBatchItemFailed (i + 1) e) ;;
      collect_successful (S i) rest
  | Ok r :: rest =>
      successful_assets <- collect_successful (S i) rest ;;
      ret (r :: successful_assets)
  end.

Definition generate_asset_batch (reqs : list AssetRequest)
  : M (list (option GeneratedAsset)) :=
  print (LStartingBatch (length reqs)) ;;
  results <- gather (map generate_single_asset reqs) ;;
  successful_assets <- collect_successful 0 results ;;
  (fun w =>
     set_generated_assets (generated_assets w ++ successful_assets) w) ;;
  ret successful_assets.

(** [[a for a in l if a is not None]] *)
Definition not_None {A} (l : list (option A)) : list A := omap (fun a => a) l.

Definition build_report (now : Q) (l : list (option GeneratedAsset)) : Report :=
  {| timestamp := now;
     total_assets := length l;
     successful_generations := length (not_None l);
     assets := not_None l |}.

Definition save_generation_report (output_path : string) : M unit :=
  now <- time_time ;;
  (fun w => write_file output_path (ReportJson (build_report now (generated_assets w))) w) ;;
  print (LReportSaved output_path).

Definition AssetGenerator__init__ : M unit :=
  set_generated_assets [] ;;
  limiters <-
    lift (fold_right
            (fun '(service, (_, rate_limit)) acc =>
               match acc, RateLimiter__init__ rate_limit with
               | Ok m, Ok l => Ok (<[service := l]> m)
               | Raise e, _ => Raise e
               | _, Raise e => Raise e
               end)
            (Ok ∅) CONFIG_services) ;;
  set_rate_limiters limiters ;;
  (* Create output directories *)
  fold_right
    (fun '(_, dir_path) rest =>
       (if can_mkdir env (path_join project_root dir_path)
        then ret tt
        else raise (OSError (path_join project_root dir_path))) ;;
       rest)
    (ret tt) CONFIG_output_dirs.

End AssetGenerator.

(** ** Loading the configuration and the entry point *)

Section Main.

Variable env : Env.

(** The loop of [load_asset_requests] over the items of the array. *)
Fixpoint build_requests (items : list ConfigEntry) : result (list AssetRequest) :=
  match items with
  | [] => Ok []
  | EntryOther :: _ => Raise (TypeError "argument after ** must be a mapping")
  | EntryObject item :: rest =>
      match AssetRequest__init__ item with
      | Raise e => Raise e
      | Ok request =>
          match build_requests rest with
          | Raise e => Raise e
          | Ok requests => Ok (request :: requests)
          end
      end
  end.

Definition json_load (config_file : string) : M ConfigDoc :=
  match read_config env config_file with
  | None => raise (OSError config_file)
  | Some r => lift r
  end.

Definition load_asset_requests (config_file : string) : M (list AssetRequest) :=
  try_except
    (data <- json_load config_file ;;
     items <- match data with
              | DocObject a => ret (default [] a)
              | DocOther => raise (AttributeError "get")
              end ;;
     lift (build_requests items))
    (fun e => print (LLoadFailed e) ;; ret []).

Record Args := {
  config : string;
  arg_project_root : string;
  output_report : option string
}.

Definition path_exists (path : string) : bool :=
  match read_config env path with
  | Some _ => true
  | None => false
  end.

Definition main (args : Args) : M unit :=
  let project_root := arg_project_root args in
  let config_file := config args in
  if negb (path_exists config_file) then
    print (LConfigNotFound config_file) ;;
    raise (SystemExit 1)
  else
    (* Load asset requests *)
    asset_requests <- load_asset_requests config_file ;;
    match asset_requests with
    | [] =>
        print LNoValidRequests ;;
        raise (SystemExit 1)
    | _ :: _ =>
        print LPipelineStart ;;
        print (LProjectRoot project_root) ;;
        print (LConfigFile config_file) ;;
        print (LAssetsToGenerate (length asset_requests)) ;;
        (* Generate assets *)
        AssetGenerator__init__ env project_root ;;
        generated <- generate_asset_batch env project_root asset_requests ;;
        (* Save report *)
        let report_path :=
          match output_report args with
          | Some p => p
          | None =>
              path_join (path_join (path_join project_root "assets") "generated")
                "generation_report.json"
          end in
        save_generation_report env report_path ;;
        print LCompleted ;;
        print (LGeneratedSuccessfully (length generated))
    end.

(** The exit status of the process that runs [main]. *)
Definition exit_status (outcome : result unit) : Z :=
  match outcome with
  | Ok _ => 0
  | Raise (SystemExit code) => code
  | Raise _ => 1
  end.

End Main.

(** ** Stub environments used in the examples *)

Definition png_bytes : bytes := [x89; x50; x4e; x47].

(** Provider A always answers 500, provider B always returns one artifact,
    provider C accepts the job and reports it failed at the first poll. *)
Definition stub_env : Env :=
  {| nanobanana_generate := fun _ => Response 500 (Raise (ClientError "body"));
     stability_text_to_image := fun _ => Response 200 (Ok [png_bytes]);
     midjourney_imagine := fun _ => Response 200 (Ok "job-1"%string);
     midjourney_job := fun _ _ => Response 200 (Ok (Job "failed" None));
     download := fun _ => Response 404 (Raise (ClientError "body"));
     writable := fun _ => true;
     opened := fun _ => true;
     can_mkdir := fun _ => true;
     read_config := fun _ => None |}.

Definition mk_request (p t c : string) : AssetRequest :=
  {| prompt := p; type := t; category := c; style := "cyberpunk";
     width := 512; height := 512; duration := 2#1; quality := 8#10;
     tags := []; metadata := [] |}.

(** The world right after [AssetGenerator(project_root)]. *)
Definition fresh_generator (env : Env) (project_root : string) : World :=
  snd (AssetGenerator__init__ env project_root empty_world).

(** ** Vocabulary of the properties *)

(** The three kinds of asset the data model names. *)
Definition recognized (t : string) : bool := str_in t ["2d"; "3d"; "audio"]%string.

(** What one poll of a job can answer. *)
Definition answers_failed (env : Env) (job_id : string) (attempt : nat) : Prop :=
  exists url, midjourney_job env job_id attempt = Response 200 (Ok (Job "failed" url)).

Definition answers_completed (env : Env) (job_id : string) (attempt : nat)
    (url : string) (content : bytes) : Prop :=
  midjourney_job env job_id attempt = Response 200 (Ok (Job "completed" (Some url))) /\
  download env url = Response 200 (Ok content).

Definition answers_other (env : Env) (job_id : string) (attempt : nat) : Prop :=
  exists st url,
    midjourney_job env job_id attempt = Response 200 (Ok (Job st url)) /\
    st <> "completed"%string /\ st <> "failed"%string.

(** The request that polls a job. *)
Definition poll_request (job_id : string) : NetCall := HttpGet (jobs_url job_id).

(** A poll that answers "completed" with the address of an image the
    fetch of which answers a status other than 200. *)
Definition answers_unfetched (env : Env) (job_id : string) (attempt : nat)
    (url : string) : Prop :=
  midjourney_job env job_id attempt = Response 200 (Ok (Job "completed" (Some url))) /\
  exists status body, download env url = Response status body /\ status <> 200.

(** The polls after which the loop goes to the next attempt without a
    word: some other status, or "completed" with an image that is not
    fetched. *)
Definition keeps_polling (env : Env) (job_id : string) (attempt : nat) : Prop :=
  answers_other env job_id attempt \/ exists url, answers_unfetched env job_id attempt url.

(** The requests such a poll sends: the poll, and the fetch of the image
    when the poll answered "completed" with its address. *)
Definition requests_of_poll (env : Env) (job_id : string) (attempt : nat)
  : list NetCall :=
  poll_request job_id ::
  match midjourney_job env job_id attempt with
  | Response _ (Ok (Job st (Some url))) =>
      if String.eqb st "completed" then [HttpGet url] else []
  | _ => []
  end.

(** The requests of the attempts [0], ..., [k - 1]. *)
Definition polls_sent (env : Env) (job_id : string) (k : nat) : list NetCall :=
  flat_map (requests_of_poll env job_id) (seq 0 k).

Definition valid_item (p t c : string) : Item :=
  {| item_prompt := Some p; item_type := Some t; item_category := Some c;
     item_style := None; item_width := None; item_height := None;
     item_duration := None; item_quality := None; item_tags := None;
     item_metadata := None; unexpected := [] |}.

(** An item with a key that is no field of [AssetRequest]. *)
Definition item_with_colour : Item :=
  {| item_prompt := Some "a hero"%string; item_type := Some "2d"%string;
     item_category := Some "sprite"%string;
     item_style := None; item_width := None; item_height := None;
     item_duration := None; item_quality := None; item_tags := None;
     item_metadata := None; unexpected := ["colour"%string] |}.

Definition env_with_config (entries : list ConfigEntry) : Env :=
  {| nanobanana_generate := nanobanana_generate stub_env;
     stability_text_to_image := stability_text_to_image stub_env;
     midjourney_imagine := midjourney_imagine stub_env;
     midjourney_job := midjourney_job stub_env;
     download := download stub_env;
     writable := writable stub_env;
     opened := opened stub_env;
     can_mkdir := can_mkdir stub_env;
     read_config := fun path =>
       if String.eqb path "assets.json"
       then Some (Ok (DocObject (Some entries)))
       else None |}.

Definition args_default : Args :=
  {| config := "assets.json"; arg_project_root := "/proj"; output_report := None |}.

(** A queued service whose job is pending for [n] polls and then answers
    [final]. *)
Definition env_with_job (n : nat) (final : JobData) : Env :=
  {| nanobanana_generate := nanobanana_generate stub_env;
     stability_text_to_image := stability_text_to_image stub_env;
     midjourney_imagine := midjourney_imagine stub_env;
     midjourney_job := fun _ attempt =>
       if (attempt <? n)%nat then Response 200 (Ok (Job "pending" None))
       else Response 200 (Ok final);
     download := fun _ => Response 200 (Ok png_bytes);
     writable := writable stub_env;
     opened := opened stub_env;
     can_mkdir := can_mkdir stub_env;
     read_config := read_config stub_env |}.

(** A queued service whose polls answer [answers] one after the other and
    [final] from then on, and whose images are served with the status
    [fetch_status]. *)
Definition env_with_polls (answers : list JobData) (final : JobData)
    (fetch_status : Z) : Env :=
  {| nanobanana_generate := nanobanana_generate stub_env;
     stability_text_to_image := stability_text_to_image stub_env;
     midjourney_imagine := midjourney_imagine stub_env;
     midjourney_job := fun _ attempt => Response 200 (Ok (nth attempt answers final));
     download := fun _ => Response fetch_status (Ok png_bytes);
     writable := writable stub_env;
     opened := opened stub_env;
     can_mkdir := can_mkdir stub_env;
     read_config := read_config stub_env |}.

(** The routing table of the specification, for requests of type [2d]. *)
Definition routing_table (category : string) : string :=
  if str_in category ["sprite"; "character"]%string then "nanobanana"
  else if str_in category ["background"; "environment"]%string then "stability"
  else if str_in category ["ui"; "icon"]%string then "midjourney"
  else "stability".

(** The length of the list a computation returned, if it returned one. *)
Definition returned_length {A} (out : result (list A) * World) : option nat :=
  match fst out with
  | Ok l => Some (length l)
  | Raise _ => None
  end.

(** The report stored at [path], if a report is stored there. *)
Definition report_at (path : string) (w : World) : option Report :=
  match files w !! path with
  | Some (ReportJson r) => Some r
  | _ => None
  end.

(** The lines printed so far that report an error. *)
Definition error_lines (w : World) : list LogLine :=
  filter (fun l => is_error_line l = true) (stdout w).

(** A batch of N = 3 requests under [stub_env]: K = 1 goes to the service
    that always fails, M = 1 has a type without a service, and the
    remaining one succeeds. *)
Definition mixed_batch : list AssetRequest :=
  [mk_request "a hero" "2d" "sprite";
   mk_request "boom" "audio" "sfx";
   mk_request "neon alley" "2d" "background"]%string.

Definition audio_request : AssetRequest := mk_request "boom" "audio" "sfx".
Definition volumetric_request : AssetRequest := mk_request "crate" "3d" "prop".

(** A task never ends with an exception that [except Exception] catches. *)
Definition never_raises_Exception {A} (m : M A) : Prop :=
  forall w e w', m w = (Raise e, w') -> is_Exception e = false.


(** ** Vocabulary of the further properties *)

(** Every run of [m] takes a world to one related to it by [R]. *)
Definition respects (R : World -> World -> Prop) {A} (m : M A) : Prop :=
  forall w r w', m w = (r, w') -> R w w'.

(** Whatever [m] raises is caught by [except Exception]. *)
Definition only_Exceptions {A} (m : M A) : Prop :=
  forall w e w', m w = (Raise e, w') -> is_Exception e = true.

Definition always_returns {A} (m : M A) : Prop :=
  forall w, exists a w', m w = (Ok a, w').

(** The exceptions of a reply are ones a network or JSON library raises. *)
Definition reply_raises_Exception {A} (r : HttpReply A) : Prop :=
  match r with
  | NoReply e => is_Exception e = true
  | Response _ (Raise e) => is_Exception e = true
  | Response _ (Ok _) => True
  end.

Definition well_behaved (env : Env) : Prop :=
  (forall p, reply_raises_Exception (nanobanana_generate env p)) /\
  (forall p, reply_raises_Exception (stability_text_to_image env p)) /\
  (forall p, reply_raises_Exception (midjourney_imagine env p)) /\
  (forall job attempt, reply_raises_Exception (midjourney_job env job attempt)) /\
  (forall url, reply_raises_Exception (download env url)).

(** The timestamps [wait] keeps at the instant [now]. *)
Definition recent (now : Q) (reqs : list Q) : list Q :=
  filter (fun req_time => Qltb (now - req_time) 60 = true) reqs.

(** What a run only ever adds to: the clock, the printed lines, the
    requests sent and the set of files. *)
Definition output_grows (w w' : World) : Prop :=
  (clock w <= clock w')%Q /\
  stdout w `prefix_of` stdout w' /\
  sent w `prefix_of` sent w' /\
  dom (files w) ⊆ dom (files w').

(** The generator keeps its result list, its limiters and their quotas. *)
Definition generator_kept (w w' : World) : Prop :=
  generated_assets w' = generated_assets w /\
  forall self l, rate_limiters w !! self = Some l ->
    exists l', rate_limiters w' !! self = Some l' /\
               requests_per_minute l' = requests_per_minute l.

(** Every configured service has its limiter, with a positive quota. *)
Definition ready (w : World) : Prop :=
  forall service, In service ["nanobanana"; "stability"; "midjourney"; "elevenlabs"]%string ->
    exists l, rate_limiters w !! service = Some l /\ 0 < requests_per_minute l.

(** Where [_save_asset] puts the artifact and its sidecar. *)
Definition artifact_path (root dir asset_id format : string) : string :=
  path_join (path_join root dir) (asset_id +:+ "." +:+ format).

Definition sidecar_path (root asset_id : string) : string :=
  path_join (path_join root "assets/generated/metadata") (asset_id +:+ ".json").

(** A disk on which no file can be opened for writing, and further down
    one on which the files of the metadata directory of "/proj" are opened
    and their write fails. *)
Definition read_only_env : Env :=
  {| nanobanana_generate := nanobanana_generate stub_env;
     stability_text_to_image := stability_text_to_image stub_env;
     midjourney_imagine := midjourney_imagine stub_env;
     midjourney_job := midjourney_job stub_env;
     download := download stub_env;
     writable := fun _ => false;
     opened := fun _ => false;
     can_mkdir := can_mkdir stub_env;
     read_config := read_config stub_env |}.

(** A disk that is full: a file can be opened, no write completes. *)
Definition full_disk_env : Env :=
  {| nanobanana_generate := nanobanana_generate stub_env;
     stability_text_to_image := stability_text_to_image stub_env;
     midjourney_imagine := midjourney_imagine stub_env;
     midjourney_job := midjourney_job stub_env;
     download := download stub_env;
     writable := fun _ => false;
     opened := fun _ => true;
     can_mkdir := can_mkdir stub_env;
     read_config := read_config stub_env |}.

Definition sidecars_read_only_env : Env :=
  {| nanobanana_generate := nanobanana_generate stub_env;
     stability_text_to_image := stability_text_to_image stub_env;
     midjourney_imagine := midjourney_imagine stub_env;
     midjourney_job := midjourney_job stub_env;
     download := download stub_env;
     writable := fun path => negb (String.prefix "/proj/assets/generated/metadata/" path);
     opened := fun _ => true;
     can_mkdir := can_mkdir stub_env;
     read_config := read_config stub_env |}.

(** The payloads the three services are sent for a request. *)
Definition nanobanana_payload (request : AssetRequest) : Payload :=
  NanoBananaPayload
    (prompt request +:+ ", " +:+ style request
     +:+ " style, game asset, clean background")
    (width request) (height request).

Definition stability_payload (request : AssetRequest) : Payload :=
  StabilityPayload
    (prompt request +:+ ", " +:+ style request
     +:+ " aesthetic, game environment, high quality")
    (height request) (width request).

Definition midjourney_payload (request : AssetRequest) : Payload :=
  MidjourneyPayload
    (prompt request +:+ " --style " +:+ style request +:+ " --ar "
     +:+ pretty (width request) +:+ ":" +:+ pretty (height request)
     +:+ " --v 6").

Definition stability_url : string :=
  base_url "stability" +:+ "/generation/stable-diffusion-xl-1024-v1-0/text-to-image".

(** The limiter of [service] is below its quota at the clock of [w]. *)
Definition below_quota (service : string) (w : World) : Prop :=
  exists l, rate_limiters w !! service = Some l /\
    Z.of_nat (length (recent (clock w) (requests l))) < requests_per_minute l.

(** Replies of the stability service used in the examples. *)
Definition env_with_stability (reply : HttpReply (list bytes)) (disk : string -> bool) : Env :=
  {| nanobanana_generate := nanobanana_generate stub_env;
     stability_text_to_image := fun _ => reply;
     midjourney_imagine := midjourney_imagine stub_env;
     midjourney_job := midjourney_job stub_env;
     download := download stub_env;
     writable := disk;
     opened := fun _ => false;
     can_mkdir := can_mkdir stub_env;
     read_config := read_config stub_env |}.

(** A poll that fails without saying anything about the job: the request
    raises, the status is not 200, or the body cannot be read. *)
Definition answers_transient (env : Env) (job_id : string) (attempt : nat) : Prop :=
  (exists e, midjourney_job env job_id attempt = NoReply e /\ is_Exception e = true) \/
  (exists status body,
     midjourney_job env job_id attempt = Response status body /\ status <> 200) \/
  (exists e, midjourney_job env job_id attempt = Response 200 (Raise e) /\
             is_Exception e = true).

Definition is_polling_error (l : LogLine) : Prop := exists e, l = LPollingError e.

(** [n] seconds times ten, as a rational. *)
Definition ten_times (n : nat) : Q := 10 * inject_Z (Z.of_nat n).

(** A queued service whose polls raise [n] times before the job is
    reported completed. *)
Definition env_with_flaky_job (n : nat) : Env :=
  {| nanobanana_generate := nanobanana_generate stub_env;
     stability_text_to_image := stability_text_to_image stub_env;
     midjourney_imagine := midjourney_imagine stub_env;
     midjourney_job := fun _ attempt =>
       if (attempt <? n)%nat then NoReply (ClientError "connection reset")
       else Response 200 (Ok (Job "completed" (Some "img")));
     download := fun _ => Response 200 (Ok png_bytes);
     writable := writable stub_env;
     opened := opened stub_env;
     can_mkdir := can_mkdir stub_env;
     read_config := read_config stub_env |}.

(** The path [main] writes the report to. *)
Definition report_path (args : Args) : string :=
  match output_report args with
  | Some p => p
  | None =>
      path_join (path_join (path_join (arg_project_root args) "assets") "generated")
        "generation_report.json"
  end.

(** An entry of the list a batch returns belongs to a request: it is
    [None], or an asset that carries the request. *)
Definition entry_of (req : AssetRequest) (entry : option GeneratedAsset) : Prop :=
  entry = None \/ exists a, entry = Some a /\ request a = req.

(** A request was built from an entry of the configuration, with the
    defaults of the fields the entry leaves out. *)
Definition built_from (entry : ConfigEntry) (req : AssetRequest) : Prop :=
  exists item,
    entry = EntryObject item /\ unexpected item = [] /\
    item_prompt item = Some (prompt req) /\
    item_type item = Some (type req) /\
    item_category item = Some (category req) /\
    style req = default "cyberpunk"%string (item_style item) /\
    width req = default 512 (item_width item) /\
    height req = default 512 (item_height item) /\
    duration req = default (2#1)%Q (item_duration item) /\
    quality req = default (8#10)%Q (item_quality item) /\
    tags req = default [] (item_tags item) /\
    metadata req = default [] (item_metadata item).

(** An entry the constructor of [AssetRequest] accepts. *)
Definition constructible (entry : ConfigEntry) : Prop :=
  exists item,
    entry = EntryObject item /\ unexpected item = [] /\
    is_Some (item_prompt item) /\ is_Some (item_type item) /\
    is_Some (item_category item).

(** Reading a configuration file raises only what [except Exception] catches. *)
Definition config_raises_Exception (env : Env) : Prop :=
  forall path e, read_config env path = Some (Raise e) -> is_Exception e = true.

(** The directories of the generator can be created under [root]. *)
Definition dirs_creatable (env : Env) (root : string) : Prop :=
  forall key dir, In (key, dir) CONFIG_output_dirs ->
    can_mkdir env (path_join root dir) = true.

(** The timestamps of a limiter are in the order of time and none is later
    than the clock. *)
Fixpoint oldest_first (reqs : list Q) : Prop :=
  match reqs with
  | [] => True
  | t :: later => Forall (Qle t) later /\ oldest_first later
  end.

Definition timestamps_in_order (w : World) (l : RateLimiter) : Prop :=
  oldest_first (requests l) /\
  Forall (fun t => (t <= clock w)%Q) (requests l).

(** A disk on which the directory for audio cannot be created. *)
Definition env_without_audio_dir : Env :=
  {| nanobanana_generate := nanobanana_generate stub_env;
     stability_text_to_image := stability_text_to_image stub_env;
     midjourney_imagine := midjourney_imagine stub_env;
     midjourney_job := midjourney_job stub_env;
     download := download stub_env;
     writable := writable stub_env;
     opened := opened stub_env;
     can_mkdir := fun path => negb (String.eqb path "/proj/assets/generated/audio");
     read_config := fun path =>
       if String.eqb path "assets.json"
       then Some (Ok (DocObject (Some [EntryObject (valid_item "neon alley" "2d" "background")])))
       else None |}.

(** * Properties *)

(** ** The digests agree with the published test vectors *)

(** A slice keeps a character whole: a first character of two bytes
    (C3 A9, e with an acute accent) is taken with both, and on 7-bit text
    the slice is the byte prefix. *)
Example prefix_chars_two_byte_character :
  prefix_chars 1 (String (ascii_of_nat 195) (String (ascii_of_nat 169) "="))
  = String (ascii_of_nat 195) (String (ascii_of_nat 169) EmptyString).
Proof. reflexivity. Qed.

Example prefix_chars_seven_bit :
  prefix_chars 4 "neon alley" = "neon"%string /\ prefix_chars 50 "neon alley" = "neon alley"%string.
Proof. split; reflexivity. Qed.

Example md5_empty :
  md5_hexdigest [] = "d41d8cd98f00b204e9800998ecf8427e"%string.
Proof. vm_compute. reflexivity. Qed.

Example md5_abc :
  md5_hexdigest (list_byte_of_string "abc") = "900150983cd24fb0d6963f7d28e17f72"%string.
Proof. vm_compute. reflexivity. Qed.

Example sha256_abc :
  sha256_hexdigest (list_byte_of_string "abc")
  = "ba7816bf8f01cfea414140de5dae2223b00361a396177a9cb410ff61f20015ad"%string.
Proof. vm_compute. reflexivity. Qed.


Example md5_two_blocks :
  md5_hexdigest
    (list_byte_of_string
       "The quick brown fox jumps over the lazy dog, and then some more text to go past one block.")
  = "d01f82e0f3839aed1dfacfeff712bfe1"%string.
Proof. vm_compute. reflexivity. Qed.

Example sha256_two_blocks :
  sha256_hexdigest
    (list_byte_of_string
       "The quick brown fox jumps over the lazy dog, and then some more text to go past one block.")
  = "c5354f425238f391c928c9cb785e4190931a9bdd70cb6b2ecae7f1f08e697c2e"%string.
Proof. vm_compute. reflexivity. Qed.

(** ** Strings *)

Lemma length_append (a b : string) :
  String.length (a +:+ b) = (String.length a + String.length b)%nat.
Proof. induction a as [|c a IH]; simpl; [reflexivity | now rewrite IH]. Qed.

Lemma append_inj_l (a b c : string) : a +:+ b = a +:+ c -> b = c.
Proof.
  induction a as [|x a IH]; simpl; intros H; [exact H |].
  injection H as H'. now apply IH.
Qed.

Lemma append_inj_length (a b x y : string) :
  String.length a = String.length b ->
  a +:+ x = b +:+ y -> a = b /\ x = y.
Proof.
  revert b. induction a as [|c a IH]; intros [|d b] Hlen H; simpl in *;
    try discriminate.
  - now split.
  - injection Hlen as Hlen'. injection H as -> H'.
    destruct (IH b Hlen' H') as [-> ->]. now split.
Qed.

Lemma length_substring_0 (n : nat) (s : string) :
  (n <= String.length s)%nat -> String.length (substring 0 n s) = n.
Proof.
  revert s. induction n as [|n IH]; intros [|c s] H; simpl in *;
    try reflexivity; try lia.
  rewrite IH; [reflexivity | lia].
Qed.

(** ** The digests have a fixed size *)

Lemma length_le_bytes (n : nat) (z : Z) : length (le_bytes n z) = n.
Proof. revert z. induction n as [|n IH]; intros z; simpl; [|rewrite IH]; reflexivity. Qed.

Lemma length_md5 (m : bytes) : length (md5 m) = 16%nat.
Proof.
  unfold md5.
  destruct (fold_left md5_chunk _ _) as [[[a b] c] d].
  rewrite !length_app, !length_le_bytes. reflexivity.
Qed.

Lemma length_hex_of_bytes (bs : bytes) :
  String.length (hex_of_bytes bs) = (2 * length bs)%nat.
Proof.
  induction bs as [|b bs IH]; [reflexivity |].
  cbn [hex_of_bytes]. rewrite length_append, IH. cbn [hex_of_byte String.length length]. lia.
Qed.

Lemma length_short_hash (r : AssetRequest) : String.length (short_hash r) = 8%nat.
Proof.
  unfold short_hash, md5_hexdigest. apply length_substring_0.
  rewrite length_hex_of_bytes, length_md5. lia.
Qed.

(** ** RateLimiter *)

(** Writing back the limiter a world already holds changes nothing. *)
Lemma set_requests_same (self : string) (l : RateLimiter) (w : World) :
  rate_limiters w !! self = Some l ->
  set_requests self (requests l) w = (Ok tt, w).
Proof.
  intros H. unfold set_requests, bind, get_limiter, set_rate_limiters.
  rewrite H. destruct w as [c o f s rl g]; destruct l as [q rs]; simpl in *.
  now rewrite (insert_id rl self _ H).
Qed.

(** C1. With quota 1 and the calls issued one after the other at the
    instants 0, 10 and 61 (the third one second after the second returned),
    [wait] admits the calls at 0, 60 and 70: the window of 60 seconds that
    starts at 60 holds two admissions, one more than the quota.  The second
    call waited until 60 but was recorded at 10, the instant read before
    the sleep. *)
Theorem wait_admits_two_within_a_window_of_quota_1 :
  exists w,
    world_with_limiter "rl" 1 = Ok w /\
    fst (serialized_calls "rl" [0; 10; 61]%Q w) = Ok [0; 60; 70]%Q /\
    (rate_limiters (snd (serialized_calls "rl" [0; 10; 61]%Q w)) !! "rl"%string
     = Some {| requests_per_minute := 1; requests := [10; 61]%Q |}) /\
    admissions_in_window 60 [0; 60; 70]%Q = 2%nat.
Proof.
  eexists. split; [reflexivity |]. vm_compute. repeat split.
Qed.

(** C9, as the code has it.  The constructor accepts the quota 0 and
    returns a limiter with no recorded admission.  That limiter admits
    nothing: every [wait] on it raises [IndexError] and leaves the world as
    it was. *)
Theorem zero_quota_limiter_is_built_and_never_admits
    (self : string) (w : World)
    (H : rate_limiters w !! self = Some {| requests_per_minute := 0; requests := [] |}) :
  RateLimiter__init__ 0 = Ok {| requests_per_minute := 0; requests := [] |} /\
  wait self w = (Raise IndexError, w).
Proof.
  split; [reflexivity |].
  unfold wait, bind at 1 2. unfold time_time, get_limiter at 1. rewrite H.
  cbn [requests filter list_filter requests_per_minute].
  unfold bind at 1.
  pose proof (set_requests_same self _ w H) as Hs. cbn [requests] in Hs.
  rewrite Hs. reflexivity.
Qed.

Lemma zero_quota_limiter_witness :
  exists w,
    world_with_limiter "rl" 0 = Ok w /\
    wait "rl" w = (Raise IndexError, w).
Proof.
  eexists. split; [reflexivity |].
  apply (zero_quota_limiter_is_built_and_never_admits "rl").
  reflexivity.
Defined.

(** C9, as stated, fails: the constructor returns a limiter for quota 0. *)
Lemma zero_quota_is_not_rejected :
  ~ (exists e, RateLimiter__init__ 0 = Raise e).
Proof. intros [e H]. discriminate H. Qed.

(** ** Identifiers *)

Lemma asset_id_at_same_prefix (r1 r2 : AssetRequest) (t1 t2 : Q) :
  py_int t1 = py_int t2 ->
  type r1 = type r2 -> category r1 = category r2 ->
  (asset_id_at t1 r1 = asset_id_at t2 r2 <-> short_hash r1 = short_hash r2).
Proof.
  intros Ht Hty Hc. unfold asset_id_at. rewrite Ht, Hty, Hc. split.
  - intros H. do 4 apply append_inj_l in H.
    apply append_inj_length in H; [tauto |].
    now rewrite !length_short_hash.
  - now intros ->.
Qed.

Lemma length_asset_id_at (r : AssetRequest) (t : Q) :
  String.length (asset_id_at t r)
  = (String.length (type r) + String.length (category r)
     + String.length (pretty (py_int t)) + 11)%nat.
Proof.
  unfold asset_id_at. rewrite !length_append, length_short_hash.
  cbn [String.length]. lia.
Qed.

Lemma asset_id_at_type_inj (r1 r2 : AssetRequest) (t1 t2 : Q) :
  py_int t1 = py_int t2 -> category r1 = category r2 ->
  asset_id_at t1 r1 = asset_id_at t2 r2 -> type r1 = type r2.
Proof.
  intros Ht Hc H.
  assert (Hlen : String.length (type r1) = String.length (type r2)).
  { apply (f_equal String.length) in H.
    rewrite !length_asset_id_at, Ht, Hc in H. lia. }
  unfold asset_id_at in H. now apply append_inj_length in H.
Qed.

Lemma asset_id_at_category_inj (r1 r2 : AssetRequest) (t1 t2 : Q) :
  py_int t1 = py_int t2 -> type r1 = type r2 ->
  asset_id_at t1 r1 = asset_id_at t2 r2 -> category r1 = category r2.
Proof.
  intros Ht Hty H.
  assert (Hlen : String.length (category r1) = String.length (category r2)).
  { apply (f_equal String.length) in H.
    rewrite !length_asset_id_at, Ht, Hty in H. lia. }
  unfold asset_id_at in H. rewrite Hty in H. do 2 apply append_inj_l in H.
  now apply append_inj_length in H.
Qed.

(** C8, as stated, fails: two requests that differ in the prompt alone get
    the same identifier within one second, because the first eight
    hexadecimal digits of their MD5 digests agree. *)
Lemma asset_id_collision :
  let r1 := mk_request "neon alley 2950" "2d" "sprite" in
  let r2 := mk_request "neon alley 19327" "2d" "sprite" in
  prompt r1 <> prompt r2 /\
  type r1 = type r2 /\ category r1 = category r2 /\ style r1 = style r2 /\
  fst (_generate_asset_id r1 empty_world) = fst (_generate_asset_id r2 empty_world).
Proof.
  cbv zeta. split; [discriminate |]. vm_compute. repeat split.
Qed.

(** C8, as the code has it.  Within one time bucket (the same whole
    second), the identifier is a function of (prompt, type, category,
    style); a change of the type alone or of the category alone changes
    it; for requests of the same type and category, the identifiers differ
    exactly when the truncated hashes of their contents differ. *)
Theorem asset_id_within_a_time_bucket
    (r1 r2 : AssetRequest) (w1 w2 : World)
    (Hbucket : py_int (clock w1) = py_int (clock w2)) :
  (prompt r1 = prompt r2 -> type r1 = type r2 ->
   category r1 = category r2 -> style r1 = style r2 ->
   fst (_generate_asset_id r1 w1) = fst (_generate_asset_id r2 w2)) /\
  (type r1 <> type r2 -> category r1 = category r2 ->
   fst (_generate_asset_id r1 w1) <> fst (_generate_asset_id r2 w2)) /\
  (type r1 = type r2 -> category r1 <> category r2 ->
   fst (_generate_asset_id r1 w1) <> fst (_generate_asset_id r2 w2)) /\
  (type r1 = type r2 -> category r1 = category r2 ->
   (fst (_generate_asset_id r1 w1) = fst (_generate_asset_id r2 w2)
    <-> short_hash r1 = short_hash r2)).
Proof.
  unfold _generate_asset_id, bind, time_time, ret. cbn [fst].
  split; [| split; [| split]].
  - intros Hp Hty Hc Hs. f_equal.
    apply asset_id_at_same_prefix; try assumption.
    unfold short_hash. now rewrite Hp, Hty, Hc, Hs.
  - intros Hty Hc [= H].
    apply Hty. eapply asset_id_at_type_inj; eauto.
  - intros Hty Hc [= H].
    apply Hc. eapply asset_id_at_category_inj; eauto.
  - intros Hty Hc. split.
    + intros [= H]. now apply asset_id_at_same_prefix in H.
    + intros H. f_equal. now apply asset_id_at_same_prefix.
Qed.

Lemma asset_id_within_a_time_bucket_witness :
  fst (_generate_asset_id (mk_request "neon alley" "2d" "sprite") empty_world)
  <> fst (_generate_asset_id (mk_request "neon alley" "3d" "sprite")
            (snd (asyncio_sleep (1 # 2) empty_world))).
Proof.
  refine (proj1 (proj2 (asset_id_within_a_time_bucket
            (mk_request "neon alley" "2d" "sprite")
            (mk_request "neon alley" "3d" "sprite")
            empty_world (snd (asyncio_sleep (1 # 2) empty_world)) _)) _ _).
  - reflexivity.
  - discriminate.
  - reflexivity.
Defined.

(** ** The artifact store *)

Lemma append_assoc (a b c : string) : (a +:+ b) +:+ c = a +:+ (b +:+ c).
Proof.
  induction a as [|x a IH]; [reflexivity |].
  change (String x ((a +:+ b) +:+ c) = String x (a +:+ (b +:+ c))). now rewrite IH.
Qed.

Lemma recognized_cases (t : string) :
  recognized t = true -> t = "2d"%string \/ t = "3d"%string \/ t = "audio"%string.
Proof.
  unfold recognized, str_in. cbn [existsb].
  destruct (String.eqb_spec t "2d"); [tauto |].
  destruct (String.eqb_spec t "3d"); [tauto |].
  destruct (String.eqb_spec t "audio"); [tauto |].
  discriminate.
Qed.

(** The artifact of a recognized kind and its sidecar are different files. *)
Lemma artifact_path_not_sidecar (root t dir mdir a b : string) :
  recognized t = true ->
  getitem CONFIG_output_dirs t = Ok dir ->
  getitem CONFIG_output_dirs "metadata" = Ok mdir ->
  path_join (path_join root mdir) b <> path_join (path_join root dir) a.
Proof.
  intros Ht Hdir Hm H. injection Hm as <-.
  unfold path_join in H. rewrite !append_assoc in H. apply append_inj_l in H.
  apply recognized_cases in Ht.
  destruct Ht as [-> | [-> | ->]]; injection Hdir as <-; cbv [String.append] in H; congruence.
Qed.

(** C7. When [_save_asset] returns an asset for a request of a recognized
    kind, the asset's checksum is the SHA-256 digest (in hexadecimal) of
    the bytes it was given, and the file at the asset's [file_path] holds
    exactly those bytes once the call, sidecar included, is over. *)
Theorem save_asset_checksum_and_round_trip
    (env : Env) (root : string) (request : AssetRequest) (data : bytes)
    (format service : string) (w w' : World) (asset : GeneratedAsset)
    (Hkind : recognized (type request) = true)
    (Hsaved : _save_asset env root request data format service w = (Ok asset, w')) :
  checksum asset = sha256_hexdigest data /\
  files w' !! file_path asset = Some (Binary data).
Proof.
  unfold _save_asset, _generate_asset_id, bind, time_time, ret, lift in Hsaved.
  destruct (getitem CONFIG_output_dirs (type request)) as [dir|e] eqn:Hdir;
    [| discriminate].
  destruct (getitem CONFIG_output_dirs "metadata") as [mdir|e] eqn:Hm;
    [| discriminate].
  unfold write_file in Hsaved.
  destruct (writable env (path_join (path_join root dir) _)) eqn:Hw1.
  2:{ destruct (opened env _); cbn in Hsaved; discriminate Hsaved. }
  cbn [set_files files clock stdout sent rate_limiters generated_assets] in Hsaved.
  destruct (writable env (path_join (path_join root mdir) _)) eqn:Hw2.
  2:{ destruct (opened env _); cbn in Hsaved; discriminate Hsaved. }
  cbn [set_files files clock stdout sent rate_limiters generated_assets] in Hsaved.
  injection Hsaved as <- <-. cbn [checksum file_path files].
  split; [reflexivity |].
  rewrite lookup_insert_ne by (eapply artifact_path_not_sidecar; eauto).
  apply lookup_insert_eq.
Qed.

Lemma save_asset_witness :
  exists asset w',
    _save_asset stub_env "/proj" (mk_request "neon alley" "2d" "background")
      png_bytes "png" "stability" empty_world = (Ok asset, w') /\
    file_path asset = "/proj/assets/generated/2d/2d_background_24661de6_0.png"%string /\
    checksum asset = sha256_hexdigest png_bytes /\
    files w' !! file_path asset = Some (Binary png_bytes).
Proof.
  eassert (Hout : _save_asset stub_env "/proj" (mk_request "neon alley" "2d" "background")
                    png_bytes "png" "stability" empty_world = _).
  { vm_compute. reflexivity. }
  eexists _, _. split; [exact Hout |]. split; [reflexivity |].
  exact (save_asset_checksum_and_round_trip stub_env "/proj"
           (mk_request "neon alley" "2d" "background") png_bytes "png" "stability"
           empty_world _ _ eq_refl Hout).
Defined.

(** ** Loading the configuration *)

Lemma AssetRequest__init__raises_TypeError (item : Item) (e : Exn) :
  AssetRequest__init__ item = Raise e -> exists msg, e = TypeError msg.
Proof.
  unfold AssetRequest__init__.
  destruct (unexpected item); [| intros [= <-]; eauto].
  destruct (item_prompt item), (item_type item), (item_category item);
    intros [= <-]; eauto.
Qed.

Lemma build_requests_raises_TypeError (items : list ConfigEntry) (e : Exn) :
  build_requests items = Raise e -> exists msg, e = TypeError msg.
Proof.
  induction items as [|[item|] items IH]; cbn [build_requests].
  - discriminate.
  - destruct (AssetRequest__init__ item) eqn:Hinit.
    + destruct (build_requests items); [discriminate |].
      intros [= <-]. now apply IH.
    + intros [= <-]. eapply AssetRequest__init__raises_TypeError; eauto.
  - intros [= <-]. eauto.
Qed.

(** One item that cannot be constructed makes the whole loop raise. *)
Lemma build_requests_one_bad (before after : list ConfigEntry) (item : Item) (e : Exn) :
  AssetRequest__init__ item = Raise e ->
  exists e', build_requests (before ++ EntryObject item :: after) = Raise e'.
Proof.
  intros Hbad. induction before as [|[it|] before IH]; cbn [app build_requests].
  - rewrite Hbad. eauto.
  - destruct (AssetRequest__init__ it); [| eauto].
    destruct IH as [e' ->]. eauto.
  - eauto.
Qed.

Lemma load_asset_requests_raise (env : Env) (path : string) (w : World)
    (items : list ConfigEntry) (e : Exn) :
  read_config env path = Some (Ok (DocObject (Some items))) ->
  build_requests items = Raise e ->
  load_asset_requests env path w = (Ok [], snd (print (LLoadFailed e) w)).
Proof.
  intros Hfile Hbuild.
  destruct (build_requests_raises_TypeError _ _ Hbuild) as [msg ->].
  unfold load_asset_requests, try_except, bind, json_load, lift, ret.
  rewrite Hfile. cbn. rewrite Hbuild. reflexivity.
Qed.

(** C10. If one object of the [assets] array cannot be turned into an
    [AssetRequest], whatever stands before and after it in the array,
    [load_asset_requests] returns the empty list, and [main] exits with
    status 1 having sent no request and written no file. *)
Theorem one_bad_item_discards_every_request
    (env : Env) (args : Args) (w : World)
    (before after : list ConfigEntry) (item : Item) (e : Exn)
    (Hfile : read_config env (config args)
             = Some (Ok (DocObject (Some (before ++ EntryObject item :: after)))))
    (Hbad : AssetRequest__init__ item = Raise e) :
  fst (load_asset_requests env (config args) w) = Ok [] /\
  exit_status (fst (main env args w)) = 1 /\
  sent (snd (main env args w)) = sent w /\
  files (snd (main env args w)) = files w /\
  generated_assets (snd (main env args w)) = generated_assets w.
Proof.
  destruct (build_requests_one_bad before after item e Hbad) as [e' Hbuild].
  pose proof (load_asset_requests_raise env (config args) w _ e' Hfile Hbuild) as Hload.
  split; [now rewrite Hload |].
  assert (Hmain : main env args w
                  = (Raise (SystemExit 1),
                     snd (print LNoValidRequests (snd (print (LLoadFailed e') w))))).
  { unfold main, path_exists. rewrite Hfile. cbn [negb].
    unfold bind at 1. rewrite Hload. reflexivity. }
  rewrite Hmain. cbn. repeat split.
Qed.

Lemma one_bad_item_witness :
  let env :=
    env_with_config
      [EntryObject (valid_item "neon alley" "2d" "background");
       EntryObject item_with_colour;
       EntryObject (valid_item "menu frame" "2d" "ui")] in
  fst (load_asset_requests env (config args_default) empty_world) = Ok [] /\
  exit_status (fst (main env args_default empty_world)) = 1 /\
  sent (snd (main env args_default empty_world)) = sent empty_world /\
  files (snd (main env args_default empty_world)) = files empty_world /\
  generated_assets (snd (main env args_default empty_world))
  = generated_assets empty_world.
Proof.
  cbv zeta.
  apply (one_bad_item_discards_every_request _ args_default empty_world
           [EntryObject (valid_item "neon alley" "2d" "background")]
           [EntryObject (valid_item "menu frame" "2d" "ui")]
           item_with_colour (TypeError "unexpected keyword argument colour")).
  - reflexivity.
  - reflexivity.
Defined.

(** ** Unrecognized types *)

Lemma unrecognized_cases (t : string) :
  recognized t = false ->
  String.eqb t "2d" = false /\ String.eqb t "3d" = false /\ String.eqb t "audio" = false.
Proof.
  unfold recognized, str_in. cbn [existsb].
  destruct (String.eqb t "2d"), (String.eqb t "3d"), (String.eqb t "audio");
    cbn; intros H; try discriminate H; repeat split.
Qed.

Lemma generate_single_asset_unrecognized
    (env : Env) (root : string) (request : AssetRequest) (w : World) :
  recognized (type request) = false ->
  generate_single_asset env root request w
  = (Ok None,
     snd (print (LFailedToGenerate
                   (ValueError ("Unknown asset type: " +:+ type request)))
            (snd (print (LGenerating (type request)
                           (prefix_chars 50 (prompt request))) w)))).
Proof.
  intros H. destruct (unrecognized_cases _ H) as (H2 & H3 & Ha).
  unfold generate_single_asset, bind, try_except, time_time.
  rewrite H2, H3, Ha. reflexivity.
Qed.

(** C4, as stated, fails: an item of type "video" is loaded like any
    other, and the unknown type is reported while the item is generated. *)
Lemma unrecognized_type_is_loaded :
  let env := env_with_config [EntryObject (valid_item "intro clip" "video" "cutscene")] in
  let request := mk_request "intro clip" "video" "cutscene" in
  recognized (type request) = false /\
  fst (load_asset_requests env "assets.json" empty_world) = Ok [request] /\
  stdout (snd (generate_single_asset env "/proj" request empty_world))
  = [LGenerating "video" "intro clip";
     LFailedToGenerate (ValueError "Unknown asset type: video")].
Proof. cbv zeta. vm_compute. repeat split. Qed.

Lemma build_requests_constructible (entries : list ConfigEntry) :
  Forall constructible entries ->
  exists reqs, build_requests entries = Ok reqs /\ Forall2 built_from entries reqs.
Proof.
  induction 1 as [|entry entries (item & -> & Hu & [p Hp] & [t Ht] & [c Hc]) _ IH].
  - exists []. split; [reflexivity | constructor].
  - destruct IH as (reqs & Hreqs & Hall).
    cbn [build_requests]. unfold AssetRequest__init__.
    rewrite Hu, Hp, Ht, Hc, Hreqs. eexists. split; [reflexivity |].
    constructor; [| exact Hall].
    exists item. cbn. repeat split; assumption.
Qed.

(** C4, as the code has it.  Loading does not look at the type: a file
    whose objects all have the three required fields and no unexpected key
    is loaded whole and in order, whatever types the objects name, so an
    item of an unrecognized type is accepted wherever it stands in the
    array.  The request built from it is refused when it is generated,
    from any state: that item raises "Unknown asset type", which is caught
    at the item, printed, and the item yields no asset; nothing is sent
    and no file is written for it. *)
Theorem unrecognized_type_is_refused_at_generation_time
    (env : Env) (root path : string) (before after : list ConfigEntry)
    (item : Item) (p t c : string) (w : World)
    (Hp : item_prompt item = Some p) (Ht : item_type item = Some t)
    (Hc : item_category item = Some c) (Hu : unexpected item = [])
    (Hbefore : Forall constructible before) (Hafter : Forall constructible after)
    (Hfile : read_config env path
             = Some (Ok (DocObject (Some (before ++ EntryObject item :: after)))))
    (Hunrec : recognized t = false) :
  exists reqs_before request reqs_after,
    load_asset_requests env path w = (Ok (reqs_before ++ request :: reqs_after), w) /\
    Forall2 built_from before reqs_before /\
    Forall2 built_from after reqs_after /\
    built_from (EntryObject item) request /\
    type request = t /\
    forall w0 : World,
      fst (generate_single_asset env root request w0) = Ok None /\
      stdout (snd (generate_single_asset env root request w0))
      = stdout w0 ++ [LGenerating t (prefix_chars 50 p);
                      LFailedToGenerate (ValueError ("Unknown asset type: " +:+ t))] /\
      sent (snd (generate_single_asset env root request w0)) = sent w0 /\
      files (snd (generate_single_asset env root request w0)) = files w0.
Proof.
  assert (Hitem : constructible (EntryObject item)).
  { exists item. rewrite Hp, Ht, Hc. repeat split; eauto. }
  assert (Hall : Forall constructible (before ++ EntryObject item :: after)).
  { apply Forall_app. split; [exact Hbefore |]. constructor; assumption. }
  destruct (build_requests_constructible _ Hall) as (reqs & Hreqs & Hbuilt).
  apply Forall2_app_inv_l in Hbuilt.
  destruct Hbuilt as (reqs_before & rest & Hb & Hrest & ->).
  apply Forall2_cons_inv_l in Hrest.
  destruct Hrest as (request & reqs_after & Hreq & Ha & ->).
  assert (Hfields : type request = t /\ prompt request = p).
  { destruct Hreq as (item' & [= <-] & _ & Hp' & Ht' & _).
    rewrite Hp in Hp'. rewrite Ht in Ht'.
    injection Hp' as <-. injection Ht' as <-. split; reflexivity. }
  destruct Hfields as [Htype Hprompt].
  exists reqs_before, request, reqs_after.
  split; [| split; [exact Hb | split; [exact Ha | split; [exact Hreq | split; [exact Htype |]]]]].
  - unfold load_asset_requests, try_except, bind, json_load, lift, ret.
    rewrite Hfile. cbn [default from_option Datatypes.id]. rewrite Hreqs. reflexivity.
  - intros w0. rewrite generate_single_asset_unrecognized by (rewrite Htype; exact Hunrec).
    rewrite Htype, Hprompt. cbn. rewrite <- app_assoc. repeat split.
Qed.

Lemma unrecognized_type_witness :
  let env :=
    env_with_config
      [EntryObject (valid_item "neon alley" "2d" "background");
       EntryObject (valid_item "intro clip" "video" "cutscene");
       EntryObject (valid_item "boom" "audio" "sfx")] in
  exists reqs_before request reqs_after,
    load_asset_requests env "assets.json" empty_world
    = (Ok (reqs_before ++ request :: reqs_after), empty_world) /\
    Forall2 built_from [EntryObject (valid_item "neon alley" "2d" "background")]
      reqs_before /\
    Forall2 built_from [EntryObject (valid_item "boom" "audio" "sfx")] reqs_after /\
    built_from (EntryObject (valid_item "intro clip" "video" "cutscene")) request /\
    type request = "video"%string /\
    forall w0 : World,
      fst (generate_single_asset env "/proj" request w0) = Ok None /\
      stdout (snd (generate_single_asset env "/proj" request w0))
      = stdout w0
        ++ [LGenerating "video" (prefix_chars 50 "intro clip");
            LFailedToGenerate (ValueError ("Unknown asset type: " +:+ "video"))] /\
      sent (snd (generate_single_asset env "/proj" request w0)) = sent w0 /\
      files (snd (generate_single_asset env "/proj" request w0)) = files w0.
Proof.
  cbv zeta.
  apply (unrecognized_type_is_refused_at_generation_time _ "/proj" "assets.json"
           [EntryObject (valid_item "neon alley" "2d" "background")]
           [EntryObject (valid_item "boom" "audio" "sfx")]
           (valid_item "intro clip" "video" "cutscene")
           "intro clip" "video" "cutscene" empty_world).
  - reflexivity.
  - reflexivity.
  - reflexivity.
  - reflexivity.
  - repeat constructor; eexists; (split; [reflexivity |]); cbn; eauto.
  - repeat constructor; eexists; (split; [reflexivity |]); cbn; eauto.
  - reflexivity.
  - reflexivity.
Defined.

(** ** Computations that return *)

Lemma bind_Ok {A B} (m : M A) (k : A -> M B) (w w' : World) (b : B) :
  bind m k w = (Ok b, w') ->
  exists a w1, m w = (Ok a, w1) /\ k a w1 = (Ok b, w').
Proof.
  unfold bind. destruct (m w) as [[a|e] w1]; [eauto | discriminate].
Qed.

Lemma try_except_Ok {A} (m : M A) (h : Exn -> M A) (w w' : World) (a : A) :
  try_except m h w = (Ok a, w') ->
  m w = (Ok a, w') \/
  exists e w1, m w = (Raise e, w1) /\ h e w1 = (Ok a, w').
Proof.
  unfold try_except. destruct (m w) as [[a'|e] w1]; [now left |].
  destruct (is_Exception e); [eauto | discriminate].
Qed.

Lemma save_asset_service (env : Env) (root : string) (request : AssetRequest)
    (data : bytes) (format service : string) (w w' : World) (asset : GeneratedAsset) :
  _save_asset env root request data format service w = (Ok asset, w') ->
  service_used asset = service.
Proof.
  unfold _save_asset. intros H.
  repeat (apply bind_Ok in H; destruct H as (? & ? & ? & H)).
  injection H as <- _. reflexivity.
Qed.

(** A handler that prints and returns [None] never yields an asset. *)
Lemma print_then_None (l : LogLine) (w w' : World) (a : GeneratedAsset) :
  (print l ;; ret None) w <> (Ok (Some a), w').
Proof. unfold bind, print, ret. congruence. Qed.

Lemma nanobanana_service (env : Env) (root : string) (request : AssetRequest)
    (w w' : World) (asset : GeneratedAsset) :
  _generate_with_nanobanana env root request w = (Ok (Some asset), w') ->
  service_used asset = "nanobanana"%string.
Proof.
  unfold _generate_with_nanobanana. intros H.
  apply bind_Ok in H. destruct H as (_ & w1 & _ & H).
  apply try_except_Ok in H. destruct H as [H | (e & w2 & _ & H)];
    [| now apply print_then_None in H].
  apply bind_Ok in H. destruct H as (_ & w2 & _ & H).
  destruct (nanobanana_generate env _) as [e | status body];
    [discriminate |].
  destruct (status =? 200); [| now apply print_then_None in H].
  apply bind_Ok in H. destruct H as (image_data & w3 & _ & H).
  apply bind_Ok in H. destruct H as (a & w4 & Hsave & H).
  injection H as <- _. eapply save_asset_service; eauto.
Qed.

Lemma stability_service (env : Env) (root : string) (request : AssetRequest)
    (w w' : World) (asset : GeneratedAsset) :
  _generate_with_stability env root request w = (Ok (Some asset), w') ->
  service_used asset = "stability"%string.
Proof.
  unfold _generate_with_stability. intros H.
  apply bind_Ok in H. destruct H as (_ & w1 & _ & H).
  apply try_except_Ok in H. destruct H as [H | (e & w2 & _ & H)];
    [| now apply print_then_None in H].
  apply bind_Ok in H. destruct H as (_ & w2 & _ & H).
  destruct (stability_text_to_image env _) as [e | status body];
    [discriminate |].
  destruct (status =? 200); [| now apply print_then_None in H].
  apply bind_Ok in H. destruct H as ([|image_data rest] & w3 & _ & H);
    [discriminate |].
  apply bind_Ok in H. destruct H as (a & w4 & Hsave & H).
  injection H as <- _. eapply save_asset_service; eauto.
Qed.

Lemma midjourney_service (env : Env) (root : string) (request : AssetRequest)
    (w w' : World) (asset : GeneratedAsset) :
  _generate_with_midjourney env root request w = (Ok (Some asset), w') ->
  service_used asset = "midjourney"%string.
Proof.
  unfold _generate_with_midjourney. intros H.
  apply bind_Ok in H. destruct H as (_ & w1 & _ & H).
  apply try_except_Ok in H. destruct H as [H | (e & w2 & _ & H)];
    [| now apply print_then_None in H].
  apply bind_Ok in H. destruct H as (_ & w2 & _ & H).
  destruct (midjourney_imagine env _) as [e | status body];
    [discriminate |].
  destruct (status =? 200); [| now apply print_then_None in H].
  apply bind_Ok in H. destruct H as (job_id & w3 & _ & H).
  apply bind_Ok in H. destruct H as ([[|b bs]|] & w4 & _ & H);
    try discriminate.
  apply bind_Ok in H. destruct H as (a & w5 & Hsave & H).
  injection H as <- _. eapply save_asset_service; eauto.
Qed.

(** ** Routing *)


Lemma str_in_true (x : string) (l : list string) : In x l -> str_in x l = true.
Proof.
  intros H. unfold str_in. apply existsb_exists. exists x.
  split; [exact H | apply String.eqb_refl].
Qed.

Lemma str_in_false (x : string) (l : list string) : ~ In x l -> str_in x l = false.
Proof.
  intros H. unfold str_in. apply not_true_is_false. intros Hex.
  apply existsb_exists in Hex. destruct Hex as (y & Hy & Heq).
  apply String.eqb_eq in Heq. now subst y.
Qed.

(** Two lists of distinct literals have no common member. *)
Ltac clash H H1 :=
  let y := fresh "y" in
  let Hy := fresh "Hy" in
  let Heq := fresh "Heq" in
  apply existsb_exists in H1; destruct H1 as (y & Hy & Heq);
  apply String.eqb_eq in Heq; subst y; cbn [In] in H, Hy;
  intuition congruence.

Lemma generate_2d_asset_service (env : Env) (root : string) (request : AssetRequest)
    (w w' : World) (asset : GeneratedAsset) :
  _generate_2d_asset env root request w = (Ok (Some asset), w') ->
  service_used asset = routing_table (category request).
Proof.
  unfold _generate_2d_asset, routing_table.
  destruct (str_in (category request) ["sprite"; "character"]%string);
    [apply nanobanana_service |].
  destruct (str_in (category request) ["background"; "environment"]%string);
    [apply stability_service |].
  destruct (str_in (category request) ["ui"; "icon"]%string);
    [apply midjourney_service | apply stability_service].
Qed.

(** C5. For a request of type [2d], the category alone decides the service:
    sprite and character go to nanobanana, background and environment to
    stability, ui and icon to midjourney, and every other category to
    stability.  The asset, when one is produced, names that service. *)
Theorem image_routing_follows_the_table
    (env : Env) (root : string) (request : AssetRequest) :
  (In (category request) ["sprite"; "character"]%string ->
   _generate_2d_asset env root request = _generate_with_nanobanana env root request) /\
  (In (category request) ["background"; "environment"]%string ->
   _generate_2d_asset env root request = _generate_with_stability env root request) /\
  (In (category request) ["ui"; "icon"]%string ->
   _generate_2d_asset env root request = _generate_with_midjourney env root request) /\
  (~ In (category request)
       ["sprite"; "character"; "background"; "environment"; "ui"; "icon"]%string ->
   _generate_2d_asset env root request = _generate_with_stability env root request) /\
  (forall w w' asset,
     _generate_2d_asset env root request w = (Ok (Some asset), w') ->
     service_used asset = routing_table (category request)).
Proof.
  split; [| split; [| split; [| split]]].
  - intros H. unfold _generate_2d_asset. now rewrite (str_in_true _ _ H).
  - intros H. unfold _generate_2d_asset. rewrite (str_in_true _ _ H).
    destruct (str_in _ ["sprite"; _]) eqn:H1; [| reflexivity].
    exfalso. clash H H1.
  - intros H. unfold _generate_2d_asset. rewrite (str_in_true _ _ H).
    destruct (str_in _ ["sprite"; _]) eqn:H1; [exfalso; clash H H1 |].
    destruct (str_in _ ["background"; _]) eqn:H2; [exfalso; clash H H2 |].
    reflexivity.
  - intros H. unfold _generate_2d_asset.
    rewrite !str_in_false; try reflexivity; intros Hin; apply H; cbn [In] in *; tauto.
  - intros w w' asset. apply generate_2d_asset_service.
Qed.

Lemma image_routing_witness :
  _generate_2d_asset stub_env "/proj" (mk_request "menu frame" "2d" "ui")
  = _generate_with_midjourney stub_env "/proj" (mk_request "menu frame" "2d" "ui").
Proof.
  apply (proj1 (proj2 (proj2 (image_routing_follows_the_table stub_env "/proj"
                                (mk_request "menu frame" "2d" "ui"))))).
  cbn. tauto.
Defined.

(** ** The polling protocol *)

Lemma replicate_S_end {A} (k : nat) (x : A) :
  replicate (S k) x = replicate k x ++ [x].
Proof. induction k as [|k IH]; [reflexivity |]. cbn [replicate app] in *. now rewrite <- IH. Qed.

Section Polling.

Variable env : Env.
Variable job_id : string.

Lemma poll_once_other (attempt : nat) (w : World) :
  answers_other env job_id attempt ->
  poll_once env job_id attempt w
  = (Ok Continue, snd (record_call (poll_request job_id) w)).
Proof.
  intros (st & url & Hreply & Hc & Hf).
  unfold poll_once, try_except, bind, record_call, lift. cbn [fst snd].
  rewrite Hreply. cbn [Z.eqb Pos.eqb].
  apply String.eqb_neq in Hc, Hf. rewrite Hc, Hf. reflexivity.
Qed.

Lemma poll_once_failed (attempt : nat) (w : World) :
  answers_failed env job_id attempt ->
  poll_once env job_id attempt w
  = (Ok Break,
     snd (print (LMidjourneyJobFailed job_id)
            (snd (record_call (poll_request job_id) w)))).
Proof.
  intros (url & Hreply).
  unfold poll_once, try_except, bind, record_call, lift.
  rewrite Hreply. reflexivity.
Qed.

Lemma poll_once_completed (attempt : nat) (url : string) (content : bytes) (w : World) :
  answers_completed env job_id attempt url content ->
  poll_once env job_id attempt w
  = (Ok (Return content),
     snd (record_call (HttpGet url) (snd (record_call (poll_request job_id) w)))).
Proof.
  intros (Hreply & Hdl).
  unfold poll_once, try_except, bind, record_call, lift.
  rewrite Hreply. cbn. rewrite Hdl. reflexivity.
Qed.

Lemma poll_loop_failed (remaining attempt : nat) (w : World) :
  answers_failed env job_id attempt ->
  poll_loop env job_id (S remaining) attempt w
  = (Ok None,
     snd (print (LMidjourneyJobFailed job_id)
            (snd (record_call (poll_request job_id) (snd (asyncio_sleep 10 w)))))).
Proof.
  intros H. cbn [poll_loop]. unfold bind at 1. cbn [asyncio_sleep].
  unfold bind at 1. rewrite poll_once_failed by exact H. reflexivity.
Qed.

Lemma poll_loop_completed (remaining attempt : nat) (url : string)
    (content : bytes) (w : World) :
  answers_completed env job_id attempt url content ->
  poll_loop env job_id (S remaining) attempt w
  = (Ok (Some content),
     snd (record_call (HttpGet url)
            (snd (record_call (poll_request job_id) (snd (asyncio_sleep 10 w)))))).
Proof.
  intros H. cbn [poll_loop]. unfold bind at 1. cbn [asyncio_sleep].
  unfold bind at 1. rewrite (poll_once_completed attempt url content) by exact H.
  reflexivity.
Qed.

End Polling.

Section PollingGoesOn.

Variable env : Env.
Variable job_id : string.

Lemma poll_once_unfetched (attempt : nat) (url : string) (w : World) :
  answers_unfetched env job_id attempt url ->
  poll_once env job_id attempt w
  = (Ok Continue,
     snd (record_call (HttpGet url) (snd (record_call (poll_request job_id) w)))).
Proof.
  intros (Hreply & status & body & Hdl & Hne).
  unfold poll_once, try_except, bind, record_call, lift.
  rewrite Hreply. cbn. rewrite Hdl.
  apply Z.eqb_neq in Hne. rewrite Hne. reflexivity.
Qed.

Lemma requests_of_poll_other (attempt : nat) :
  answers_other env job_id attempt ->
  requests_of_poll env job_id attempt = [poll_request job_id].
Proof.
  intros (st & url & Hreply & Hc & _). unfold requests_of_poll. rewrite Hreply.
  apply String.eqb_neq in Hc. rewrite Hc. now destruct url.
Qed.

Lemma requests_of_poll_unfetched (attempt : nat) (url : string) :
  answers_unfetched env job_id attempt url ->
  requests_of_poll env job_id attempt = [poll_request job_id; HttpGet url].
Proof. intros (Hreply & _). unfold requests_of_poll. now rewrite Hreply. Qed.

Lemma poll_once_keeps_polling (attempt : nat) (w : World) :
  keeps_polling env job_id attempt ->
  exists w1,
    poll_once env job_id attempt w = (Ok Continue, w1) /\
    sent w1 = sent w ++ requests_of_poll env job_id attempt /\
    stdout w1 = stdout w /\ clock w1 = clock w.
Proof.
  intros [Hother | [url Hunf]].
  - rewrite poll_once_other by exact Hother.
    rewrite requests_of_poll_other by exact Hother. eexists. split; [reflexivity |].
    cbn. auto.
  - rewrite (poll_once_unfetched attempt url) by exact Hunf.
    rewrite (requests_of_poll_unfetched attempt url) by exact Hunf.
    eexists. split; [reflexivity |]. cbn. rewrite <- app_assoc. auto.
Qed.

(** While the polls keep polling, the loop goes on: after [k] such polls
    it is at attempt [first + k] with the rest of its budget, having sent
    the requests of these polls and printed nothing. *)
Lemma poll_loop_keeps_polling_prefix (k : nat) :
  forall (remaining first : nat) (w : World),
    (forall i, (i < k)%nat -> keeps_polling env job_id (first + i)) ->
    exists w1,
      poll_loop env job_id (k + remaining) first w
      = poll_loop env job_id remaining (first + k) w1 /\
      sent w1 = sent w ++ flat_map (requests_of_poll env job_id) (seq first k) /\
      stdout w1 = stdout w.
Proof.
  induction k as [|k IH]; intros remaining first w Hon.
  - exists w. rewrite Nat.add_0_r. cbn. rewrite app_nil_r. auto.
  - destruct (poll_once_keeps_polling first (snd (asyncio_sleep 10 w)))
      as (w0 & Hpoll & Hsent0 & Hout0 & _).
    { specialize (Hon 0%nat). rewrite Nat.add_0_r in Hon. apply Hon. lia. }
    cbn [Nat.add poll_loop]. unfold bind at 1. cbn [asyncio_sleep].
    unfold bind at 1. cbn [asyncio_sleep snd] in Hpoll. rewrite Hpoll.
    edestruct (IH remaining (S first) w0) as (w1 & Hloop & Hsent & Hout).
    { intros i Hi. replace (S first + i)%nat with (first + S i)%nat by lia.
      apply Hon. lia. }
    exists w1. rewrite Hloop, Hsent, Hout, Hsent0, Hout0.
    cbn [sent stdout asyncio_sleep snd seq flat_map].
    replace (first + S k)%nat with (S first + k)%nat by lia.
    rewrite <- app_assoc. auto.
Qed.

Lemma polls_sent_other (k first : nat) :
  (forall i, (i < k)%nat -> answers_other env job_id (first + i)) ->
  flat_map (requests_of_poll env job_id) (seq first k)
  = replicate k (poll_request job_id).
Proof.
  revert first. induction k as [|k IH]; intros first Hother; [reflexivity |].
  cbn [seq flat_map replicate].
  rewrite requests_of_poll_other
    by (specialize (Hother 0%nat); rewrite Nat.add_0_r in Hother; apply Hother; lia).
  rewrite IH; [reflexivity |].
  intros i Hi. replace (S first + i)%nat with (first + S i)%nat by lia.
  apply Hother. lia.
Qed.

End PollingGoesOn.

(** C6, as stated, fails: a job reported completed at every poll, whose
    image is served with status 503, gives no bytes; the loop polls and
    fetches thirty times, prints nothing and returns [None]. *)
Lemma completed_poll_with_failed_fetch_returns_nothing :
  let env := env_with_polls [] (Job "completed" (Some "https://cdn.example/job-1.png")) 503 in
  midjourney_job env "job-1" 0
  = Response 200 (Ok (Job "completed" (Some "https://cdn.example/job-1.png"))) /\
  fst (_poll_midjourney_job env "job-1" empty_world) = Ok None /\
  sent (snd (_poll_midjourney_job env "job-1" empty_world))
  = concat (replicate 30 [poll_request "job-1"; HttpGet "https://cdn.example/job-1.png"]) /\
  stdout (snd (_poll_midjourney_job env "job-1" empty_world)) = [].
Proof. cbv zeta. vm_compute. repeat split. Qed.

(** C6, as the code has it.  Let each of the first [k] polls of a job
    (k < 30) keep polling: it answers a status other than "completed" and
    "failed", or it answers "completed" and the fetch of the image answers
    a status other than 200.  If poll [k] answers "failed", the result is
    [None] with that poll the last request sent, the failure being
    printed; if it answers "completed" and the fetch answers 200, the
    result is the bytes fetched, the fetch being the last request; if it
    keeps polling, the loop goes on to the next attempt.  Thirty polls
    that keep polling end the loop with [None] and nothing printed.  The
    requests sent are one poll per attempt, each followed by its fetch
    where the poll answered "completed"; when no poll of the prefix did,
    they are [k] polls. *)
Theorem poll_midjourney_job_protocol
    (env : Env) (job_id : string) (k : nat) (w : World)
    (Hk : (k < 30)%nat)
    (Hprefix : forall i, (i < k)%nat -> keeps_polling env job_id i) :
  (answers_failed env job_id k ->
   fst (_poll_midjourney_job env job_id w) = Ok None /\
   sent (snd (_poll_midjourney_job env job_id w))
   = sent w ++ polls_sent env job_id k ++ [poll_request job_id] /\
   stdout (snd (_poll_midjourney_job env job_id w))
   = stdout w ++ [LMidjourneyJobFailed job_id]) /\
  (forall url content,
     answers_completed env job_id k url content ->
     fst (_poll_midjourney_job env job_id w) = Ok (Some content) /\
     sent (snd (_poll_midjourney_job env job_id w))
     = sent w ++ polls_sent env job_id k ++ [poll_request job_id; HttpGet url] /\
     stdout (snd (_poll_midjourney_job env job_id w)) = stdout w) /\
  (keeps_polling env job_id k ->
   exists w1,
     _poll_midjourney_job env job_id w = poll_loop env job_id (29 - k) (S k) w1 /\
     sent w1 = sent w ++ polls_sent env job_id (S k) /\
     stdout w1 = stdout w) /\
  ((forall i, (i < 30)%nat -> keeps_polling env job_id i) ->
   fst (_poll_midjourney_job env job_id w) = Ok None /\
   sent (snd (_poll_midjourney_job env job_id w)) = sent w ++ polls_sent env job_id 30 /\
   stdout (snd (_poll_midjourney_job env job_id w)) = stdout w) /\
  ((forall i, (i < k)%nat -> answers_other env job_id i) ->
   polls_sent env job_id k = replicate k (poll_request job_id)).
Proof.
  unfold _poll_midjourney_job, polls_sent.
  destruct (poll_loop_keeps_polling_prefix env job_id k (30 - k) 0 w Hprefix)
    as (w1 & Hloop & Hsent & Hout).
  replace (k + (30 - k))%nat with 30%nat in Hloop by lia.
  cbn [Nat.add] in Hloop.
  replace (30 - k)%nat with (S (29 - k)) in Hloop by lia.
  split; [| split; [| split; [| split]]].
  - intros Hfailed. rewrite Hloop, poll_loop_failed by exact Hfailed.
    cbn [fst snd sent stdout print record_call asyncio_sleep]. rewrite Hsent, Hout.
    rewrite <- app_assoc. auto.
  - intros url content Hdone.
    rewrite Hloop, (poll_loop_completed env job_id _ k url content) by exact Hdone.
    cbn [fst snd sent stdout print record_call asyncio_sleep]. rewrite Hsent, Hout.
    rewrite <- !app_assoc. auto.
  - intros Hon.
    destruct (poll_loop_keeps_polling_prefix env job_id (S k) (29 - k) 0 w)
      as (w2 & Hloop2 & Hsent2 & Hout2).
    { intros i Hi. destruct (decide (i = k)) as [-> | Hne];
        [exact Hon | apply Hprefix; lia]. }
    replace (S k + (29 - k))%nat with 30%nat in Hloop2 by lia.
    exists w2. auto.
  - intros Hall.
    destruct (poll_loop_keeps_polling_prefix env job_id 30 0 0 w)
      as (w2 & Hloop2 & Hsent2 & Hout2).
    { intros i Hi. apply Hall. exact Hi. }
    cbn [Nat.add] in Hloop2. rewrite Hloop2. cbn [poll_loop].
    unfold ret. cbn [fst snd]. auto.
  - intros Hother. apply polls_sent_other. exact Hother.
Qed.

Lemma poll_midjourney_job_witness :
  let env :=
    env_with_polls [Job "pending" None; Job "completed" (Some "https://cdn.example/job-1.png")]
      (Job "failed" None) 503 in
  fst (_poll_midjourney_job env "job-1" empty_world) = Ok None /\
  sent (snd (_poll_midjourney_job env "job-1" empty_world))
  = sent empty_world ++ polls_sent env "job-1" 2 ++ [poll_request "job-1"] /\
  stdout (snd (_poll_midjourney_job env "job-1" empty_world))
  = stdout empty_world ++ [LMidjourneyJobFailed "job-1"].
Proof.
  cbv zeta.
  apply (poll_midjourney_job_protocol
           (env_with_polls
              [Job "pending" None; Job "completed" (Some "https://cdn.example/job-1.png")]
              (Job "failed" None) 503) "job-1" 2 empty_world).
  - lia.
  - intros i Hi. destruct i as [|[|i]]; [| | lia].
    + left. exists "pending"%string, None. repeat split; discriminate.
    + right. exists "https://cdn.example/job-1.png"%string.
      split; [reflexivity |]. exists 503, (Ok png_bytes). split; [reflexivity | discriminate].
  - exists None. reflexivity.
Defined.

(** ** The batch *)

Lemma try_except_never_raises {A} (m : M A) (h : Exn -> M A) :
  (forall e, never_raises_Exception (h e)) ->
  never_raises_Exception (try_except m h).
Proof.
  intros Hh w e w'. unfold try_except.
  destruct (m w) as [[a|e1] w1]; [discriminate |].
  destruct (is_Exception e1) eqn:He1.
  - apply Hh.
  - now intros [= <- <-].
Qed.

Lemma generate_single_asset_never_raises (env : Env) (root : string)
    (request : AssetRequest) :
  never_raises_Exception (generate_single_asset env root request).
Proof.
  intros w e w'. unfold generate_single_asset, bind at 1. cbn [time_time].
  apply try_except_never_raises. intros e1 w1 e2 w2.
  unfold bind, print, ret. discriminate.
Qed.

Lemma gather_length {A} (tasks : list (M A)) :
  Forall never_raises_Exception tasks ->
  forall w rs w',
    gather tasks w = (Ok rs, w') ->
    length rs = length tasks /\ Forall (fun r => exists a, r = Ok a) rs.
Proof.
  induction 1 as [|t ts Ht Hts IH]; intros w rs w' H; cbn [gather] in H.
  - injection H as <- _. split; [reflexivity | constructor].
  - destruct (t w) as [[a|e] w1] eqn:Htw.
    + apply bind_Ok in H. destruct H as (rs' & w2 & Hrs' & H).
      injection H as <- _. destruct (IH _ _ _ Hrs') as [Hlen Hok].
      split; [cbn [length]; now rewrite Hlen | constructor; eauto].
    + rewrite (Ht _ _ _ Htw) in H. discriminate.
Qed.

Lemma collect_successful_length (i : nat) (rs : list (result (option GeneratedAsset))) :
  Forall (fun r => exists a, r = Ok a) rs ->
  forall w l w',
    collect_successful i rs w = (Ok l, w') -> length l = length rs.
Proof.
  intros Hok. revert i. induction Hok as [|r rs [a ->] Hrs IH]; intros i w l w' H;
    cbn [collect_successful] in H.
  - now injection H as <- _.
  - apply bind_Ok in H. destruct H as (l' & w1 & Hl' & H).
    injection H as <- _. cbn [length]. f_equal. eapply IH; eauto.
Qed.

(** Whatever the services answer, the list [generate_asset_batch] returns
    has one entry per request: an item that fails or is skipped leaves a
    [None] in it. *)
Lemma generate_asset_batch_length (env : Env) (root : string)
    (reqs : list AssetRequest) (w w' : World) (l : list (option GeneratedAsset)) :
  generate_asset_batch env root reqs w = (Ok l, w') ->
  length l = length reqs.
Proof.
  unfold generate_asset_batch. intros H.
  apply bind_Ok in H. destruct H as (_ & w1 & _ & H).
  apply bind_Ok in H. destruct H as (rs & w2 & Hgather & H).
  apply bind_Ok in H. destruct H as (l' & w3 & Hcollect & H).
  apply bind_Ok in H. destruct H as (_ & w4 & _ & H).
  injection H as <- _.
  apply gather_length in Hgather.
  - destruct Hgather as [Hlen Hok].
    rewrite (collect_successful_length _ _ Hok _ _ _ Hcollect), Hlen.
    apply length_map.
  - apply Forall_forall. intros t Ht. apply list_elem_of_In, in_map_iff in Ht.
    destruct Ht as (r & <- & _). apply generate_single_asset_never_raises.
Qed.

(** C2.  The batch of three requests, of which one goes to the failing
    service, one has a type without a service and one succeeds: the list
    returned has three entries, not 3 - 1 - 1 = 1 (two of them are [None]);
    the report written afterwards counts one successful generation out of
    three. *)
Theorem batch_returns_one_entry_per_request :
  let w := fresh_generator stub_env "/proj" in
  let out := generate_asset_batch stub_env "/proj" mixed_batch w in
  let w' := snd (save_generation_report stub_env "/proj/report.json" (snd out)) in
  returned_length out = Some 3%nat /\
  length (not_None (generated_assets (snd out))) = 1%nat /\
  (total_assets <$> report_at "/proj/report.json" w') = Some 3%nat /\
  (successful_generations <$> report_at "/proj/report.json" w') = Some 1%nat.
Proof. cbv zeta. vm_compute. repeat split. Qed.

(** C3.  A batch of one audio request, and one of a request of type 3d:
    the item is skipped (no asset, no exception, no error line, nothing
    sent, one "not yet implemented" line), and the report counts no
    successful generation; but the list [generate_asset_batch] returns, and
    the count [main] prints as generated successfully, hold one entry for
    the skipped item. *)
Theorem skipped_item_occupies_the_returned_list :
  let w := fresh_generator stub_env "/proj" in
  let env := env_with_config [EntryObject (valid_item "boom" "audio" "sfx")] in
  (generate_single_asset stub_env "/proj" audio_request w).1 = Ok None /\
  stdout (generate_single_asset stub_env "/proj" audio_request w).2
  = [LGenerating "audio" "boom"; LAudioNotImplemented "boom"] /\
  (generate_single_asset stub_env "/proj" volumetric_request w).1 = Ok None /\
  stdout (generate_single_asset stub_env "/proj" volumetric_request w).2
  = [LGenerating "3d" "crate"; L3dNotImplemented "crate"] /\
  (generate_asset_batch stub_env "/proj" [audio_request] w).1 = Ok [None] /\
  (generate_asset_batch stub_env "/proj" [volumetric_request] w).1 = Ok [None] /\
  exit_status (main env args_default empty_world).1 = 0 /\
  last (stdout (main env args_default empty_world).2) = Some (LGeneratedSuccessfully 1) /\
  (successful_generations
     <$> report_at "/proj/assets/generated/generation_report.json"
           (main env args_default empty_world).2) = Some 0%nat.
Proof. cbv zeta. vm_compute. repeat split. Qed.

(** ** Skipped items *)

Lemma get_limiter_Some (self : string) (l : RateLimiter) (w : World) :
  rate_limiters w !! self = Some l -> get_limiter self w = (Ok l, w).
Proof. intros H. unfold get_limiter. now rewrite H. Qed.

Lemma set_requests_Some (self : string) (l : RateLimiter) (reqs : list Q) (w : World) :
  rate_limiters w !! self = Some l ->
  set_requests self reqs w
  = (Ok tt,
     {| clock := clock w; stdout := stdout w; files := files w; sent := sent w;
        rate_limiters :=
          <[self := {| requests_per_minute := requests_per_minute l;
                       requests := reqs |}]> (rate_limiters w);
        generated_assets := generated_assets w |}).
Proof.
  intros H. unfold set_requests, bind. now rewrite (get_limiter_Some _ _ _ H).
Qed.

(** A limiter with a positive quota lets the caller through: [wait]
    returns, having printed at most the line that announces the sleep. *)
Lemma wait_returns (self : string) (l : RateLimiter) (w : World) :
  rate_limiters w !! self = Some l ->
  0 < requests_per_minute l ->
  exists w1,
    wait self w = (Ok tt, w1) /\
    (stdout w1 = stdout w \/ exists t, stdout w1 = stdout w ++ [LRateLimiting t]) /\
    sent w1 = sent w /\ files w1 = files w /\
    generated_assets w1 = generated_assets w.
Proof.
  intros Hl Hq. unfold wait. unfold bind at 1. cbn [time_time].
  unfold bind at 1. rewrite (get_limiter_Some _ _ _ Hl).
  set (kept := filter _ (requests l)).
  unfold bind at 1. rewrite (set_requests_Some _ _ kept _ Hl).
  set (w0 := {| clock := clock w; stdout := stdout w; files := files w;
                sent := sent w;
                rate_limiters :=
                  <[self := {| requests_per_minute := requests_per_minute l;
                               requests := kept |}]> (rate_limiters w);
                generated_assets := generated_assets w |}).
  assert (Hl0 : rate_limiters w0 !! self
                = Some {| requests_per_minute := requests_per_minute l;
                          requests := kept |})
    by apply lookup_insert_eq.
  assert (Hstep : exists w2,
             (if Z.of_nat (length kept) >=? requests_per_minute l
              then match kept with
                   | [] => raise IndexError
                   | oldest :: _ =>
                       if Qltb 0 (60 - (clock w - oldest))
                       then print (LRateLimiting (60 - (clock w - oldest)));;
                            asyncio_sleep (60 - (clock w - oldest))
                       else ret tt
                   end
              else ret tt) w0 = (Ok tt, w2) /\
             rate_limiters w2 = rate_limiters w0 /\
             (stdout w2 = stdout w \/ exists t, stdout w2 = stdout w ++ [LRateLimiting t]) /\
             sent w2 = sent w /\ files w2 = files w /\
             generated_assets w2 = generated_assets w).
  { destruct (Z.of_nat (length kept) >=? requests_per_minute l) eqn:Hfull.
    - destruct kept as [|oldest rest].
      + cbn [length Z.of_nat] in Hfull. apply Z.geb_le in Hfull. lia.
      + destruct (Qltb 0 (60 - (clock w - oldest))).
        * eexists. split; [reflexivity |]. cbn. eauto 10.
        * eexists. split; [reflexivity |]. cbn. eauto 10.
    - eexists. split; [reflexivity |]. cbn. eauto 10. }
  destruct Hstep as (w2 & Hstep & Hrl & Hout & Hsent & Hfiles & Hgen).
  rewrite <- Hrl in Hl0.
  unfold bind at 1. rewrite Hstep.
  unfold bind at 1. rewrite (get_limiter_Some _ _ _ Hl0).
  rewrite (set_requests_Some _ _ _ _ Hl0).
  eexists. split; [reflexivity |]. cbn [stdout sent files generated_assets]. auto.
Qed.

Lemma error_lines_print (l : LogLine) (w : World) :
  is_error_line l = false ->
  error_lines (snd (print l w)) = error_lines w.
Proof.
  intros H. unfold error_lines, print. cbn [snd stdout].
  rewrite filter_app, filter_cons_False, filter_nil, app_nil_r by congruence.
  reflexivity.
Qed.

(** What holds of every request whose type has no service, in a world
    whose audio limiter has a positive quota: the item yields no asset and
    no exception, prints no error line, sends nothing and writes nothing. *)
Lemma unsupported_type_is_skipped (env : Env) (root : string)
    (request : AssetRequest) (l : RateLimiter) (w : World) :
  type request = "3d"%string \/ type request = "audio"%string ->
  rate_limiters w !! "elevenlabs"%string = Some l ->
  0 < requests_per_minute l ->
  exists w1,
    generate_single_asset env root request w = (Ok None, w1) /\
    error_lines w1 = error_lines w /\
    sent w1 = sent w /\ files w1 = files w /\
    generated_assets w1 = generated_assets w.
Proof.
  intros Hty Hl Hq. unfold generate_single_asset, bind at 1. cbn [time_time].
  unfold try_except, bind at 1.
  set (w0 := snd (print (LGenerating (type request) (prefix_chars 50 (prompt request))) w)).
  change (print (LGenerating (type request) (prefix_chars 50 (prompt request))) w)
    with (Ok tt, w0).
  assert (H0 : error_lines w0 = error_lines w /\ sent w0 = sent w /\ files w0 = files w
               /\ generated_assets w0 = generated_assets w
               /\ rate_limiters w0 = rate_limiters w).
  { subst w0. rewrite error_lines_print by reflexivity. cbn. auto. }
  destruct H0 as (He0 & Hs0 & Hf0 & Hg0 & Hr0).
  destruct Hty as [-> | ->]; cbn [String.eqb Ascii.eqb Bool.eqb andb].
  - unfold bind at 1, _generate_3d_asset, bind at 1.
    eexists. split; [reflexivity |].
    cbn [snd print ret stdout sent files generated_assets].
    change (error_lines (snd (print (L3dNotImplemented (prompt request)) w0))
            = error_lines w /\ sent w0 = sent w /\ files w0 = files w
              /\ generated_assets w0 = generated_assets w).
    rewrite error_lines_print by reflexivity. auto.
  - rewrite <- Hr0 in Hl.
    destruct (wait_returns "elevenlabs" l w0 Hl Hq)
      as (w1 & Hwait & Hout & Hs1 & Hf1 & Hg1).
    unfold bind at 1, _generate_audio_asset, bind at 1. rewrite Hwait.
    unfold try_except, bind at 1.
    eexists. split; [reflexivity |].
    cbn [snd print ret stdout sent files generated_assets].
    change (error_lines (snd (print (LAudioNotImplemented (prompt request)) w1))
            = error_lines w /\ sent w1 = sent w /\ files w1 = files w
              /\ generated_assets w1 = generated_assets w).
    rewrite error_lines_print by reflexivity.
    repeat split; try congruence.
    rewrite <- He0. unfold error_lines.
    destruct Hout as [-> | [t ->]]; [reflexivity |].
    rewrite filter_app, filter_cons_False, filter_nil, app_nil_r by (cbn; congruence).
    reflexivity.
Qed.

(** * Further properties *)

(** ** How computations end *)

Lemma bind_inv {A B} (m : M A) (k : A -> M B) (w w' : World) (r : result B) :
  bind m k w = (r, w') ->
  (exists a w1, m w = (Ok a, w1) /\ k a w1 = (r, w')) \/
  (exists e, m w = (Raise e, w') /\ r = Raise e).
Proof.
  unfold bind. destruct (m w) as [[a|e] w1]; [eauto |].
  intros [= <- <-]. eauto.
Qed.

Lemma try_except_inv {A} (m : M A) (h : Exn -> M A) (w w' : World) (r : result A) :
  try_except m h w = (r, w') ->
  (exists a, m w = (Ok a, w') /\ r = Ok a) \/
  (exists e w1, m w = (Raise e, w1) /\ is_Exception e = true /\ h e w1 = (r, w')) \/
  (exists e, m w = (Raise e, w') /\ is_Exception e = false /\ r = Raise e).
Proof.
  unfold try_except. destruct (m w) as [[a|e] w1].
  - intros [= <- <-]. eauto.
  - destruct (is_Exception e) eqn:He; [eauto 10 |].
    intros [= <- <-]. eauto 10.
Qed.

Create HintDb respects.

Section Respects.

Variable R : World -> World -> Prop.
Hypothesis R_refl : forall w, R w w.
Hypothesis R_trans : forall a b c, R a b -> R b c -> R a c.

Lemma respects_ret {A} (a : A) : respects R (ret a).
Proof. intros w r w' [= _ <-]. apply R_refl. Qed.

Lemma respects_raise {A} (e : Exn) : respects R (raise (A := A) e).
Proof. intros w r w' [= _ <-]. apply R_refl. Qed.

Lemma respects_lift {A} (x : result A) : respects R (lift x).
Proof. intros w r w' [= _ <-]. apply R_refl. Qed.

Lemma respects_time_time : respects R time_time.
Proof. intros w r w' [= _ <-]. apply R_refl. Qed.

Lemma respects_get_limiter (self : string) : respects R (get_limiter self).
Proof.
  intros w r w'. unfold get_limiter.
  destruct (rate_limiters w !! self); intros [= _ <-]; apply R_refl.
Qed.

Lemma respects_bind {A B} (m : M A) (k : A -> M B) :
  respects R m -> (forall a, respects R (k a)) -> respects R (bind m k).
Proof.
  intros Hm Hk w r w' H. apply bind_inv in H.
  destruct H as [(a & w1 & H1 & H2) | (e & H1 & _)].
  - eapply R_trans; [eapply Hm | eapply Hk]; eauto.
  - eapply Hm; eauto.
Qed.

Lemma respects_try_except {A} (m : M A) (h : Exn -> M A) :
  respects R m -> (forall e, respects R (h e)) -> respects R (try_except m h).
Proof.
  intros Hm Hh w r w' H. apply try_except_inv in H.
  destruct H as [(a & H1 & _) | [(e & w1 & H1 & _ & H2) | (e & H1 & _)]].
  - eapply Hm; eauto.
  - eapply R_trans; [eapply Hm | eapply Hh]; eauto.
  - eapply Hm; eauto.
Qed.

Hypothesis R_print : forall l w, R w (snd (print l w)).
Hypothesis R_sleep : forall d w, Qltb 0 d = true -> R w (snd (asyncio_sleep d w)).
Hypothesis R_call : forall c w, R w (snd (record_call c w)).
Hypothesis R_write : forall path c w, R w (snd (set_files (<[path := c]> (files w)) w)).
Hypothesis R_requests : forall self l reqs w,
  rate_limiters w !! self = Some l ->
  R w (snd (set_rate_limiters
              (<[self := {| requests_per_minute := requests_per_minute l;
                            requests := reqs |}]> (rate_limiters w)) w)).

Lemma respects_print (l : LogLine) : respects R (print l).
Proof. intros w r w' H. replace w' with (snd (print l w)) by now rewrite H. apply R_print. Qed.

Lemma respects_record_call (c : NetCall) : respects R (record_call c).
Proof. intros w r w' H. replace w' with (snd (record_call c w)) by now rewrite H. apply R_call. Qed.

Lemma respects_sleep (d : Q) : Qltb 0 d = true -> respects R (asyncio_sleep d).
Proof.
  intros Hd w r w' H. replace w' with (snd (asyncio_sleep d w)) by now rewrite H.
  now apply R_sleep.
Qed.

Lemma respects_write_file (env : Env) (path : string) (c : FileContent) :
  respects R (write_file env path c).
Proof.
  intros w r w'. unfold write_file. destruct (writable env path).
  - intros H. match type of H with ?x = _ => replace w' with (snd x) by now rewrite H end.
    apply R_write.
  - destruct (opened env path).
    + intros [= _ <-]. apply (R_write path Incomplete w).
    + intros [= _ <-]. apply R_refl.
Qed.

Lemma respects_set_requests (self : string) (reqs : list Q) :
  respects R (set_requests self reqs).
Proof.
  intros w r w'. unfold set_requests, bind, get_limiter.
  destruct (rate_limiters w !! self) as [l|] eqn:Hl.
  - intros H. match type of H with ?x = _ => replace w' with (snd x) by now rewrite H end.
    now apply R_requests.
  - intros [= _ <-]. apply R_refl.
Qed.

#[local] Hint Resolve respects_ret respects_raise respects_lift respects_time_time
  respects_get_limiter respects_print respects_record_call
  respects_write_file respects_set_requests : respects.

(** Goes through a computation, one construct at a time. *)
Ltac respects_step :=
  match goal with
  | |- respects _ (bind _ _) => apply respects_bind; [| intros ?]
  | |- respects _ (try_except _ _) => apply respects_try_except; [| intros ?]
  | |- respects _ (if ?b then _ else _) => destruct b eqn:?
  | |- respects _ (match ?x with _ => _ end) => destruct x eqn:?
  | |- respects _ (let '_ := ?x in _) => destruct x eqn:?
  | |- respects _ _ => solve [eauto with respects]
  end.

Lemma respects_wait (self : string) : respects R (wait self).
Proof.
  unfold wait. repeat respects_step.
  now apply respects_sleep.
Qed.

Lemma respects_save_asset (env : Env) (root : string) (request : AssetRequest)
    (data : bytes) (format service : string) :
  respects R (_save_asset env root request data format service).
Proof. unfold _save_asset, _generate_asset_id. repeat respects_step. Qed.

#[local] Hint Resolve respects_wait respects_save_asset : respects.

Lemma respects_nanobanana (env : Env) (root : string) (request : AssetRequest) :
  respects R (_generate_with_nanobanana env root request).
Proof. unfold _generate_with_nanobanana. repeat respects_step. Qed.

Lemma respects_stability (env : Env) (root : string) (request : AssetRequest) :
  respects R (_generate_with_stability env root request).
Proof. unfold _generate_with_stability. repeat respects_step. Qed.

Lemma respects_poll_once (env : Env) (job_id : string) (attempt : nat) :
  respects R (poll_once env job_id attempt).
Proof. unfold poll_once. repeat respects_step. Qed.

Lemma respects_poll_loop (env : Env) (job_id : string) (remaining : nat) :
  forall attempt, respects R (poll_loop env job_id remaining attempt).
Proof.
  induction remaining as [|n IH]; intros attempt; cbn [poll_loop].
  - eauto with respects.
  - pose proof (respects_poll_once env job_id attempt).
    repeat respects_step; try apply IH; try assumption.
    now apply respects_sleep.
Qed.

Lemma respects_midjourney (env : Env) (root : string) (request : AssetRequest) :
  respects R (_generate_with_midjourney env root request).
Proof.
  unfold _generate_with_midjourney, _poll_midjourney_job.
  pose proof (respects_poll_loop env).
  repeat respects_step.
Qed.

#[local] Hint Resolve respects_nanobanana respects_stability respects_midjourney : respects.

Lemma respects_generate_single_asset (env : Env) (root : string)
    (request : AssetRequest) :
  respects R (generate_single_asset env root request).
Proof.
  unfold generate_single_asset, _generate_2d_asset, _generate_3d_asset,
    _generate_audio_asset.
  repeat respects_step.
Qed.

Lemma respects_gather {A} (tasks : list (M A)) :
  Forall (respects R) tasks -> respects R (gather tasks).
Proof.
  induction 1 as [|t ts Ht Hts IH]; cbn [gather]; [eauto with respects |].
  intros w r w' H. destruct (t w) as [[a|e] w1] eqn:Htw.
  - eapply R_trans; [eapply Ht; eauto |].
    revert H. apply respects_bind; [exact IH | eauto with respects].
  - destruct (is_Exception e).
    + eapply R_trans; [eapply Ht; eauto |].
      revert H. apply respects_bind; [exact IH | eauto with respects].
    + injection H as _ <-. eapply Ht; eauto.
Qed.

Lemma respects_collect_successful (rs : list (result (option GeneratedAsset))) :
  forall i, respects R (collect_successful i rs).
Proof.
  induction rs as [|[a|e] rs IH]; intros i; cbn [collect_successful];
    repeat respects_step; apply IH.
Qed.

Lemma respects_gather_singles (env : Env) (root : string) (reqs : list AssetRequest) :
  respects R (gather (map (generate_single_asset env root) reqs)).
Proof.
  apply respects_gather, Forall_forall. intros t Ht.
  apply list_elem_of_In, in_map_iff in Ht. destruct Ht as (r & <- & _).
  apply respects_generate_single_asset.
Qed.

Lemma respects_load_asset_requests (env : Env) (config_file : string) :
  respects R (load_asset_requests env config_file).
Proof.
  unfold load_asset_requests, json_load. repeat respects_step.
Qed.

Hypothesis R_generated : forall l w, R w (snd (set_generated_assets l w)).
Hypothesis R_limiters : forall rl w, R w (snd (set_rate_limiters rl w)).

Lemma respects_set_generated_assets (l : list (option GeneratedAsset)) :
  respects R (set_generated_assets l).
Proof.
  intros w r w' H. replace w' with (snd (set_generated_assets l w)) by now rewrite H.
  apply R_generated.
Qed.

Lemma respects_set_rate_limiters (rl : gmap string RateLimiter) :
  respects R (set_rate_limiters rl).
Proof.
  intros w r w' H. replace w' with (snd (set_rate_limiters rl w)) by now rewrite H.
  apply R_limiters.
Qed.

Lemma respects_generate_asset_batch (env : Env) (root : string)
    (reqs : list AssetRequest) :
  respects R (generate_asset_batch env root reqs).
Proof.
  unfold generate_asset_batch.
  pose proof (respects_gather_singles env root reqs).
  pose proof respects_collect_successful.
  repeat respects_step.
  intros w r w' H1. eapply respects_set_generated_assets; eauto.
Qed.

Lemma respects_save_generation_report (env : Env) (output_path : string) :
  respects R (save_generation_report env output_path).
Proof.
  unfold save_generation_report. repeat respects_step.
  intros w r w' H1. eapply respects_write_file; eauto.
Qed.

Lemma respects_AssetGenerator__init__ (env : Env) (root : string) :
  respects R (AssetGenerator__init__ env root).
Proof.
  unfold AssetGenerator__init__.
  pose proof respects_set_generated_assets. pose proof respects_set_rate_limiters.
  repeat respects_step.
  cbn [fold_right CONFIG_output_dirs]. repeat respects_step.
Qed.

Lemma respects_main (env : Env) (args : Args) : respects R (main env args).
Proof.
  unfold main.
  pose proof respects_load_asset_requests. pose proof respects_AssetGenerator__init__.
  pose proof respects_generate_asset_batch. pose proof respects_save_generation_report.
  repeat respects_step.
Qed.

End Respects.

(** ** What a run only adds to *)

Lemma output_grows_refl (w : World) : output_grows w w.
Proof. unfold output_grows. repeat split; try reflexivity. apply Qle_refl. Qed.

Lemma output_grows_trans (a b c : World) :
  output_grows a b -> output_grows b c -> output_grows a c.
Proof.
  intros (H1 & H2 & H3 & H4) (K1 & K2 & K3 & K4). unfold output_grows.
  repeat split; try (etransitivity; eassumption).
  eapply Qle_trans; eassumption.
Qed.

Lemma Qltb_lt (a b : Q) : Qltb a b = true -> (a < b)%Q.
Proof.
  unfold Qltb. intros H. apply negb_true_iff in H.
  apply Qnot_le_lt. intros Hle. apply Qle_bool_iff in Hle. congruence.
Qed.

Lemma output_grows_sleep (d : Q) (w : World) :
  Qltb 0 d = true -> output_grows w (snd (asyncio_sleep d w)).
Proof.
  intros Hd. apply Qltb_lt in Hd. unfold output_grows. cbn.
  repeat split; try reflexivity.
  rewrite <- (Qplus_0_r (clock w)) at 1.
  apply Qplus_le_r. now apply Qlt_le_weak.
Qed.

Lemma output_grows_write (path : string) (c : FileContent) (w : World) :
  output_grows w (snd (set_files (<[path := c]> (files w)) w)).
Proof.
  unfold output_grows. cbn. repeat split; try reflexivity; try apply Qle_refl.
  apply dom_insert_subseteq.
Qed.

(** X1. Whatever the services, the disk and the configuration file answer,
    a run of [main] only adds: the clock does not go back, the lines
    printed and the requests sent so far stay a prefix of the later ones,
    and every file that existed still exists. *)
Theorem main_only_adds (env : Env) (args : Args) (w w' : World) (r : result unit)
    (Hrun : main env args w = (r, w')) :
  (clock w <= clock w')%Q /\
  stdout w `prefix_of` stdout w' /\
  sent w `prefix_of` sent w' /\
  dom (files w) ⊆ dom (files w').
Proof.
  revert w r w' Hrun. apply respects_main.
  - apply output_grows_refl.
  - apply output_grows_trans.
  - intros l w. unfold output_grows. cbn.
    repeat split; try reflexivity; try apply Qle_refl. now apply prefix_app_r.
  - apply output_grows_sleep.
  - intros c w. unfold output_grows. cbn.
    repeat split; try reflexivity; try apply Qle_refl. now apply prefix_app_r.
  - apply output_grows_write.
  - intros self l reqs w _. unfold output_grows. cbn.
    repeat split; try reflexivity. apply Qle_refl.
  - intros l w. unfold output_grows. cbn.
    repeat split; try reflexivity. apply Qle_refl.
  - intros rl w. unfold output_grows. cbn.
    repeat split; try reflexivity. apply Qle_refl.
Qed.

Lemma main_only_adds_witness :
  let env := env_with_config [EntryObject (valid_item "neon alley" "2d" "background")] in
  (clock empty_world <= clock (snd (main env args_default empty_world)))%Q /\
  stdout empty_world `prefix_of` stdout (snd (main env args_default empty_world)) /\
  sent empty_world `prefix_of` sent (snd (main env args_default empty_world)) /\
  dom (files empty_world) ⊆ dom (files (snd (main env args_default empty_world))).
Proof.
  cbv zeta.
  apply (main_only_adds
           (env_with_config [EntryObject (valid_item "neon alley" "2d" "background")])
           args_default empty_world
           (snd (main (env_with_config
                         [EntryObject (valid_item "neon alley" "2d" "background")])
                   args_default empty_world))
           (fst (main (env_with_config
                         [EntryObject (valid_item "neon alley" "2d" "background")])
                   args_default empty_world))).
  vm_compute. reflexivity.
Defined.

(** ** What an item leaves alone *)

Lemma generator_kept_refl (w : World) : generator_kept w w.
Proof. split; [reflexivity | eauto]. Qed.

Lemma generator_kept_trans (a b c : World) :
  generator_kept a b -> generator_kept b c -> generator_kept a c.
Proof.
  intros [H1 H2] [K1 K2]. split; [congruence |].
  intros self l Hl. destruct (H2 _ _ Hl) as (l1 & Hl1 & Hq1).
  destruct (K2 _ _ Hl1) as (l2 & Hl2 & Hq2). exists l2. split; [assumption | congruence].
Qed.

Lemma generator_kept_single (env : Env) (root : string) (request : AssetRequest) :
  respects generator_kept (generate_single_asset env root request).
Proof.
  apply respects_generate_single_asset.
  - apply generator_kept_refl.
  - apply generator_kept_trans.
  - intros l w. split; [reflexivity | cbn; eauto].
  - intros d w _. split; [reflexivity | cbn; eauto].
  - intros c w. split; [reflexivity | cbn; eauto].
  - intros path c w. split; [reflexivity | cbn; eauto].
  - intros self l reqs w Hl. split; [reflexivity |]. cbn.
    intros self' l0 Hl0. destruct (decide (self = self')) as [<- | Hne].
    + rewrite lookup_insert_eq. eexists. split; [reflexivity |]. cbn. congruence.
    + rewrite lookup_insert_ne by exact Hne. eauto.
Qed.

(** X2. Generating one item, whatever its outcome, leaves the generator's
    result list as it was and keeps every limiter with its quota: only
    [generate_asset_batch] adds to the results, and no quota ever changes. *)
Theorem single_asset_keeps_results_and_quotas
    (env : Env) (root : string) (request : AssetRequest) (w w' : World)
    (r : result (option GeneratedAsset)) (self : string) (l : RateLimiter)
    (Hrun : generate_single_asset env root request w = (r, w'))
    (Hlimiter : rate_limiters w !! self = Some l) :
  generated_assets w' = generated_assets w /\
  exists l', rate_limiters w' !! self = Some l' /\
             requests_per_minute l' = requests_per_minute l.
Proof.
  destruct (generator_kept_single env root request w r w' Hrun) as [Hg Hq].
  split; [exact Hg | now apply Hq].
Qed.

Lemma single_asset_keeps_results_and_quotas_witness :
  let w := fresh_generator stub_env "/proj" in
  let out := generate_single_asset stub_env "/proj" (mk_request "menu frame" "2d" "ui") w in
  generated_assets (snd out) = generated_assets w /\
  exists l', rate_limiters (snd out) !! "midjourney"%string = Some l' /\
             requests_per_minute l'
             = requests_per_minute {| requests_per_minute := 5; requests := [] |}.
Proof.
  cbv zeta.
  apply (single_asset_keeps_results_and_quotas stub_env "/proj"
           (mk_request "menu frame" "2d" "ui") (fresh_generator stub_env "/proj")
           (snd (generate_single_asset stub_env "/proj" (mk_request "menu frame" "2d" "ui")
                   (fresh_generator stub_env "/proj")))
           (fst (generate_single_asset stub_env "/proj" (mk_request "menu frame" "2d" "ui")
                   (fresh_generator stub_env "/proj")))).
  - vm_compute. reflexivity.
  - vm_compute. reflexivity.
Defined.

(** ** The limiter, call by call *)

Lemma recent_is_recent (now t : Q) (reqs : list Q) :
  t ∈ recent now reqs -> (0 < 60 - (now - t))%Q.
Proof.
  unfold recent. intros H. apply list_elem_of_filter in H. destruct H as [H _].
  apply Qltb_lt in H. unfold Qminus in *.
  apply (Qplus_lt_l _ _ (now + - t)). ring_simplify. exact H.
Qed.

Lemma wait_below_quota_run (self : string) (l : RateLimiter) (w : World) :
  rate_limiters w !! self = Some l ->
  Z.of_nat (length (recent (clock w) (requests l))) < requests_per_minute l ->
  wait self w
  = (Ok tt,
     {| clock := clock w; stdout := stdout w; files := files w; sent := sent w;
        rate_limiters :=
          <[self := {| requests_per_minute := requests_per_minute l;
                       requests := recent (clock w) (requests l) ++ [clock w] |}]>
            (<[self := {| requests_per_minute := requests_per_minute l;
                          requests := recent (clock w) (requests l) |}]>
               (rate_limiters w));
        generated_assets := generated_assets w |}).
Proof.
  intros Hlimiter Hbelow.
  unfold wait. unfold bind at 1. cbn [time_time].
  unfold bind at 1. rewrite (get_limiter_Some _ _ _ Hlimiter).
  fold (recent (clock w) (requests l)).
  unfold bind at 1. rewrite (set_requests_Some _ _ _ _ Hlimiter).
  assert (Hg : (Z.of_nat (length (recent (clock w) (requests l)))
                >=? requests_per_minute l) = false)
    by (rewrite Z.geb_leb; apply Z.leb_gt; lia).
  rewrite Hg.
  unfold bind at 1. cbn [ret].
  unfold bind at 1. erewrite get_limiter_Some by apply lookup_insert_eq.
  erewrite set_requests_Some by apply lookup_insert_eq.
  reflexivity.
Qed.

(** X3. Below the quota, [wait] returns at once: it neither sleeps nor
    prints, and it leaves in the limiter the timestamps of the last 60
    seconds followed by the instant of the call. *)
Theorem wait_below_quota_admits_at_once
    (self : string) (l : RateLimiter) (w : World)
    (Hlimiter : rate_limiters w !! self = Some l)
    (Hbelow : Z.of_nat (length (recent (clock w) (requests l))) < requests_per_minute l) :
  fst (wait self w) = Ok tt /\
  clock (snd (wait self w)) = clock w /\
  stdout (snd (wait self w)) = stdout w /\
  rate_limiters (snd (wait self w)) !! self
  = Some {| requests_per_minute := requests_per_minute l;
            requests := recent (clock w) (requests l) ++ [clock w] |}.
Proof.
  rewrite (wait_below_quota_run self l w Hlimiter Hbelow). cbn.
  rewrite lookup_insert_eq. auto.
Qed.

Lemma wait_below_quota_witness :
  let w := fresh_generator stub_env "/proj" in
  fst (wait "midjourney" w) = Ok tt /\
  clock (snd (wait "midjourney" w)) = clock w /\
  stdout (snd (wait "midjourney" w)) = stdout w /\
  rate_limiters (snd (wait "midjourney" w)) !! "midjourney"%string
  = Some {| requests_per_minute := 5; requests := recent (clock w) [] ++ [clock w] |}.
Proof.
  cbv zeta.
  apply (wait_below_quota_admits_at_once "midjourney"
           {| requests_per_minute := 5; requests := [] |}
           (fresh_generator stub_env "/proj")).
  - reflexivity.
  - reflexivity.
Defined.

Lemma wait_at_quota_run (self : string) (l : RateLimiter) (w : World)
    (oldest : Q) (rest : list Q) :
  rate_limiters w !! self = Some l ->
  recent (clock w) (requests l) = oldest :: rest ->
  requests_per_minute l <= Z.of_nat (length (oldest :: rest)) ->
  wait self w
  = (Ok tt,
     {| clock := (clock w + (60 - (clock w - oldest)))%Q;
        stdout := stdout w ++ [LRateLimiting (60 - (clock w - oldest))];
        files := files w; sent := sent w;
        rate_limiters :=
          <[self := {| requests_per_minute := requests_per_minute l;
                       requests := (oldest :: rest) ++ [clock w] |}]>
            (<[self := {| requests_per_minute := requests_per_minute l;
                          requests := oldest :: rest |}]>
               (rate_limiters w));
        generated_assets := generated_assets w |}).
Proof.
  intros Hlimiter Hkept Hfull.
  assert (Hpos : (0 < 60 - (clock w - oldest))%Q).
  { apply (recent_is_recent _ _ (requests l)). rewrite Hkept. left. }
  unfold wait. unfold bind at 1. cbn [time_time].
  unfold bind at 1. rewrite (get_limiter_Some _ _ _ Hlimiter).
  fold (recent (clock w) (requests l)). rewrite Hkept.
  unfold bind at 1. rewrite (set_requests_Some _ _ _ _ Hlimiter).
  apply Z.geb_le in Hfull. rewrite Hfull.
  assert (Hb : Qltb 0 (60 - (clock w - oldest)) = true).
  { unfold Qltb. apply negb_true_iff. apply not_true_is_false. intros Hle.
    apply Qle_bool_iff in Hle. apply Qle_not_lt in Hle. contradiction. }
  rewrite Hb.
  unfold bind at 1. unfold bind at 1. cbn [print asyncio_sleep].
  unfold bind at 1. erewrite get_limiter_Some by apply lookup_insert_eq.
  erewrite set_requests_Some by apply lookup_insert_eq.
  reflexivity.
Qed.

(** X4. At the quota, [wait] always sleeps: the oldest timestamp it kept
    is less than 60 seconds old, so the time to wait is positive.  It
    prints the wait, returns at the instant the oldest timestamp turns 60
    seconds old, and records the instant at which it was called, not the
    one at which it returns. *)
Theorem wait_at_quota_sleeps_until_the_oldest_expires
    (self : string) (l : RateLimiter) (w : World) (oldest : Q) (rest : list Q)
    (Hlimiter : rate_limiters w !! self = Some l)
    (Hkept : recent (clock w) (requests l) = oldest :: rest)
    (Hfull : requests_per_minute l <= Z.of_nat (length (oldest :: rest))) :
  fst (wait self w) = Ok tt /\
  (clock w < clock (snd (wait self w)))%Q /\
  (clock (snd (wait self w)) == oldest + 60)%Q /\
  stdout (snd (wait self w)) = stdout w ++ [LRateLimiting (60 - (clock w - oldest))] /\
  rate_limiters (snd (wait self w)) !! self
  = Some {| requests_per_minute := requests_per_minute l;
            requests := (oldest :: rest) ++ [clock w] |}.
Proof.
  assert (Hpos : (0 < 60 - (clock w - oldest))%Q).
  { apply (recent_is_recent _ _ (requests l)). rewrite Hkept. left. }
  rewrite (wait_at_quota_run self l w oldest rest Hlimiter Hkept Hfull).
  cbn [fst snd clock stdout rate_limiters]. rewrite lookup_insert_eq.
  repeat split.
  - rewrite <- (Qplus_0_r (clock w)) at 1. now apply Qplus_lt_r.
  - ring.
Qed.

Lemma wait_at_quota_witness :
  exists w,
    world_with_limiter "rl" 1 = Ok w /\
    let w1 := snd (wait "rl" w) in
    let w2 := snd (advance_to 10 w1) in
    fst (wait "rl" w2) = Ok tt /\
    (clock w2 < clock (snd (wait "rl" w2)))%Q /\
    (clock (snd (wait "rl" w2)) == 0 + 60)%Q /\
    stdout (snd (wait "rl" w2)) = stdout w2 ++ [LRateLimiting (60 - (clock w2 - 0))] /\
    rate_limiters (snd (wait "rl" w2)) !! "rl"%string
    = Some {| requests_per_minute := 1; requests := [0%Q] ++ [clock w2] |}.
Proof.
  eexists. split; [reflexivity |]. cbv zeta.
  apply (wait_at_quota_sleeps_until_the_oldest_expires "rl"
           {| requests_per_minute := 1; requests := [0%Q] |}).
  - vm_compute. reflexivity.
  - vm_compute. reflexivity.
  - vm_compute. discriminate.
Defined.

(** ** The artifact store, case by case *)

Lemma getitem_missing {A} (d : list (string * A)) (key : string) :
  ~ In key (map fst d) -> getitem d key = Raise (KeyError key).
Proof.
  induction d as [|[k v] d IH]; cbn [getitem map fst In]; [reflexivity |].
  intros H. destruct (String.eqb_spec k key) as [-> | Hne]; [tauto |].
  apply IH. tauto.
Qed.

Lemma getitem_Ok_In {A} (d : list (string * A)) (key : string) (v : A) :
  getitem d key = Ok v -> In (key, v) d.
Proof.
  induction d as [|[k v'] d IH]; cbn [getitem In]; [discriminate |].
  destruct (String.eqb_spec k key) as [-> | Hne]; [intros [= ->]; now left | auto].
Qed.

(** What a call of [_save_asset] that returns has done. *)
Lemma save_asset_Ok_inv (env : Env) (root : string) (request : AssetRequest)
    (data : bytes) (format service : string) (w w' : World) (asset : GeneratedAsset) :
  _save_asset env root request data format service w = (Ok asset, w') ->
  exists dir,
    getitem CONFIG_output_dirs (type request) = Ok dir /\
    let asset_id := asset_id_at (clock w) request in
    let m := {| generation_service := service; original_request := request;
                file_format := format; md_file_size := Z.of_nat (length data);
                md_checksum := sha256_hexdigest data; md_created_at := clock w;
                version := "1.0" |} in
    asset = {| id := asset_id; request := request;
               file_path := artifact_path root dir asset_id format;
               service_used := service; generation_time := 0;
               file_size := Z.of_nat (length data);
               checksum := sha256_hexdigest data;
               asset_metadata := m; created_at := clock w |} /\
    w' = {| clock := clock w; stdout := stdout w;
            files := <[sidecar_path root asset_id := MetadataJson m]>
                       (<[artifact_path root dir asset_id format := Binary data]>
                          (files w));
            sent := sent w; rate_limiters := rate_limiters w;
            generated_assets := generated_assets w |}.
Proof.
  unfold _save_asset, _generate_asset_id, bind, time_time, ret, lift.
  destruct (getitem CONFIG_output_dirs (type request)) as [dir|e] eqn:Hdir;
    [| discriminate].
  cbn [getitem CONFIG_output_dirs String.eqb Ascii.eqb Bool.eqb andb].
  unfold write_file.
  destruct (writable env (path_join (path_join root dir) _)) eqn:Hw1.
  2:{ destruct (opened env _); cbn; discriminate. }
  cbn [set_files files clock stdout sent rate_limiters generated_assets].
  destruct (writable env (path_join (path_join root "assets/generated/metadata") _)) eqn:Hw2.
  2:{ destruct (opened env _); cbn; discriminate. }
  cbn [set_files files clock stdout sent rate_limiters generated_assets].
  intros [= <- <-]. exists dir. split; [reflexivity |]. cbv zeta. split; reflexivity.
Qed.

(** And what it does when the directory is known and the disk accepts
    both files. *)
Lemma save_asset_run (env : Env) (root : string) (request : AssetRequest)
    (data : bytes) (format service dir : string) (w : World) :
  getitem CONFIG_output_dirs (type request) = Ok dir ->
  writable env (artifact_path root dir (asset_id_at (clock w) request) format) = true ->
  writable env (sidecar_path root (asset_id_at (clock w) request)) = true ->
  let asset_id := asset_id_at (clock w) request in
  let m := {| generation_service := service; original_request := request;
              file_format := format; md_file_size := Z.of_nat (length data);
              md_checksum := sha256_hexdigest data; md_created_at := clock w;
              version := "1.0" |} in
  _save_asset env root request data format service w
  = (Ok {| id := asset_id; request := request;
           file_path := artifact_path root dir asset_id format;
           service_used := service; generation_time := 0;
           file_size := Z.of_nat (length data);
           checksum := sha256_hexdigest data;
           asset_metadata := m; created_at := clock w |},
     {| clock := clock w; stdout := stdout w;
        files := <[sidecar_path root asset_id := MetadataJson m]>
                   (<[artifact_path root dir asset_id format := Binary data]>
                      (files w));
        sent := sent w; rate_limiters := rate_limiters w;
        generated_assets := generated_assets w |}).
Proof.
  intros Hdir Hw1 Hw2. cbv zeta.
  unfold _save_asset, _generate_asset_id, bind, time_time, ret, lift.
  rewrite Hdir. unfold write_file.
  unfold artifact_path in Hw1. rewrite Hw1.
  cbn [set_files files clock stdout sent rate_limiters generated_assets
       getitem CONFIG_output_dirs String.eqb Ascii.eqb Bool.eqb andb].
  unfold sidecar_path in Hw2. rewrite Hw2. reflexivity.
Qed.

(** X5. A request whose type is no key of the output directories makes
    [_save_asset] raise [KeyError] for that type before anything is
    written: the world is left as it was. *)
Theorem save_asset_of_unknown_type_writes_nothing
    (env : Env) (root : string) (request : AssetRequest) (data : bytes)
    (format service : string) (w : World)
    (Hunknown : ~ In (type request) ["2d"; "3d"; "audio"; "metadata"]%string) :
  _save_asset env root request data format service w
  = (Raise (KeyError (type request)), w).
Proof.
  unfold _save_asset, _generate_asset_id, bind, time_time, ret, lift.
  rewrite (getitem_missing CONFIG_output_dirs (type request)) by exact Hunknown.
  reflexivity.
Qed.

Lemma save_asset_of_unknown_type_witness :
  _save_asset stub_env "/proj" (mk_request "intro clip" "video" "cutscene")
    png_bytes "png" "stability" empty_world
  = (Raise (KeyError "video"), empty_world).
Proof.
  apply (save_asset_of_unknown_type_writes_nothing stub_env "/proj"
           (mk_request "intro clip" "video" "cutscene")).
  cbn. intuition discriminate.
Defined.

(** X6. If the artifact cannot be written, [_save_asset] raises [OSError]
    for the artifact's path and stops there: the sidecar is not attempted,
    nothing is printed or sent.  When [open] itself failed, the world is
    left as it was; when the file was opened and the write failed, the
    artifact's path holds an incomplete file and no other file changed. *)
Theorem save_asset_artifact_failure_writes_no_sidecar
    (env : Env) (root : string) (request : AssetRequest) (data : bytes)
    (format service dir : string) (w : World)
    (Hdir : getitem CONFIG_output_dirs (type request) = Ok dir)
    (Hdisk : writable env (artifact_path root dir (asset_id_at (clock w) request) format)
             = false) :
  let artifact := artifact_path root dir (asset_id_at (clock w) request) format in
  let out := _save_asset env root request data format service w in
  fst out = Raise (OSError artifact) /\
  files (snd out)
  = (if opened env artifact then <[artifact := Incomplete]> (files w) else files w) /\
  (opened env artifact = false -> snd out = w) /\
  clock (snd out) = clock w /\ stdout (snd out) = stdout w /\ sent (snd out) = sent w.
Proof.
  cbv zeta.
  unfold _save_asset, _generate_asset_id, bind, time_time, ret, lift.
  rewrite Hdir. unfold write_file. unfold artifact_path in *. rewrite Hdisk.
  destruct (opened env _); cbn; repeat split; discriminate.
Qed.

Lemma save_asset_artifact_failure_witness :
  let request := mk_request "neon alley" "2d" "background" in
  let artifact := artifact_path "/proj" "assets/generated/2d"
                    (asset_id_at (clock empty_world) request) "png" in
  let out := _save_asset full_disk_env "/proj" request png_bytes "png" "stability"
               empty_world in
  fst out = Raise (OSError artifact) /\
  files (snd out)
  = (if opened full_disk_env artifact
     then <[artifact := Incomplete]> (files empty_world) else files empty_world) /\
  (opened full_disk_env artifact = false -> snd out = empty_world) /\
  clock (snd out) = clock empty_world /\ stdout (snd out) = stdout empty_world /\
  sent (snd out) = sent empty_world.
Proof.
  cbv zeta.
  apply (save_asset_artifact_failure_writes_no_sidecar full_disk_env "/proj"
           (mk_request "neon alley" "2d" "background") png_bytes "png" "stability"
           "assets/generated/2d" empty_world); reflexivity.
Defined.

(** X7. If the artifact is written and the sidecar cannot be, [_save_asset]
    raises [OSError] for the sidecar's path and the artifact stays on disk
    with the bytes given.  The sidecar's path holds what it held before
    when [open] failed, and an incomplete file when the sidecar was opened
    and its write failed. *)
Theorem save_asset_sidecar_failure_leaves_the_artifact
    (env : Env) (root : string) (request : AssetRequest) (data : bytes)
    (format service dir : string) (w : World)
    (Hkind : recognized (type request) = true)
    (Hdir : getitem CONFIG_output_dirs (type request) = Ok dir)
    (Hartifact : writable env (artifact_path root dir (asset_id_at (clock w) request) format)
                 = true)
    (Hsidecar : writable env (sidecar_path root (asset_id_at (clock w) request)) = false) :
  let artifact := artifact_path root dir (asset_id_at (clock w) request) format in
  let sidecar := sidecar_path root (asset_id_at (clock w) request) in
  let out := _save_asset env root request data format service w in
  fst out = Raise (OSError sidecar) /\
  files (snd out) !! artifact = Some (Binary data) /\
  files (snd out) !! sidecar
  = (if opened env sidecar then Some Incomplete else files w !! sidecar).
Proof.
  cbv zeta.
  assert (Hne : sidecar_path root (asset_id_at (clock w) request)
                <> artifact_path root dir (asset_id_at (clock w) request) format).
  { unfold artifact_path, sidecar_path.
    eapply artifact_path_not_sidecar; eauto. }
  unfold _save_asset, _generate_asset_id, bind, time_time, ret, lift.
  rewrite Hdir. unfold write_file.
  unfold artifact_path in Hartifact. rewrite Hartifact.
  cbn [set_files files clock stdout sent rate_limiters generated_assets
       getitem CONFIG_output_dirs String.eqb Ascii.eqb Bool.eqb andb].
  unfold sidecar_path in Hsidecar. rewrite Hsidecar.
  unfold artifact_path, sidecar_path in *.
  destruct (opened env _); cbn [fst snd files bind set_files raise].
  - split; [reflexivity |]. split.
    + rewrite lookup_insert_ne by exact Hne. apply lookup_insert_eq.
    + apply lookup_insert_eq.
  - split; [reflexivity |]. split; [apply lookup_insert_eq |].
    apply lookup_insert_ne. intros Heq. apply Hne. symmetry. exact Heq.
Qed.

Lemma save_asset_sidecar_failure_witness :
  let request := mk_request "neon alley" "2d" "background" in
  let artifact := artifact_path "/proj" "assets/generated/2d"
                    (asset_id_at (clock empty_world) request) "png" in
  let sidecar := sidecar_path "/proj" (asset_id_at (clock empty_world) request) in
  let out := _save_asset sidecars_read_only_env "/proj" request png_bytes "png"
               "stability" empty_world in
  fst out = Raise (OSError sidecar) /\
  files (snd out) !! artifact = Some (Binary png_bytes) /\
  files (snd out) !! sidecar
  = (if opened sidecars_read_only_env sidecar
     then Some Incomplete else files empty_world !! sidecar).
Proof.
  cbv zeta.
  apply (save_asset_sidecar_failure_leaves_the_artifact sidecars_read_only_env "/proj"
           (mk_request "neon alley" "2d" "background") png_bytes "png" "stability"
           "assets/generated/2d" empty_world).
  - reflexivity.
  - reflexivity.
  - vm_compute. reflexivity.
  - vm_compute. reflexivity.
Defined.

(** X8. When [_save_asset] returns, the sidecar stored under the asset's
    identifier is the metadata the asset carries; it names the service,
    the request and the format given, the size is the number of bytes and
    the checksum the one of the asset; the generation time is still 0; and
    nothing was printed or sent and the clock did not move. *)
Theorem save_asset_record_and_sidecar_agree
    (env : Env) (root : string) (req : AssetRequest) (data : bytes)
    (format service : string) (w w' : World) (asset : GeneratedAsset)
    (Hsaved : _save_asset env root req data format service w = (Ok asset, w')) :
  files w' !! sidecar_path root (id asset) = Some (MetadataJson (asset_metadata asset)) /\
  id asset = asset_id_at (clock w) req /\
  request asset = req /\
  service_used asset = service /\
  generation_service (asset_metadata asset) = service /\
  original_request (asset_metadata asset) = req /\
  file_format (asset_metadata asset) = format /\
  file_size asset = Z.of_nat (length data) /\
  md_file_size (asset_metadata asset) = file_size asset /\
  md_checksum (asset_metadata asset) = checksum asset /\
  generation_time asset = 0%Q /\
  clock w' = clock w /\ stdout w' = stdout w /\ sent w' = sent w.
Proof.
  apply save_asset_Ok_inv in Hsaved. destruct Hsaved as (dir & _ & Hasset & Hw').
  cbv zeta in Hasset, Hw'. subst asset w'. cbn.
  rewrite lookup_insert_eq. repeat split.
Qed.

Lemma save_asset_record_and_sidecar_witness :
  exists asset w',
    _save_asset stub_env "/proj" (mk_request "neon alley" "2d" "background")
      png_bytes "png" "stability" empty_world = (Ok asset, w') /\
    files w' !! sidecar_path "/proj" (id asset) = Some (MetadataJson (asset_metadata asset)) /\
    file_size asset = Z.of_nat (length png_bytes).
Proof.
  pose proof (save_asset_run stub_env "/proj" (mk_request "neon alley" "2d" "background")
                png_bytes "png" "stability" "assets/generated/2d" empty_world
                eq_refl eq_refl eq_refl) as Hout.
  cbv zeta in Hout.
  eexists _, _. split; [exact Hout |].
  pose proof (save_asset_record_and_sidecar_agree stub_env "/proj"
                (mk_request "neon alley" "2d" "background") png_bytes "png" "stability"
                empty_world _ _ Hout) as H.
  split; [exact (proj1 H) |].
  exact (proj1 (proj2 (proj2 (proj2 (proj2 (proj2 (proj2 (proj2 H)))))))).
Defined.

(** ** One item, from dispatch to disk *)

Lemma nanobanana_Some_inv (env : Env) (root : string) (request : AssetRequest)
    (w w' : World) (asset : GeneratedAsset) :
  _generate_with_nanobanana env root request w = (Ok (Some asset), w') ->
  exists data w0,
    _save_asset env root request data "png" "nanobanana" w0 = (Ok asset, w').
Proof.
  unfold _generate_with_nanobanana. intros H.
  apply bind_Ok in H. destruct H as (_ & w1 & _ & H).
  apply try_except_Ok in H. destruct H as [H | (e & w2 & _ & H)];
    [| now apply print_then_None in H].
  apply bind_Ok in H. destruct H as (_ & w2 & _ & H).
  destruct (nanobanana_generate env _) as [e | status body]; [discriminate |].
  destruct (status =? 200); [| now apply print_then_None in H].
  apply bind_Ok in H. destruct H as (image_data & w3 & _ & H).
  apply bind_Ok in H. destruct H as (a & w4 & Hsave & H).
  injection H as <- <-. eauto.
Qed.

Lemma stability_Some_inv (env : Env) (root : string) (request : AssetRequest)
    (w w' : World) (asset : GeneratedAsset) :
  _generate_with_stability env root request w = (Ok (Some asset), w') ->
  exists data w0,
    _save_asset env root request data "png" "stability" w0 = (Ok asset, w').
Proof.
  unfold _generate_with_stability. intros H.
  apply bind_Ok in H. destruct H as (_ & w1 & _ & H).
  apply try_except_Ok in H. destruct H as [H | (e & w2 & _ & H)];
    [| now apply print_then_None in H].
  apply bind_Ok in H. destruct H as (_ & w2 & _ & H).
  destruct (stability_text_to_image env _) as [e | status body]; [discriminate |].
  destruct (status =? 200); [| now apply print_then_None in H].
  apply bind_Ok in H. destruct H as ([|image_data rest] & w3 & _ & H);
    [discriminate |].
  apply bind_Ok in H. destruct H as (a & w4 & Hsave & H).
  injection H as <- <-. eauto.
Qed.

Lemma midjourney_Some_inv (env : Env) (root : string) (request : AssetRequest)
    (w w' : World) (asset : GeneratedAsset) :
  _generate_with_midjourney env root request w = (Ok (Some asset), w') ->
  exists data w0,
    _save_asset env root request data "png" "midjourney" w0 = (Ok asset, w').
Proof.
  unfold _generate_with_midjourney. intros H.
  apply bind_Ok in H. destruct H as (_ & w1 & _ & H).
  apply try_except_Ok in H. destruct H as [H | (e & w2 & _ & H)];
    [| now apply print_then_None in H].
  apply bind_Ok in H. destruct H as (_ & w2 & _ & H).
  destruct (midjourney_imagine env _) as [e | status body]; [discriminate |].
  destruct (status =? 200); [| now apply print_then_None in H].
  apply bind_Ok in H. destruct H as (job_id & w3 & _ & H).
  apply bind_Ok in H. destruct H as ([[|b bs]|] & w4 & _ & H); try discriminate.
  apply bind_Ok in H. destruct H as (a & w5 & Hsave & H).
  injection H as <- <-. eauto.
Qed.

Lemma generate_2d_Some_inv (env : Env) (root : string) (request : AssetRequest)
    (w w' : World) (asset : GeneratedAsset) :
  _generate_2d_asset env root request w = (Ok (Some asset), w') ->
  exists data w0,
    _save_asset env root request data "png" (routing_table (category request)) w0
    = (Ok asset, w').
Proof.
  unfold _generate_2d_asset, routing_table.
  destruct (str_in (category request) ["sprite"; "character"]%string);
    [apply nanobanana_Some_inv |].
  destruct (str_in (category request) ["background"; "environment"]%string);
    [apply stability_Some_inv |].
  destruct (str_in (category request) ["ui"; "icon"]%string);
    [apply midjourney_Some_inv | apply stability_Some_inv].
Qed.

Lemma single_asset_only_adds (env : Env) (root : string) (request : AssetRequest) :
  respects output_grows (generate_single_asset env root request).
Proof.
  apply respects_generate_single_asset.
  - apply output_grows_refl.
  - apply output_grows_trans.
  - intros l w. unfold output_grows. cbn.
    repeat split; try reflexivity; try apply Qle_refl. now apply prefix_app_r.
  - apply output_grows_sleep.
  - intros c w. unfold output_grows. cbn.
    repeat split; try reflexivity; try apply Qle_refl. now apply prefix_app_r.
  - apply output_grows_write.
  - intros self l reqs w _. unfold output_grows. cbn.
    repeat split; try reflexivity. apply Qle_refl.
Qed.

(** How [generate_single_asset] ends, for a request of type 2d, given how
    the dispatch ends. *)
Lemma generate_single_asset_2d (env : Env) (root : string) (request : AssetRequest)
    (w : World) :
  type request = "2d"%string ->
  generate_single_asset env root request w
  = match _generate_2d_asset env root request
            (snd (print (LGenerating "2d" (prefix_chars 50 (prompt request))) w)) with
    | (Ok (Some a), w1) =>
        (Ok (Some (set_generation_time a (clock w1 - clock w))),
         snd (print (LGenerated (id a) (clock w1 - clock w)) w1))
    | (Ok None, w1) => (Ok None, w1)
    | (Raise e, w1) =>
        if is_Exception e
        then (Ok None, snd (print (LFailedToGenerate e) w1))
        else (Raise e, w1)
    end.
Proof.
  intros Hty. unfold generate_single_asset. rewrite Hty.
  cbn [String.eqb Ascii.eqb Bool.eqb andb].
  unfold bind at 1. cbn [time_time]. unfold try_except, bind at 1.
  cbn [print fst snd]. unfold bind at 1.
  destruct (_generate_2d_asset env root request _) as [[[a|]|e] w1];
    try reflexivity.
Qed.

Lemma returned_asset_facts
    (env : Env) (root : string) (req : AssetRequest) (w w' : World)
    (asset : GeneratedAsset)
    (Hrun : generate_single_asset env root req w = (Ok (Some asset), w')) :
  type req = "2d"%string /\
  request asset = req /\
  service_used asset = routing_table (category req) /\
  (exists data,
     files w' !! file_path asset = Some (Binary data) /\
     checksum asset = sha256_hexdigest data /\
     file_size asset = Z.of_nat (length data)) /\
  files w' !! sidecar_path root (id asset) = Some (MetadataJson (asset_metadata asset)) /\
  (0 <= generation_time asset)%Q /\
  last (stdout w') = Some (LGenerated (id asset) (generation_time asset)).
Proof.
  pose proof (single_asset_only_adds env root req w _ w' Hrun) as (Hclock & _).
  assert (Hty : type req = "2d"%string).
  { destruct (String.eqb_spec (type req) "2d") as [H2d | H2d]; [exact H2d | exfalso].
    revert Hrun. unfold generate_single_asset.
    apply String.eqb_neq in H2d. rewrite H2d.
    unfold bind at 1. cbn [time_time]. intros Hrun.
    apply try_except_Ok in Hrun. destruct Hrun as [Hrun | (e & w1 & _ & Hrun)];
      [| now apply print_then_None in Hrun].
    apply bind_Ok in Hrun. destruct Hrun as (_ & w1 & _ & Hrun).
    apply bind_Ok in Hrun. destruct Hrun as ([a|] & w2 & Hdispatch & Hrun);
      [| discriminate].
    destruct (String.eqb (type req) "3d").
    { unfold _generate_3d_asset in Hdispatch.
      apply bind_Ok in Hdispatch. destruct Hdispatch as (_ & ? & _ & ?). discriminate. }
    destruct (String.eqb (type req) "audio"); [| discriminate].
    unfold _generate_audio_asset in Hdispatch.
    apply bind_Ok in Hdispatch. destruct Hdispatch as (_ & w3 & _ & Hdispatch).
    apply try_except_Ok in Hdispatch.
    destruct Hdispatch as [Hd | (e & w4 & _ & Hd)]; [| now apply print_then_None in Hd].
    apply bind_Ok in Hd. destruct Hd as (_ & ? & _ & ?). discriminate. }
  rewrite (generate_single_asset_2d env root req w Hty) in Hrun.
  destruct (_generate_2d_asset env root req _) as [[[a|]|e] w1] eqn:Hdispatch;
    [| discriminate | destruct (is_Exception e); discriminate].
  injection Hrun as <- <-.
  apply generate_2d_Some_inv in Hdispatch. destruct Hdispatch as (data & w0 & Hsave).
  apply save_asset_Ok_inv in Hsave. destruct Hsave as (dir & Hdir & Ha & Hw1).
  cbv zeta in Ha, Hw1. rewrite Hty in Hdir. injection Hdir as <-.
  subst a. cbn [set_generation_time request service_used file_path checksum file_size
                id asset_metadata generation_time] in *.
  split; [exact Hty |]. split; [reflexivity |]. split; [reflexivity |].
  subst w1. cbn [print snd files stdout clock] in *.
  split; [| split; [| split]].
  - exists data. split; [| split; reflexivity].
    rewrite lookup_insert_ne; [apply lookup_insert_eq |].
    unfold artifact_path, sidecar_path.
    eapply (artifact_path_not_sidecar root "2d"); reflexivity.
  - apply lookup_insert_eq.
  - apply (Qplus_le_l _ _ (clock w)). ring_simplify. exact Hclock.
  - apply last_snoc.
Qed.

(** X9. An asset that [generate_single_asset] returns was generated for a
    request of type 2d, which it carries, by the service the routing table
    names; the file at its path holds bytes whose SHA-256 digest and length
    are its checksum and size; its sidecar is on disk; its generation time
    is not negative, and the last line printed announces it. *)
Theorem returned_asset_is_backed_by_its_files
    (env : Env) (root : string) (req : AssetRequest) (w w' : World)
    (asset : GeneratedAsset)
    (Hrun : generate_single_asset env root req w = (Ok (Some asset), w')) :
  type req = "2d"%string /\
  request asset = req /\
  service_used asset = routing_table (category req) /\
  (exists data,
     files w' !! file_path asset = Some (Binary data) /\
     checksum asset = sha256_hexdigest data /\
     file_size asset = Z.of_nat (length data)) /\
  files w' !! sidecar_path root (id asset) = Some (MetadataJson (asset_metadata asset)) /\
  (0 <= generation_time asset)%Q /\
  last (stdout w') = Some (LGenerated (id asset) (generation_time asset)).
Proof. exact (returned_asset_facts env root req w w' asset Hrun). Qed.

(** ** The services, reply by reply *)

Lemma routed_to_nanobanana (env : Env) (root : string) (request : AssetRequest) :
  routing_table (category request) = "nanobanana"%string ->
  _generate_2d_asset env root request = _generate_with_nanobanana env root request.
Proof.
  unfold routing_table, _generate_2d_asset.
  repeat (destruct (str_in (category request) _)); try discriminate; reflexivity.
Qed.

Lemma routed_to_stability (env : Env) (root : string) (request : AssetRequest) :
  routing_table (category request) = "stability"%string ->
  _generate_2d_asset env root request = _generate_with_stability env root request.
Proof.
  unfold routing_table, _generate_2d_asset.
  repeat (destruct (str_in (category request) _)); try discriminate; reflexivity.
Qed.

Lemma routed_to_midjourney (env : Env) (root : string) (request : AssetRequest) :
  routing_table (category request) = "midjourney"%string ->
  _generate_2d_asset env root request = _generate_with_midjourney env root request.
Proof.
  unfold routing_table, _generate_2d_asset.
  repeat (destruct (str_in (category request) _)); try discriminate; reflexivity.
Qed.

(** Below the quota, and after any line was printed, [wait] returns at
    once and touches the limiter only. *)
Lemma wait_after_print (service : string) (line : LogLine) (w : World) :
  below_quota service w ->
  exists w1,
    wait service (snd (print line w)) = (Ok tt, w1) /\
    clock w1 = clock w /\ stdout w1 = stdout w ++ [line] /\
    files w1 = files w /\ sent w1 = sent w /\
    generated_assets w1 = generated_assets w.
Proof.
  intros (l & Hl & Hbelow).
  eexists. split.
  - apply (wait_below_quota_run service l); [exact Hl | exact Hbelow].
  - cbn. auto.
Qed.

Lemma stability_item_run
    (env : Env) (root : string) (req : AssetRequest) (w : World)
    (data : bytes) (others : list bytes)
    (Hty : type req = "2d"%string)
    (Hroute : routing_table (category req) = "stability"%string)
    (Hquota : below_quota "stability" w)
    (Hreply : stability_text_to_image env (stability_payload req)
              = Response 200 (Ok (data :: others)))
    (Hartifact : writable env (artifact_path root "assets/generated/2d"
                                 (asset_id_at (clock w) req) "png") = true)
    (Hsidecar : writable env (sidecar_path root (asset_id_at (clock w) req)) = true) :
  exists asset w',
    generate_single_asset env root req w = (Ok (Some asset), w') /\
    file_path asset
    = artifact_path root "assets/generated/2d" (asset_id_at (clock w) req) "png" /\
    service_used asset = "stability"%string /\
    files w' !! file_path asset = Some (Binary data) /\
    sent w' = sent w ++ [HttpPost stability_url] /\
    (generation_time asset == 0)%Q.
Proof.
  rewrite (generate_single_asset_2d env root req w Hty).
  rewrite (routed_to_stability env root req Hroute).
  destruct (wait_after_print "stability"
              (LGenerating "2d" (prefix_chars 50 (prompt req))) w Hquota)
    as (w1 & Hwait & Hc1 & Ho1 & Hf1 & Hs1 & Hg1).
  unfold _generate_with_stability. unfold bind at 1. rewrite Hwait.
  unfold try_except, bind at 1. cbn [record_call].
  fold (stability_payload req). rewrite Hreply. cbn [Z.eqb Pos.eqb].
  unfold bind at 1. cbn [lift]. unfold bind at 1.
  erewrite save_asset_run;
    [| rewrite Hty; reflexivity
     | cbn [clock]; rewrite Hc1; exact Hartifact
     | cbn [clock]; rewrite Hc1; exact Hsidecar].
  cbv zeta. cbn [ret clock]. rewrite Hc1.
  eexists _, _. split; [reflexivity |].
  cbn [set_generation_time file_path service_used generation_time print snd files sent].
  split; [reflexivity |]. split; [reflexivity |].
  split; [| split].
  - rewrite lookup_insert_ne; [apply lookup_insert_eq |].
    unfold artifact_path, sidecar_path.
    eapply (artifact_path_not_sidecar root "2d"); reflexivity.
  - now rewrite Hs1.
  - ring.
Qed.

(** X10. A request routed to stability, with the limiter below its quota, a
    reply 200 that holds at least one artifact and a disk that takes both
    files: the item yields an asset made of the first artifact, stored as a
    png under the 2d directory, after a single request; the other artifacts
    are ignored. *)
Theorem stability_item_saves_the_first_artifact
    (env : Env) (root : string) (req : AssetRequest) (w : World)
    (data : bytes) (others : list bytes)
    (Hty : type req = "2d"%string)
    (Hroute : routing_table (category req) = "stability"%string)
    (Hquota : below_quota "stability" w)
    (Hreply : stability_text_to_image env (stability_payload req)
              = Response 200 (Ok (data :: others)))
    (Hartifact : writable env (artifact_path root "assets/generated/2d"
                                 (asset_id_at (clock w) req) "png") = true)
    (Hsidecar : writable env (sidecar_path root (asset_id_at (clock w) req)) = true) :
  exists asset w',
    generate_single_asset env root req w = (Ok (Some asset), w') /\
    file_path asset
    = artifact_path root "assets/generated/2d" (asset_id_at (clock w) req) "png" /\
    service_used asset = "stability"%string /\
    files w' !! file_path asset = Some (Binary data) /\
    sent w' = sent w ++ [HttpPost stability_url] /\
    (generation_time asset == 0)%Q.
Proof. exact (stability_item_run env root req w data others Hty Hroute Hquota Hreply
               Hartifact Hsidecar). Qed.

Lemma stability_item_witness :
  let env := env_with_stability (Response 200 (Ok [png_bytes; []])) (fun _ => true) in
  let req := mk_request "neon alley" "2d" "background" in
  let w := fresh_generator env "/proj" in
  exists asset w',
    generate_single_asset env "/proj" req w = (Ok (Some asset), w') /\
    file_path asset
    = artifact_path "/proj" "assets/generated/2d" (asset_id_at (clock w) req) "png" /\
    service_used asset = "stability"%string /\
    files w' !! file_path asset = Some (Binary png_bytes) /\
    sent w' = sent w ++ [HttpPost stability_url] /\
    (generation_time asset == 0)%Q.
Proof.
  cbv zeta.
  apply (stability_item_saves_the_first_artifact
           (env_with_stability (Response 200 (Ok [png_bytes; []])) (fun _ => true))
           "/proj" (mk_request "neon alley" "2d" "background")
           (fresh_generator
              (env_with_stability (Response 200 (Ok [png_bytes; []])) (fun _ => true))
              "/proj")
           png_bytes [[]]).
  - reflexivity.
  - reflexivity.
  - exists {| requests_per_minute := 150; requests := [] |}.
    split; [reflexivity | vm_compute; reflexivity].
  - reflexivity.
  - reflexivity.
  - reflexivity.
Defined.

(** X11. The same request when the reply 200 holds no artifact: the item
    yields nothing and no line says why; nothing is written. *)
Theorem stability_reply_without_artifact_fails_silently
    (env : Env) (root : string) (req : AssetRequest) (w : World)
    (Hty : type req = "2d"%string)
    (Hroute : routing_table (category req) = "stability"%string)
    (Hquota : below_quota "stability" w)
    (Hreply : stability_text_to_image env (stability_payload req) = Response 200 (Ok [])) :
  exists w',
    generate_single_asset env root req w = (Ok None, w') /\
    stdout w' = stdout w ++ [LGenerating "2d" (prefix_chars 50 (prompt req))] /\
    files w' = files w /\
    sent w' = sent w ++ [HttpPost stability_url].
Proof.
  rewrite (generate_single_asset_2d env root req w Hty).
  rewrite (routed_to_stability env root req Hroute).
  destruct (wait_after_print "stability"
              (LGenerating "2d" (prefix_chars 50 (prompt req))) w Hquota)
    as (w1 & Hwait & Hc1 & Ho1 & Hf1 & Hs1 & Hg1).
  unfold _generate_with_stability. unfold bind at 1. rewrite Hwait.
  unfold try_except, bind at 1. cbn [record_call].
  fold (stability_payload req). rewrite Hreply. cbn [Z.eqb Pos.eqb].
  unfold bind at 1. cbn [lift ret].
  eexists. split; [reflexivity |]. cbn [stdout files sent].
  rewrite Ho1, Hf1, Hs1. auto.
Qed.

Lemma stability_reply_without_artifact_witness :
  let env := env_with_stability (Response 200 (Ok [])) (fun _ => true) in
  let req := mk_request "neon alley" "2d" "background" in
  let w := fresh_generator env "/proj" in
  exists w',
    generate_single_asset env "/proj" req w = (Ok None, w') /\
    stdout w' = stdout w ++ [LGenerating "2d" (prefix_chars 50 (prompt req))] /\
    files w' = files w /\
    sent w' = sent w ++ [HttpPost stability_url].
Proof.
  cbv zeta.
  apply (stability_reply_without_artifact_fails_silently
           (env_with_stability (Response 200 (Ok [])) (fun _ => true)) "/proj"
           (mk_request "neon alley" "2d" "background")).
  - reflexivity.
  - reflexivity.
  - exists {| requests_per_minute := 150; requests := [] |}.
    split; [reflexivity | vm_compute; reflexivity].
  - reflexivity.
Defined.

(** X12. The same request when the artifact is written and the sidecar
    cannot be: the item yields nothing, the failure is printed as a
    stability failure with the sidecar's path, and the artifact stays on
    disk. *)
Theorem sidecar_failure_fails_the_item_and_leaves_the_artifact
    (env : Env) (root : string) (req : AssetRequest) (w : World)
    (data : bytes) (others : list bytes)
    (Hty : type req = "2d"%string)
    (Hroute : routing_table (category req) = "stability"%string)
    (Hquota : below_quota "stability" w)
    (Hreply : stability_text_to_image env (stability_payload req)
              = Response 200 (Ok (data :: others)))
    (Hartifact : writable env (artifact_path root "assets/generated/2d"
                                 (asset_id_at (clock w) req) "png") = true)
    (Hsidecar : writable env (sidecar_path root (asset_id_at (clock w) req)) = false) :
  exists w',
    generate_single_asset env root req w = (Ok None, w') /\
    stdout w'
    = stdout w ++ [LGenerating "2d" (prefix_chars 50 (prompt req));
                   LStabilityFailed
                     (OSError (sidecar_path root (asset_id_at (clock w) req)))] /\
    files w' !! artifact_path root "assets/generated/2d" (asset_id_at (clock w) req) "png"
    = Some (Binary data).
Proof.
  rewrite (generate_single_asset_2d env root req w Hty).
  rewrite (routed_to_stability env root req Hroute).
  destruct (wait_after_print "stability"
              (LGenerating "2d" (prefix_chars 50 (prompt req))) w Hquota)
    as (w1 & Hwait & Hc1 & Ho1 & Hf1 & Hs1 & Hg1).
  unfold _generate_with_stability. unfold bind at 1. rewrite Hwait.
  unfold try_except, bind at 1. cbn [record_call].
  fold (stability_payload req). rewrite Hreply. cbn [Z.eqb Pos.eqb].
  unfold bind at 1. cbn [lift]. unfold bind at 1.
  unfold _save_asset, _generate_asset_id, bind, time_time, ret, lift.
  rewrite Hty.
  cbn [getitem CONFIG_output_dirs String.eqb Ascii.eqb Bool.eqb andb clock].
  unfold write_file. rewrite Hc1.
  unfold artifact_path in Hartifact. rewrite Hartifact.
  cbn [set_files files clock stdout sent rate_limiters generated_assets].
  unfold sidecar_path in Hsidecar. rewrite Hsidecar.
  destruct (opened env _).
  - cbn [bind set_files raise is_Exception print]. eexists. split; [reflexivity |].
    cbn [stdout files]. rewrite Ho1, <- app_assoc. split; [reflexivity |].
    unfold artifact_path.
    rewrite lookup_insert_ne
      by (eapply (artifact_path_not_sidecar root "2d"); reflexivity).
    apply lookup_insert_eq.
  - cbn [is_Exception print]. eexists. split; [reflexivity |].
    cbn [stdout files]. rewrite Ho1, <- app_assoc. split; [reflexivity |].
    apply lookup_insert_eq.
Qed.

Lemma sidecar_failure_witness :
  let env := env_with_stability (Response 200 (Ok [png_bytes]))
               (fun path => negb (String.prefix "/proj/assets/generated/metadata/" path)) in
  let req := mk_request "neon alley" "2d" "background" in
  let w := fresh_generator env "/proj" in
  exists w',
    generate_single_asset env "/proj" req w = (Ok None, w') /\
    stdout w'
    = stdout w ++ [LGenerating "2d" (prefix_chars 50 (prompt req));
                   LStabilityFailed
                     (OSError (sidecar_path "/proj" (asset_id_at (clock w) req)))] /\
    files w' !! artifact_path "/proj" "assets/generated/2d" (asset_id_at (clock w) req) "png"
    = Some (Binary png_bytes).
Proof.
  cbv zeta.
  apply (sidecar_failure_fails_the_item_and_leaves_the_artifact
           (env_with_stability (Response 200 (Ok [png_bytes]))
              (fun path => negb (String.prefix "/proj/assets/generated/metadata/" path)))
           "/proj" (mk_request "neon alley" "2d" "background") _ png_bytes []).
  - reflexivity.
  - reflexivity.
  - exists {| requests_per_minute := 150; requests := [] |}.
    split; [reflexivity | vm_compute; reflexivity].
  - reflexivity.
  - vm_compute. reflexivity.
  - vm_compute. reflexivity.
Defined.

Lemma returned_asset_witness :
  let env := env_with_stability (Response 200 (Ok [png_bytes; []])) (fun _ => true) in
  let req := mk_request "neon alley" "2d" "background" in
  exists asset w',
    generate_single_asset env "/proj" req (fresh_generator env "/proj")
    = (Ok (Some asset), w') /\
    type req = "2d"%string /\
    request asset = req /\
    service_used asset = routing_table (category req) /\
    (exists data,
       files w' !! file_path asset = Some (Binary data) /\
       checksum asset = sha256_hexdigest data /\
       file_size asset = Z.of_nat (length data)) /\
    files w' !! sidecar_path "/proj" (id asset) = Some (MetadataJson (asset_metadata asset)) /\
    (0 <= generation_time asset)%Q /\
    last (stdout w') = Some (LGenerated (id asset) (generation_time asset)).
Proof.
  cbv zeta.
  destruct (stability_item_run
              (env_with_stability (Response 200 (Ok [png_bytes; []])) (fun _ => true))
              "/proj" (mk_request "neon alley" "2d" "background")
              (fresh_generator
                 (env_with_stability (Response 200 (Ok [png_bytes; []])) (fun _ => true))
                 "/proj")
              png_bytes [[]] eq_refl eq_refl
              (ex_intro _ {| requests_per_minute := 150; requests := [] |}
                 (conj eq_refl eq_refl))
              eq_refl eq_refl eq_refl)
    as (asset & w' & Hrun & _).
  exists asset, w'. split; [exact Hrun |].
  exact (returned_asset_is_backed_by_its_files _ _ _ _ _ _ Hrun).
Defined.

(** X13. A request routed to nanobanana, with the limiter below its quota:
    any status other than 200 (a 201 or a 204 as much as a 500) makes the
    item yield nothing; the status is printed, the body is not read and
    nothing is written. *)
Theorem nanobanana_status_other_than_200_fails_the_item
    (env : Env) (root : string) (req : AssetRequest) (w : World)
    (status : Z) (body : result bytes)
    (Hty : type req = "2d"%string)
    (Hroute : routing_table (category req) = "nanobanana"%string)
    (Hquota : below_quota "nanobanana" w)
    (Hreply : nanobanana_generate env (nanobanana_payload req) = Response status body)
    (Hstatus : status <> 200) :
  exists w',
    generate_single_asset env root req w = (Ok None, w') /\
    stdout w' = stdout w ++ [LGenerating "2d" (prefix_chars 50 (prompt req));
                             LNanoBananaApiError status] /\
    files w' = files w /\
    sent w' = sent w ++ [HttpPost (base_url "nanobanana" +:+ "/generate")].
Proof.
  rewrite (generate_single_asset_2d env root req w Hty).
  rewrite (routed_to_nanobanana env root req Hroute).
  destruct (wait_after_print "nanobanana"
              (LGenerating "2d" (prefix_chars 50 (prompt req))) w Hquota)
    as (w1 & Hwait & Hc1 & Ho1 & Hf1 & Hs1 & Hg1).
  unfold _generate_with_nanobanana. unfold bind at 1. rewrite Hwait.
  unfold try_except, bind at 1. cbn [record_call].
  fold (nanobanana_payload req). rewrite Hreply.
  apply Z.eqb_neq in Hstatus. rewrite Hstatus.
  unfold bind at 1. cbn [print ret].
  eexists. split; [reflexivity |]. cbn [stdout files sent].
  rewrite Ho1, Hf1, Hs1, <- app_assoc. auto.
Qed.

Lemma nanobanana_status_witness :
  let req := mk_request "a hero" "2d" "sprite" in
  let w := fresh_generator stub_env "/proj" in
  exists w',
    generate_single_asset stub_env "/proj" req w = (Ok None, w') /\
    stdout w' = stdout w ++ [LGenerating "2d" (prefix_chars 50 (prompt req));
                             LNanoBananaApiError 500] /\
    files w' = files w /\
    sent w' = sent w ++ [HttpPost (base_url "nanobanana" +:+ "/generate")].
Proof.
  cbv zeta.
  apply (nanobanana_status_other_than_200_fails_the_item stub_env "/proj"
           (mk_request "a hero" "2d" "sprite") _ 500 (Raise (ClientError "body"))).
  - reflexivity.
  - reflexivity.
  - exists {| requests_per_minute := 10; requests := [] |}.
    split; [reflexivity | vm_compute; reflexivity].
  - reflexivity.
  - discriminate.
Defined.

(** X14. A request routed to midjourney, with the limiter below its quota,
    whose job is accepted and reported completed at the first poll, but
    whose image has no bytes: the item yields nothing, nothing is written,
    and no line says why.  It took one sleep of 10 seconds. *)
Theorem midjourney_empty_image_fails_silently
    (env : Env) (root : string) (req : AssetRequest) (w : World)
    (job_id url : string)
    (Hty : type req = "2d"%string)
    (Hroute : routing_table (category req) = "midjourney"%string)
    (Hquota : below_quota "midjourney" w)
    (Hjob : midjourney_imagine env (midjourney_payload req) = Response 200 (Ok job_id))
    (Hdone : answers_completed env job_id 0 url []) :
  exists w',
    generate_single_asset env root req w = (Ok None, w') /\
    stdout w' = stdout w ++ [LGenerating "2d" (prefix_chars 50 (prompt req))] /\
    files w' = files w /\
    sent w' = sent w ++ [HttpPost (base_url "midjourney" +:+ "/imagine");
                         poll_request job_id; HttpGet url] /\
    (clock w' == clock w + 10)%Q.
Proof.
  rewrite (generate_single_asset_2d env root req w Hty).
  rewrite (routed_to_midjourney env root req Hroute).
  destruct (wait_after_print "midjourney"
              (LGenerating "2d" (prefix_chars 50 (prompt req))) w Hquota)
    as (w1 & Hwait & Hc1 & Ho1 & Hf1 & Hs1 & Hg1).
  unfold _generate_with_midjourney. unfold bind at 1. rewrite Hwait.
  unfold try_except, bind at 1. cbn [record_call].
  fold (midjourney_payload req). rewrite Hjob. cbn [Z.eqb Pos.eqb].
  unfold bind at 1. cbn [lift]. unfold bind at 1.
  unfold _poll_midjourney_job.
  rewrite (poll_loop_completed env job_id 29 0 url [] _ Hdone).
  cbn [ret]. eexists. split; [reflexivity |].
  cbn [stdout files sent clock record_call asyncio_sleep snd].
  rewrite Ho1, Hf1, Hs1, Hc1, <- !app_assoc. repeat split; reflexivity.
Qed.

Lemma midjourney_empty_image_witness :
  let env :=
    {| nanobanana_generate := nanobanana_generate stub_env;
       stability_text_to_image := stability_text_to_image stub_env;
       midjourney_imagine := midjourney_imagine stub_env;
       midjourney_job := fun _ _ => Response 200 (Ok (Job "completed" (Some "img")));
       download := fun _ => Response 200 (Ok []);
       writable := writable stub_env; opened := opened stub_env;
       can_mkdir := can_mkdir stub_env;
       read_config := read_config stub_env |} in
  let req := mk_request "menu frame" "2d" "ui" in
  let w := fresh_generator env "/proj" in
  exists w',
    generate_single_asset env "/proj" req w = (Ok None, w') /\
    stdout w' = stdout w ++ [LGenerating "2d" (prefix_chars 50 (prompt req))] /\
    files w' = files w /\
    sent w' = sent w ++ [HttpPost (base_url "midjourney" +:+ "/imagine");
                         poll_request "job-1"; HttpGet "img"] /\
    (clock w' == clock w + 10)%Q.
Proof.
  cbv zeta.
  apply (midjourney_empty_image_fails_silently _ "/proj"
           (mk_request "menu frame" "2d" "ui") _ "job-1" "img").
  - reflexivity.
  - reflexivity.
  - exists {| requests_per_minute := 5; requests := [] |}.
    split; [reflexivity | vm_compute; reflexivity].
  - reflexivity.
  - split; reflexivity.
Defined.

(** ** Polling through failures *)

Section PollingOn.

Variable env : Env.
Variable job_id : string.

Lemma poll_once_transient (attempt : nat) (w : World) :
  answers_transient env job_id attempt ->
  exists lines,
    poll_once env job_id attempt w
    = (Ok Continue,
       {| clock := clock w; stdout := stdout w ++ lines; files := files w;
          sent := sent w ++ [poll_request job_id];
          rate_limiters := rate_limiters w;
          generated_assets := generated_assets w |}) /\
    Forall is_polling_error lines.
Proof.
  unfold poll_once, try_except, bind, record_call, lift, raise.
  intros [(e & -> & He) | [(status & body & -> & Hs) | (e & -> & He)]].
  - rewrite He. exists [LPollingError e]. split; [reflexivity |].
    repeat constructor. now exists e.
  - apply Z.eqb_neq in Hs. rewrite Hs. exists []. cbn. rewrite app_nil_r.
    split; [reflexivity | constructor].
  - cbn [Z.eqb Pos.eqb]. rewrite He. exists [LPollingError e]. split; [reflexivity |].
    repeat constructor. now exists e.
Qed.

Lemma poll_once_goes_on (attempt : nat) (w : World) :
  answers_other env job_id attempt \/ answers_transient env job_id attempt ->
  exists lines,
    poll_once env job_id attempt w
    = (Ok Continue,
       {| clock := clock w; stdout := stdout w ++ lines; files := files w;
          sent := sent w ++ [poll_request job_id];
          rate_limiters := rate_limiters w;
          generated_assets := generated_assets w |}) /\
    Forall is_polling_error lines.
Proof.
  intros [Hother | Htransient]; [| now apply poll_once_transient].
  exists []. rewrite app_nil_r. split; [| constructor].
  now rewrite poll_once_other.
Qed.

Lemma ten_times_S (n : nat) (q : Q) : (q + 10 + ten_times n == q + ten_times (S n))%Q.
Proof.
  unfold ten_times. rewrite Nat2Z.inj_succ. unfold Z.succ.
  rewrite inject_Z_plus. ring.
Qed.

(** After [k] polls that stop nothing, the loop is at attempt [first + k]:
    it has slept [10 k] seconds, sent [k] poll requests, printed only
    polling errors and written nothing. *)
Lemma poll_loop_goes_on (k : nat) :
  forall (remaining first : nat) (w : World),
    (forall i, (i < k)%nat ->
       answers_other env job_id (first + i) \/ answers_transient env job_id (first + i)) ->
    exists w1 lines,
      poll_loop env job_id (k + remaining) first w
      = poll_loop env job_id remaining (first + k) w1 /\
      (clock w1 == clock w + ten_times k)%Q /\
      sent w1 = sent w ++ replicate k (poll_request job_id) /\
      stdout w1 = stdout w ++ lines /\ Forall is_polling_error lines /\
      files w1 = files w.
Proof.
  induction k as [|k IH]; intros remaining first w Hon.
  - exists w, []. rewrite Nat.add_0_r, !app_nil_r. repeat split; try constructor.
    unfold ten_times. cbn. ring.
  - cbn [Nat.add poll_loop]. unfold bind at 1. cbn [asyncio_sleep].
    unfold bind at 1.
    edestruct (poll_once_goes_on first) as (lines0 & -> & Hlines0).
    { specialize (Hon 0%nat). rewrite Nat.add_0_r in Hon. apply Hon. lia. }
    edestruct (IH remaining (S first)) as (w1 & lines & Hloop & Hclock & Hsent & Hout & Hlines & Hfiles).
    { intros i Hi. replace (S first + i)%nat with (first + S i)%nat by lia.
      apply Hon. lia. }
    exists w1, (lines0 ++ lines). rewrite Hloop.
    replace (first + S k)%nat with (S first + k)%nat by lia.
    cbn [clock sent stdout files] in *.
    split; [reflexivity |]. split; [| split; [| split; [| split]]].
    + rewrite Hclock. apply ten_times_S.
    + rewrite Hsent, <- app_assoc. reflexivity.
    + rewrite Hout, <- app_assoc. reflexivity.
    + now apply Forall_app.
    + exact Hfiles.
Qed.

End PollingOn.

(** X15. Polls that raise, that answer a status other than 200 or whose
    body cannot be read do not end the polling, no more than polls that
    answer a pending status: if [k < 30] such polls are followed by one
    that reports the job completed with an image that can be fetched, the
    bytes fetched are returned, after [k + 1] polls and [10 (k + 1)]
    seconds, only polling errors having been printed; and thirty such
    polls end the loop with [None] after 300 seconds. *)
Theorem polling_survives_transient_failures
    (env : Env) (job_id : string) (k : nat) (w : World)
    (Hk : (k < 30)%nat)
    (Hon : forall i, (i < k)%nat ->
       answers_other env job_id i \/ answers_transient env job_id i) :
  (forall url content,
     answers_completed env job_id k url content ->
     exists lines,
       fst (_poll_midjourney_job env job_id w) = Ok (Some content) /\
       sent (snd (_poll_midjourney_job env job_id w))
       = sent w ++ replicate (S k) (poll_request job_id) ++ [HttpGet url] /\
       (clock (snd (_poll_midjourney_job env job_id w)) == clock w + ten_times (S k))%Q /\
       stdout (snd (_poll_midjourney_job env job_id w)) = stdout w ++ lines /\
       Forall is_polling_error lines) /\
  ((forall i, (i < 30)%nat ->
      answers_other env job_id i \/ answers_transient env job_id i) ->
   fst (_poll_midjourney_job env job_id w) = Ok None /\
   sent (snd (_poll_midjourney_job env job_id w))
   = sent w ++ replicate 30 (poll_request job_id) /\
   (clock (snd (_poll_midjourney_job env job_id w)) == clock w + 300)%Q /\
   files (snd (_poll_midjourney_job env job_id w)) = files w).
Proof.
  unfold _poll_midjourney_job. split.
  - intros url content Hdone.
    destruct (poll_loop_goes_on env job_id k (30 - k) 0 w Hon)
      as (w1 & lines & Hloop & Hclock & Hsent & Hout & Hlines & _).
    replace (k + (30 - k))%nat with 30%nat in Hloop by lia.
    cbn [Nat.add] in Hloop.
    replace (30 - k)%nat with (S (29 - k)) in Hloop by lia.
    rewrite Hloop, (poll_loop_completed env job_id _ k url content) by exact Hdone.
    exists lines. cbn [fst snd sent stdout clock record_call asyncio_sleep].
    rewrite Hsent, Hout, replicate_S_end, <- !app_assoc.
    repeat split; try reflexivity; try assumption.
    rewrite Hclock, <- (ten_times_S k (clock w)). ring.
  - intros Hall.
    destruct (poll_loop_goes_on env job_id 30 0 0 w Hall)
      as (w1 & lines & Hloop & Hclock & Hsent & Hout & Hlines & Hfiles).
    cbn [Nat.add] in Hloop. rewrite Hloop. cbn [poll_loop ret fst snd].
    repeat split; assumption.
Qed.

Lemma polling_survives_witness :
  exists lines,
    fst (_poll_midjourney_job (env_with_flaky_job 2) "job-1" empty_world)
    = Ok (Some png_bytes) /\
    sent (snd (_poll_midjourney_job (env_with_flaky_job 2) "job-1" empty_world))
    = sent empty_world ++ replicate 3 (poll_request "job-1") ++ [HttpGet "img"] /\
    (clock (snd (_poll_midjourney_job (env_with_flaky_job 2) "job-1" empty_world))
     == clock empty_world + ten_times 3)%Q /\
    stdout (snd (_poll_midjourney_job (env_with_flaky_job 2) "job-1" empty_world))
    = stdout empty_world ++ lines /\
    Forall is_polling_error lines.
Proof.
  refine (proj1 (polling_survives_transient_failures (env_with_flaky_job 2) "job-1" 2
                   empty_world _ _) "img" png_bytes _).
  - lia.
  - intros i Hi. right. left. exists (ClientError "connection reset").
    destruct i as [|[|i]]; [split; reflexivity | split; reflexivity | lia].
  - split; reflexivity.
Defined.

(** ** The bounds of the polling *)

(** One poll, however it ends: the clock and the files stay, and one or
    two requests are sent (the poll, and the fetch of the image if the job
    is reported completed). *)
Lemma poll_once_bounds (env : Env) (job_id : string) (attempt : nat)
    (w w' : World) (r : result LoopStep) :
  poll_once env job_id attempt w = (r, w') ->
  clock w' = clock w /\ files w' = files w /\
  exists extra,
    sent w' = sent w ++ extra /\ (1 <= length extra <= 2)%nat.
Proof.
  unfold poll_once, try_except, bind, record_call, lift, raise, print, ret.
  destruct (midjourney_job env job_id attempt) as [e | status body].
  { destruct (is_Exception e); intros [= <- <-]; cbn;
      (split; [reflexivity |]; split; [reflexivity |]; eexists; split;
       [reflexivity | cbn; lia]). }
  destruct (status =? 200).
  2:{ intros [= <- <-]; cbn.
      split; [reflexivity |]; split; [reflexivity |]; eexists; split;
        [reflexivity | cbn; lia]. }
  destruct body as [[st url] | e].
  2:{ destruct (is_Exception e); intros [= <- <-]; cbn;
        (split; [reflexivity |]; split; [reflexivity |]; eexists; split;
         [reflexivity | cbn; lia]). }
  destruct (String.eqb st "completed").
  - destruct url as [u|].
    + cbn. destruct (download env u) as [e | img_status img_body].
      * destruct (is_Exception e); intros [= <- <-]; cbn;
          (split; [reflexivity |]; split; [reflexivity |]; eexists; split;
           [rewrite <- app_assoc; reflexivity | cbn; lia]).
      * destruct (img_status =? 200).
        -- destruct img_body as [content | e]; [| destruct (is_Exception e)];
             intros [= <- <-]; cbn;
             (split; [reflexivity |]; split; [reflexivity |]; eexists; split;
              [rewrite <- app_assoc; reflexivity | cbn; lia]).
        -- intros [= <- <-]; cbn.
           split; [reflexivity |]; split; [reflexivity |]; eexists; split;
             [rewrite <- app_assoc; reflexivity | cbn; lia].
    + cbn. intros [= <- <-]; cbn.
      split; [reflexivity |]; split; [reflexivity |]; eexists; split;
        [reflexivity | cbn; lia].
  - destruct (String.eqb st "failed"); intros [= <- <-]; cbn;
      (split; [reflexivity |]; split; [reflexivity |]; eexists; split;
       [reflexivity | cbn; lia]).
Qed.

Lemma poll_loop_bounds (env : Env) (job_id : string) (remaining : nat) :
  forall (attempt : nat) (w w' : World) (r : result (option bytes)),
    poll_loop env job_id remaining attempt w = (r, w') ->
    exists n extra,
      (n <= remaining)%nat /\ ((0 < remaining)%nat -> (0 < n)%nat) /\
      (clock w' == clock w + ten_times n)%Q /\
      files w' = files w /\
      sent w' = sent w ++ extra /\ (n <= length extra <= 2 * n)%nat.
Proof.
  induction remaining as [|m IH]; intros attempt w w' r; cbn [poll_loop].
  - intros [= <- <-]. exists 0%nat, []. rewrite app_nil_r.
    repeat split; try lia; try reflexivity. unfold ten_times. cbn. ring.
  - unfold bind at 1. cbn [asyncio_sleep]. intros H.
    apply bind_inv in H.
    destruct H as [(step & w1 & Hstep & H) | (e & Hstep & ->)];
      apply poll_once_bounds in Hstep;
      destruct Hstep as (Hc & Hf & extra & Hs & Hlen); cbn [clock files sent] in *.
    + destruct step as [content | |].
      * injection H as <- <-. exists 1%nat, extra.
        repeat split; try lia; try assumption.
        rewrite Hc. unfold ten_times. cbn. ring.
      * injection H as <- <-. exists 1%nat, extra.
        repeat split; try lia; try assumption.
        rewrite Hc. unfold ten_times. cbn. ring.
      * apply IH in H.
        destruct H as (n & extra' & Hn & _ & Hc' & Hf' & Hs' & Hlen').
        exists (S n), (extra ++ extra').
        repeat split; try lia.
        -- rewrite Hc', Hc. apply ten_times_S.
        -- congruence.
        -- rewrite Hs', Hs, <- app_assoc. reflexivity.
        -- rewrite length_app. lia.
        -- rewrite length_app. lia.
    + exists 1%nat, extra.
      repeat split; try lia; try assumption.
      rewrite Hc. unfold ten_times. cbn. ring.
Qed.

(** X16. However the service answers, the polling of a job sleeps before
    every poll and polls at most thirty times: it takes [10 n] seconds for
    some [n] from 1 to 30, sends between [n] and [2 n] requests, and writes
    no file. *)
Theorem polling_is_bounded
    (env : Env) (job_id : string) (w w' : World) (r : result (option bytes))
    (Hrun : _poll_midjourney_job env job_id w = (r, w')) :
  exists n extra,
    (1 <= n <= 30)%nat /\
    (clock w' == clock w + ten_times n)%Q /\
    files w' = files w /\
    sent w' = sent w ++ extra /\ (n <= length extra <= 2 * n)%nat.
Proof.
  apply poll_loop_bounds in Hrun.
  destruct Hrun as (n & extra & Hn & Hpos & Hc & Hf & Hs & Hlen).
  exists n, extra. repeat split; try assumption; lia.
Qed.

Lemma polling_is_bounded_witness :
  exists n extra,
    (1 <= n <= 30)%nat /\
    (clock (snd (_poll_midjourney_job stub_env "job-1" empty_world))
     == clock empty_world + ten_times n)%Q /\
    files (snd (_poll_midjourney_job stub_env "job-1" empty_world)) = files empty_world /\
    sent (snd (_poll_midjourney_job stub_env "job-1" empty_world))
    = sent empty_world ++ extra /\
    (n <= length extra <= 2 * n)%nat.
Proof.
  apply (polling_is_bounded stub_env "job-1" empty_world _
           (fst (_poll_midjourney_job stub_env "job-1" empty_world))).
  vm_compute. reflexivity.
Defined.

(** ** What an item can raise *)

Create HintDb raises.

Lemma always_only {A} (m : M A) : always_returns m -> only_Exceptions m.
Proof. intros H w e w' Hm. destruct (H w) as (a & w1 & Ha). congruence. Qed.

Lemma always_ret {A} (a : A) : always_returns (ret a).
Proof. intros w. unfold ret. eauto. Qed.

Lemma always_print (l : LogLine) : always_returns (print l).
Proof. intros w. unfold print. eauto. Qed.

Lemma always_sleep (d : Q) : always_returns (asyncio_sleep d).
Proof. intros w. unfold asyncio_sleep. eauto. Qed.

Lemma always_record_call (c : NetCall) : always_returns (record_call c).
Proof. intros w. unfold record_call. eauto. Qed.

Lemma always_time_time : always_returns time_time.
Proof. intros w. unfold time_time. eauto. Qed.

Lemma always_bind {A B} (m : M A) (k : A -> M B) :
  always_returns m -> (forall a, always_returns (k a)) -> always_returns (bind m k).
Proof.
  intros Hm Hk w. destruct (Hm w) as (a & w1 & Ha).
  destruct (Hk a w1) as (b & w2 & Hb). exists b, w2. unfold bind. now rewrite Ha.
Qed.

Lemma always_try_except {A} (m : M A) (h : Exn -> M A) :
  only_Exceptions m -> (forall e, always_returns (h e)) ->
  always_returns (try_except m h).
Proof.
  intros Hm Hh w. unfold try_except. destruct (m w) as [[a|e] w1] eqn:Hmw; [eauto |].
  rewrite (Hm _ _ _ Hmw). apply Hh.
Qed.

Lemma only_raise {A} (e : Exn) : is_Exception e = true -> only_Exceptions (raise (A := A) e).
Proof. intros He w e' w' [= <- _]. exact He. Qed.

Lemma only_lift {A} (x : result A) :
  (forall e, x = Raise e -> is_Exception e = true) -> only_Exceptions (lift x).
Proof. intros Hx w e w' [= -> _]. now apply Hx. Qed.

Lemma only_bind {A B} (m : M A) (k : A -> M B) :
  only_Exceptions m -> (forall a, only_Exceptions (k a)) -> only_Exceptions (bind m k).
Proof.
  intros Hm Hk w e w' H. apply bind_inv in H.
  destruct H as [(a & w1 & _ & H) | (e' & H & Heq)].
  - eapply Hk; eauto.
  - injection Heq as ->. eapply Hm; eauto.
Qed.

Lemma only_try_except {A} (m : M A) (h : Exn -> M A) :
  only_Exceptions m -> (forall e, only_Exceptions (h e)) ->
  only_Exceptions (try_except m h).
Proof.
  intros Hm Hh w e w' H. apply try_except_inv in H.
  destruct H as [(a & _ & Heq) | [(e' & w1 & _ & _ & H) | (e' & H & _ & Heq)]].
  - discriminate.
  - eapply Hh; eauto.
  - injection Heq as ->. eapply Hm; eauto.
Qed.

Lemma only_get_limiter (self : string) : only_Exceptions (get_limiter self).
Proof.
  intros w e w'. unfold get_limiter.
  destruct (rate_limiters w !! self); intros [= <- _]; reflexivity.
Qed.

Lemma only_set_requests (self : string) (reqs : list Q) :
  only_Exceptions (set_requests self reqs).
Proof.
  intros w e w'. unfold set_requests, bind, get_limiter, set_rate_limiters.
  destruct (rate_limiters w !! self); intros [= <- _]; reflexivity.
Qed.

Lemma only_write_file (env : Env) (path : string) (c : FileContent) :
  only_Exceptions (write_file env path c).
Proof.
  intros w e w'. unfold write_file, set_files.
  destruct (writable env path); [discriminate |].
  destruct (opened env path); intros [= <- _]; reflexivity.
Qed.

Lemma getitem_raises_KeyError {A} (d : list (string * A)) (key : string) (e : Exn) :
  getitem d key = Raise e -> is_Exception e = true.
Proof.
  induction d as [|[k v] d IH]; cbn [getitem]; [now intros [= <-] |].
  destruct (String.eqb k key); [discriminate | exact IH].
Qed.

#[local] Hint Resolve always_ret always_print always_sleep always_record_call
  always_time_time only_get_limiter only_set_requests only_write_file : raises.
#[local] Hint Extern 1 (only_Exceptions (ret _)) => apply always_only, always_ret : raises.
#[local] Hint Extern 1 (only_Exceptions (print _)) => apply always_only, always_print : raises.
#[local] Hint Extern 1 (only_Exceptions (asyncio_sleep _)) =>
  apply always_only, always_sleep : raises.
#[local] Hint Extern 1 (only_Exceptions (record_call _)) =>
  apply always_only, always_record_call : raises.
#[local] Hint Extern 1 (only_Exceptions time_time) =>
  apply always_only, always_time_time : raises.
#[local] Hint Extern 1 (only_Exceptions (raise _)) => apply only_raise : raises.
#[local] Hint Extern 1 (only_Exceptions (lift _)) =>
  apply only_lift; intros ? [= <-] : raises.

Ltac raises_step :=
  match goal with
  | |- only_Exceptions (bind _ _) => apply only_bind; [| intros ?]
  | |- only_Exceptions (try_except _ _) => apply only_try_except; [| intros ?]
  | |- always_returns (bind _ _) => apply always_bind; [| intros ?]
  | |- only_Exceptions (if ?b then _ else _) => destruct b eqn:?
  | |- only_Exceptions (match ?x with _ => _ end) => destruct x eqn:?
  | |- only_Exceptions (let '_ := ?x in _) => destruct x eqn:?
  | |- always_returns (match ?x with _ => _ end) => destruct x eqn:?
  | |- _ => solve [eauto with raises]
  end.

Lemma only_wait (self : string) : only_Exceptions (wait self).
Proof. unfold wait. repeat raises_step. Qed.

Lemma only_save_asset (env : Env) (root : string) (request : AssetRequest)
    (data : bytes) (format service : string) :
  only_Exceptions (_save_asset env root request data format service).
Proof.
  unfold _save_asset, _generate_asset_id. repeat raises_step.
  all: apply only_lift; apply getitem_raises_KeyError.
Qed.

#[local] Hint Resolve only_wait only_save_asset : raises.

Section WellBehaved.

Variable env : Env.
Hypothesis Hwb : well_behaved env.
Variable root : string.

(** Closes the goals about what a reply raises. *)
Ltac from_reply Hfam :=
  match goal with
  | Heq : _ ?p = NoReply ?e |- only_Exceptions (raise ?e) =>
      let Hr := fresh in
      pose proof (Hfam p) as Hr; rewrite Heq in Hr; exact (only_raise e Hr)
  | Heq : _ ?p = Response _ ?b |- only_Exceptions (lift ?b) =>
      let Hr := fresh in
      pose proof (Hfam p) as Hr; rewrite Heq in Hr;
      apply only_lift; intros ? ->; exact Hr
  end.

Lemma only_nanobanana (request : AssetRequest) :
  only_Exceptions (_generate_with_nanobanana env root request).
Proof.
  destruct Hwb as (Hnb & _).
  unfold _generate_with_nanobanana. repeat raises_step.
  all: from_reply Hnb.
Qed.

Lemma only_stability (request : AssetRequest) :
  only_Exceptions (_generate_with_stability env root request).
Proof.
  destruct Hwb as (_ & Hst & _).
  unfold _generate_with_stability. repeat raises_step.
  all: from_reply Hst.
Qed.

Lemma only_poll_once (job_id : string) (attempt : nat) :
  only_Exceptions (poll_once env job_id attempt).
Proof.
  destruct Hwb as (_ & _ & _ & Hjob & Hdl).
  unfold poll_once. repeat raises_step.
  all: try first [from_reply (Hjob job_id) | from_reply Hdl].
  apply only_lift. destruct image_url; intros e [= <-]. reflexivity.
Qed.

Lemma only_poll_loop (job_id : string) (remaining : nat) :
  forall attempt, only_Exceptions (poll_loop env job_id remaining attempt).
Proof.
  induction remaining as [|n IH]; intros attempt; cbn [poll_loop].
  - eauto with raises.
  - pose proof (only_poll_once job_id attempt).
    repeat raises_step; try apply IH; assumption.
Qed.

Lemma only_midjourney (request : AssetRequest) :
  only_Exceptions (_generate_with_midjourney env root request).
Proof.
  destruct Hwb as (_ & _ & Hmj & _).
  unfold _generate_with_midjourney, _poll_midjourney_job.
  pose proof only_poll_loop.
  repeat raises_step.
  all: from_reply Hmj.
Qed.

Lemma always_generate_single_asset (request : AssetRequest) :
  always_returns (generate_single_asset env root request).
Proof.
  pose proof only_nanobanana. pose proof only_stability. pose proof only_midjourney.
  unfold generate_single_asset.
  apply always_bind; [apply always_time_time | intros start_time].
  apply always_try_except.
  - unfold _generate_2d_asset, _generate_3d_asset, _generate_audio_asset.
    repeat raises_step.
    all: try (apply always_only; repeat raises_step).
    all: try (apply only_raise; reflexivity).
  - intros e. repeat raises_step.
Qed.

End WellBehaved.

(** ** Loading, batch and entry point *)

(** X17. When every object of the [assets] array has the three required
    fields and no unexpected key, [load_asset_requests] returns one request
    per object, in the order of the array, each with the prompt, type and
    category of its object and the defaults for the fields left out; it
    prints nothing. *)
Theorem load_returns_the_requests_in_order
    (env : Env) (path : string) (entries : list ConfigEntry) (w : World)
    (Hfile : read_config env path = Some (Ok (DocObject (Some entries))))
    (Hvalid : Forall constructible entries) :
  exists reqs,
    load_asset_requests env path w = (Ok reqs, w) /\
    Forall2 built_from entries reqs.
Proof.
  destruct (build_requests_constructible entries Hvalid) as (reqs & Hreqs & Hall).
  exists reqs. split; [| exact Hall].
  unfold load_asset_requests, try_except, bind, json_load, lift, ret.
  rewrite Hfile. cbn [default from_option Datatypes.id]. rewrite Hreqs. reflexivity.
Qed.

Lemma load_returns_the_requests_witness :
  exists reqs,
    load_asset_requests
      (env_with_config [EntryObject (valid_item "neon alley" "2d" "background");
                        EntryObject (valid_item "boom" "audio" "sfx")])
      "assets.json" empty_world = (Ok reqs, empty_world) /\
    Forall2 built_from
      [EntryObject (valid_item "neon alley" "2d" "background");
       EntryObject (valid_item "boom" "audio" "sfx")] reqs.
Proof.
  apply (load_returns_the_requests_in_order _ "assets.json").
  - reflexivity.
  - repeat constructor; eexists; (split; [reflexivity |]); cbn; eauto.
Defined.

(** X18. [load_asset_requests] never raises what it can catch: whatever
    the file holds, it returns a list; either it printed nothing, or it
    printed one line for the failure and the list is empty.  It sends
    nothing and writes nothing. *)
Theorem load_never_raises
    (env : Env) (path : string) (w : World)
    (Hcfg : config_raises_Exception env) :
  exists reqs w',
    load_asset_requests env path w = (Ok reqs, w') /\
    (w' = w \/ (reqs = [] /\ exists e, w' = snd (print (LLoadFailed e) w))).
Proof.
  unfold load_asset_requests, try_except, bind, json_load, lift, ret, raise.
  destruct (read_config env path) as [[doc | e] |] eqn:Hfile.
  - destruct doc as [a |].
    + destruct (build_requests (default [] a)) as [reqs | e] eqn:Hb.
      * eauto 10.
      * destruct (build_requests_raises_TypeError _ _ Hb) as [msg ->].
        cbn. eauto 10.
    + cbn. eauto 10.
  - rewrite (Hcfg _ _ Hfile). cbn. eauto 10.
  - cbn. eauto 10.
Qed.

Lemma load_never_raises_witness :
  exists reqs w',
    load_asset_requests stub_env "missing.json" empty_world = (Ok reqs, w') /\
    (w' = empty_world \/
     (reqs = [] /\ exists e, w' = snd (print (LLoadFailed e) empty_world))).
Proof.
  apply (load_never_raises stub_env "missing.json" empty_world).
  intros path e H. discriminate H.
Defined.

(** ** The batch, entry by entry *)

Lemma single_asset_entry (env : Env) (root : string) (req : AssetRequest)
    (w w' : World) (entry : option GeneratedAsset) :
  generate_single_asset env root req w = (Ok entry, w') -> entry_of req entry.
Proof.
  destruct entry as [a|]; [| now left].
  intros H. right. exists a. split; [reflexivity |].
  apply returned_asset_facts in H. tauto.
Qed.

Lemma gather_singles_inv (env : Env) (root : string) (reqs : list AssetRequest) :
  forall (w w' : World) (rs : list (result (option GeneratedAsset))),
    gather (map (generate_single_asset env root) reqs) w = (Ok rs, w') ->
    exists l, rs = map Ok l /\ Forall2 entry_of reqs l.
Proof.
  induction reqs as [|req reqs IH]; intros w w' rs; cbn [map gather].
  - intros [= <- _]. exists []. split; [reflexivity | constructor].
  - destruct (generate_single_asset env root req w) as [[entry|e] w1] eqn:Hsingle.
    + intros H. apply bind_Ok in H. destruct H as (rs' & w2 & Hrs' & H).
      injection H as <- _. destruct (IH _ _ _ Hrs') as (l & -> & Hall).
      exists (entry :: l). split; [reflexivity |].
      constructor; [| exact Hall]. eapply single_asset_entry; eauto.
    + rewrite (generate_single_asset_never_raises env root req _ _ _ Hsingle).
      discriminate.
Qed.

Lemma collect_successful_all_Ok (l : list (option GeneratedAsset)) :
  forall i w, collect_successful i (map Ok l) w = (Ok l, w).
Proof.
  induction l as [|entry l IH]; intros i w; cbn [map collect_successful];
    [reflexivity |].
  unfold bind. now rewrite IH.
Qed.

Lemma generator_kept_gather (env : Env) (root : string) (reqs : list AssetRequest) :
  respects generator_kept (gather (map (generate_single_asset env root) reqs)).
Proof.
  apply respects_gather_singles.
  - apply generator_kept_refl.
  - apply generator_kept_trans.
  - intros l w. split; [reflexivity | cbn; eauto].
  - intros d w _. split; [reflexivity | cbn; eauto].
  - intros c w. split; [reflexivity | cbn; eauto].
  - intros path c w. split; [reflexivity | cbn; eauto].
  - intros self l reqs' w Hl. split; [reflexivity |]. cbn.
    intros self' l0 Hl0. destruct (decide (self = self')) as [<- | Hne].
    + rewrite lookup_insert_eq. eexists. split; [reflexivity |]. cbn. congruence.
    + rewrite lookup_insert_ne by exact Hne. eauto.
Qed.

Lemma generate_asset_batch_inv (env : Env) (root : string) (reqs : list AssetRequest)
    (w w' : World) (l : list (option GeneratedAsset)) :
  generate_asset_batch env root reqs w = (Ok l, w') ->
  Forall2 entry_of reqs l /\
  generated_assets w' = generated_assets w ++ l /\
  stdout w `prefix_of` stdout w'.
Proof.
  unfold generate_asset_batch. intros H.
  apply bind_Ok in H. destruct H as (u1 & w1 & Hprint & H).
  apply bind_Ok in H. destruct H as (rs & w2 & Hgather & H).
  apply bind_Ok in H. destruct H as (l' & w3 & Hcollect & H).
  apply bind_Ok in H. destruct H as (u4 & w4 & Hset & H).
  injection H as <- <-.
  pose proof (generator_kept_gather env root reqs _ _ _ Hgather) as [Hkept _].
  pose proof (respects_gather_singles output_grows output_grows_refl output_grows_trans)
    as Hgrow.
  destruct (gather_singles_inv env root reqs _ _ _ Hgather) as (l0 & -> & Hall).
  rewrite collect_successful_all_Ok in Hcollect. injection Hcollect as <- <-.
  injection Hprint as _ <-. injection Hset as _ <-. cbn in *.
  split; [exact Hall |]. split; [now rewrite Hkept |].
  unshelve epose proof (Hgrow _ _ _ _ _ env root reqs _ _ _ Hgather) as (_ & Hout & _).
  - intros l w0. unfold output_grows. cbn.
    repeat split; try reflexivity; try apply Qle_refl. now apply prefix_app_r.
  - apply output_grows_sleep.
  - intros c w0. unfold output_grows. cbn.
    repeat split; try reflexivity; try apply Qle_refl. now apply prefix_app_r.
  - apply output_grows_write.
  - intros self l reqs' w0 _. unfold output_grows. cbn.
    repeat split; try reflexivity. apply Qle_refl.
  - cbn in Hout. etransitivity; [| exact Hout]. now apply prefix_app_r.
Qed.

(** X19. The list [generate_asset_batch] returns follows the requests:
    its entry at each position is [None] or an asset that carries the
    request at that position; and the generator's result list grows by
    exactly that list. *)
Theorem batch_entries_follow_the_requests
    (env : Env) (root : string) (reqs : list AssetRequest)
    (w w' : World) (l : list (option GeneratedAsset))
    (Hrun : generate_asset_batch env root reqs w = (Ok l, w')) :
  Forall2 entry_of reqs l /\
  generated_assets w' = generated_assets w ++ l.
Proof.
  destruct (generate_asset_batch_inv env root reqs w w' l Hrun) as (H1 & H2 & _).
  now split.
Qed.

Lemma batch_entries_witness :
  let w := fresh_generator stub_env "/proj" in
  let reqs := [mk_request "a hero" "2d" "sprite"; mk_request "boom" "audio" "sfx"] in
  Forall2 entry_of reqs [None; None] /\
  generated_assets (snd (generate_asset_batch stub_env "/proj" reqs w))
  = generated_assets w ++ [None; None].
Proof.
  cbv zeta.
  apply (batch_entries_follow_the_requests stub_env "/proj"
           [mk_request "a hero" "2d" "sprite"; mk_request "boom" "audio" "sfx"]
           (fresh_generator stub_env "/proj")).
  vm_compute. reflexivity.
Defined.

(** ** The generator and the entry point *)

Lemma AssetGenerator__init__run
    (env : Env) (root : string) (w : World)
    (Hdirs : dirs_creatable env root) :
  exists w',
    AssetGenerator__init__ env root w = (Ok tt, w') /\
    generated_assets w' = [] /\
    rate_limiters w' !! "nanobanana"%string
    = Some {| requests_per_minute := 10; requests := [] |} /\
    rate_limiters w' !! "stability"%string
    = Some {| requests_per_minute := 150; requests := [] |} /\
    rate_limiters w' !! "midjourney"%string
    = Some {| requests_per_minute := 5; requests := [] |} /\
    rate_limiters w' !! "elevenlabs"%string
    = Some {| requests_per_minute := 20; requests := [] |} /\
    clock w' = clock w /\ stdout w' = stdout w /\
    sent w' = sent w /\ files w' = files w.
Proof.
  unfold AssetGenerator__init__, bind, lift.
  cbn [set_generated_assets fold_right CONFIG_services CONFIG_output_dirs
       RateLimiter__init__ set_rate_limiters clock stdout files sent
       rate_limiters generated_assets].
  unfold bind.
  rewrite !(Hdirs _ _) by (cbn; tauto).
  eexists. split; [reflexivity |].
  cbn [generated_assets rate_limiters clock stdout sent files].
  repeat split; vm_compute; reflexivity.
Qed.

(** X20. When the four output directories can be created, the constructor
    of [AssetGenerator] returns: whatever the world held before, the
    result list is empty and each of the four services has a limiter with
    its configured quota (10, 150, 5 and 20 a minute) and no recorded
    admission; nothing is printed, sent or written. *)
Theorem generator_starts_empty_and_ready
    (env : Env) (root : string) (w : World)
    (Hdirs : dirs_creatable env root) :
  exists w',
    AssetGenerator__init__ env root w = (Ok tt, w') /\
    generated_assets w' = [] /\
    rate_limiters w' !! "nanobanana"%string
    = Some {| requests_per_minute := 10; requests := [] |} /\
    rate_limiters w' !! "stability"%string
    = Some {| requests_per_minute := 150; requests := [] |} /\
    rate_limiters w' !! "midjourney"%string
    = Some {| requests_per_minute := 5; requests := [] |} /\
    rate_limiters w' !! "elevenlabs"%string
    = Some {| requests_per_minute := 20; requests := [] |} /\
    clock w' = clock w /\ stdout w' = stdout w /\
    sent w' = sent w /\ files w' = files w.
Proof. exact (AssetGenerator__init__run env root w Hdirs). Qed.


Lemma generator_starts_witness :
  exists w',
    AssetGenerator__init__ stub_env "/proj" empty_world = (Ok tt, w') /\
    generated_assets w' = [] /\
    rate_limiters w' !! "nanobanana"%string
    = Some {| requests_per_minute := 10; requests := [] |} /\
    rate_limiters w' !! "stability"%string
    = Some {| requests_per_minute := 150; requests := [] |} /\
    rate_limiters w' !! "midjourney"%string
    = Some {| requests_per_minute := 5; requests := [] |} /\
    rate_limiters w' !! "elevenlabs"%string
    = Some {| requests_per_minute := 20; requests := [] |} /\
    clock w' = clock empty_world /\ stdout w' = stdout empty_world /\
    sent w' = sent empty_world /\ files w' = files empty_world.
Proof.
  apply (generator_starts_empty_and_ready stub_env "/proj" empty_world).
  intros key dir _. reflexivity.
Defined.

Lemma always_gather {A} (tasks : list (M A)) :
  Forall always_returns tasks -> always_returns (gather tasks).
Proof.
  induction 1 as [|t ts Ht _ IH]; intros w; cbn [gather].
  - unfold ret. eauto.
  - destruct (Ht w) as (a & w1 & ->). destruct (IH w1) as (rs & w2 & Hrs).
    unfold bind. rewrite Hrs. unfold ret. eauto.
Qed.

Lemma always_generate_asset_batch (env : Env) (root : string)
    (reqs : list AssetRequest) :
  well_behaved env -> always_returns (generate_asset_batch env root reqs).
Proof.
  intros Hwb w. unfold generate_asset_batch.
  unfold bind at 1. cbn [print].
  destruct (always_gather (map (generate_single_asset env root) reqs)) with
    (w := {| clock := clock w; stdout := stdout w ++ [LStartingBatch (length reqs)];
             files := files w; sent := sent w; rate_limiters := rate_limiters w;
             generated_assets := generated_assets w |})
    as (rs & w2 & Hgather).
  { apply Forall_forall. intros t Ht. apply list_elem_of_In, in_map_iff in Ht.
    destruct Ht as (r & <- & _). now apply always_generate_single_asset. }
  unfold bind at 1. rewrite Hgather.
  destruct (gather_singles_inv env root reqs _ _ _ Hgather) as (l & -> & _).
  unfold bind at 1. rewrite collect_successful_all_Ok.
  unfold bind, set_generated_assets, ret. eauto.
Qed.

(** What [load_asset_requests] leaves alone, however it ends. *)
Lemma load_asset_requests_frame (env : Env) (path : string) (w w' : World)
    (r : result (list AssetRequest)) :
  load_asset_requests env path w = (r, w') ->
  clock w' = clock w /\ sent w' = sent w /\ files w' = files w /\
  generated_assets w' = generated_assets w /\ rate_limiters w' = rate_limiters w.
Proof.
  unfold load_asset_requests, try_except, bind, json_load, lift, ret, raise, print.
  destruct (read_config env path) as [[[a |] | e] |].
  - destruct (build_requests (default [] a)) as [reqs | e].
    + intros [= _ <-]. auto.
    + destruct (is_Exception e); intros [= _ <-]; auto.
  - cbn. intros [= _ <-]. auto.
  - destruct (is_Exception e); intros [= _ <-]; auto.
  - cbn. intros [= _ <-]. auto.
Qed.

Lemma load_needs_the_file (env : Env) (path : string) (w : World)
    (req : AssetRequest) (reqs : list AssetRequest) :
  fst (load_asset_requests env path w) = Ok (req :: reqs) ->
  path_exists env path = true.
Proof.
  unfold path_exists, load_asset_requests, try_except, bind, json_load, raise.
  destruct (read_config env path); [reflexivity |]. cbn. discriminate.
Qed.

Lemma length_not_None {A} (l : list (option A)) :
  (length (not_None l) <= length l)%nat.
Proof.
  unfold not_None. induction l as [|[a|] l IH]; cbn; lia.
Qed.

(** X21. [main] exits with status 0 as soon as one request was loaded, the
    services raise nothing worse than an exception, the directories can be
    created and the report can be written, however many items fail or are
    skipped.  The report is then on disk: its total is the number of
    requests loaded, and its count of successful generations is the number
    of assets it lists, at most the total. *)
Theorem main_exits_0_once_a_request_is_loaded
    (env : Env) (args : Args) (w : World)
    (req : AssetRequest) (reqs : list AssetRequest)
    (Hwb : well_behaved env)
    (Hload : fst (load_asset_requests env (config args) w) = Ok (req :: reqs))
    (Hdirs : dirs_creatable env (arg_project_root args))
    (Hreport : writable env (report_path args) = true) :
  exit_status (fst (main env args w)) = 0 /\
  exists rep,
    report_at (report_path args) (snd (main env args w)) = Some rep /\
    total_assets rep = length (req :: reqs) /\
    successful_generations rep = length (assets rep) /\
    (successful_generations rep <= total_assets rep)%nat.
Proof.
  pose proof (load_needs_the_file env _ w req reqs Hload) as Hexists.
  destruct (load_asset_requests env (config args) w) as [r w1] eqn:Hl.
  cbn [fst] in Hload. subst r.
  set (w2 := snd (print (LAssetsToGenerate (length (req :: reqs)))
                    (snd (print (LConfigFile (config args))
                            (snd (print (LProjectRoot (arg_project_root args))
                                    (snd (print LPipelineStart w1)))))))).
  destruct (AssetGenerator__init__run env (arg_project_root args) w2 Hdirs)
    as (w3 & Hinit & Hgen3 & _).
  destruct (always_generate_asset_batch env (arg_project_root args) (req :: reqs) Hwb w3)
    as (l & w4 & Hbatch).
  destruct (generate_asset_batch_inv _ _ _ _ _ _ Hbatch) as (Hall & Hgen4 & _).
  rewrite Hgen3 in Hgen4. cbn [app] in Hgen4.
  assert (Hmain : main env args w
          = (Ok tt,
             snd (print (LGeneratedSuccessfully (length l))
                    (snd (print LCompleted
                            (snd (print (LReportSaved (report_path args))
                                    (snd (set_files
                                            (<[report_path args :=
                                                 ReportJson (build_report (clock w4)
                                                               (generated_assets w4))]>
                                               (files w4)) w4))))))))).
  { unfold main. rewrite Hexists. cbn [negb].
    unfold bind at 1. rewrite Hl.
    unfold bind at 1. unfold bind at 1. unfold bind at 1. unfold bind at 1.
    cbn [print]. fold w2 in Hinit. unfold w2 in Hinit. cbn [print snd] in Hinit.
    unfold bind at 1. rewrite Hinit.
    unfold bind at 1. rewrite Hbatch.
    unfold save_generation_report. fold (report_path args).
    unfold bind at 1. unfold bind at 1. cbn [time_time].
    unfold bind at 1. unfold write_file. rewrite Hreport.
    reflexivity. }
  rewrite Hmain. split; [reflexivity |].
  cbn [snd print set_files]. unfold report_at. cbn [files].
  rewrite lookup_insert_eq. eexists. split; [reflexivity |].
  rewrite Hgen4. cbn [build_report total_assets successful_generations assets].
  split; [symmetry; eapply Forall2_length; eauto |].
  split; [reflexivity |]. apply length_not_None.
Qed.

Lemma stub_env_well_behaved : well_behaved stub_env.
Proof. repeat split; intros; exact I || reflexivity. Qed.

Lemma main_exits_0_witness :
  let env := env_with_config [EntryObject (valid_item "boom" "audio" "sfx")] in
  exit_status (fst (main env args_default empty_world)) = 0 /\
  exists rep,
    report_at (report_path args_default) (snd (main env args_default empty_world))
    = Some rep /\
    total_assets rep = length [mk_request "boom" "audio" "sfx"] /\
    successful_generations rep = length (assets rep) /\
    (successful_generations rep <= total_assets rep)%nat.
Proof.
  cbv zeta.
  apply (main_exits_0_once_a_request_is_loaded
           (env_with_config [EntryObject (valid_item "boom" "audio" "sfx")])
           args_default empty_world (mk_request "boom" "audio" "sfx") []).
  - exact stub_env_well_behaved.
  - reflexivity.
  - intros key dir _. reflexivity.
  - reflexivity.
Defined.

(** X22. [main] exits with status 1 when the configuration file is missing
    and when no request is loaded from it (it is unreadable, holds no
    [assets] array or an empty one, or one of its items is refused).  It
    then stops before the generator is built: nothing is sent, no file is
    written, and the last line printed says which of the two happened:
    the file was not found when it is missing, no valid request was found
    when it exists. *)
Theorem main_exits_1_without_requests
    (env : Env) (args : Args) (w : World)
    (Hnone : read_config env (config args) = None \/
             fst (load_asset_requests env (config args) w) = Ok []) :
  exit_status (fst (main env args w)) = 1 /\
  sent (snd (main env args w)) = sent w /\
  files (snd (main env args w)) = files w /\
  rate_limiters (snd (main env args w)) = rate_limiters w /\
  (read_config env (config args) = None ->
   last (stdout (snd (main env args w))) = Some (LConfigNotFound (config args))) /\
  (read_config env (config args) <> None ->
   last (stdout (snd (main env args w))) = Some LNoValidRequests).
Proof.
  destruct (read_config env (config args)) as [doc|] eqn:Hfile.
  - destruct Hnone as [Hnone | Hnone]; [discriminate |].
    destruct (load_asset_requests env (config args) w) as [r w1] eqn:Hl.
    cbn [fst] in Hnone. subst r.
    destruct (load_asset_requests_frame _ _ _ _ _ Hl) as (_ & Hs & Hf & _ & Hr).
    assert (Hmain : main env args w
                    = (Raise (SystemExit 1), snd (print LNoValidRequests w1))).
    { unfold main, path_exists. rewrite Hfile. cbn [negb].
      unfold bind at 1. rewrite Hl. reflexivity. }
    rewrite Hmain. cbn.
    split; [reflexivity |]. split; [assumption |]. split; [assumption |].
    split; [assumption |]. split; [discriminate |].
    intros _. apply last_snoc.
  - assert (Hmain : main env args w
                    = (Raise (SystemExit 1),
                       snd (print (LConfigNotFound (config args)) w))).
    { unfold main, path_exists. rewrite Hfile. reflexivity. }
    rewrite Hmain. cbn.
    split; [reflexivity |]. split; [reflexivity |]. split; [reflexivity |].
    split; [reflexivity |]. split; [| intros H; now elim H].
    intros _. apply last_snoc.
Qed.

Lemma main_exits_1_witness :
  (exit_status (fst (main stub_env args_default empty_world)) = 1 /\
   last (stdout (snd (main stub_env args_default empty_world)))
   = Some (LConfigNotFound (config args_default))) /\
  (exit_status (fst (main (env_with_config []) args_default empty_world)) = 1 /\
   last (stdout (snd (main (env_with_config []) args_default empty_world)))
   = Some LNoValidRequests).
Proof.
  split.
  - destruct (main_exits_1_without_requests stub_env args_default empty_world)
      as (Hexit & _ & _ & _ & Hmissing & _).
    + left. reflexivity.
    + split; [exact Hexit | apply Hmissing; reflexivity].
  - destruct (main_exits_1_without_requests (env_with_config []) args_default empty_world)
      as (Hexit & _ & _ & _ & _ & Hempty).
    + right. reflexivity.
    + split; [exact Hexit | apply Hempty; discriminate].
Defined.

(** ** Items that cannot escape, items that only wait *)

(** X23. With services that raise nothing worse than an exception,
    [generate_single_asset] always returns: whatever fails inside an item
    (the limiter, the network, the decoding, the disk) is caught at the
    item, which then yields [None]; and an asset it yields carries the
    request. *)
Theorem item_failures_never_escape
    (env : Env) (root : string) (req : AssetRequest) (w : World)
    (Hwb : well_behaved env) :
  exists entry w',
    generate_single_asset env root req w = (Ok entry, w') /\
    entry_of req entry.
Proof.
  destruct (always_generate_single_asset env Hwb root req w) as (entry & w' & Hrun).
  exists entry, w'. split; [exact Hrun |]. eapply single_asset_entry; eauto.
Qed.

Lemma item_failures_witness :
  exists entry w',
    generate_single_asset read_only_env "/proj" (mk_request "neon alley" "2d" "background")
      empty_world = (Ok entry, w') /\
    entry_of (mk_request "neon alley" "2d" "background") entry.
Proof.
  apply (item_failures_never_escape read_only_env "/proj"
           (mk_request "neon alley" "2d" "background") empty_world).
  repeat split; intros; exact I || reflexivity.
Defined.

(** [wait] on a limiter with a positive quota, in full. *)
Lemma wait_positive_quota (self : string) (l : RateLimiter) (w : World) :
  rate_limiters w !! self = Some l ->
  0 < requests_per_minute l ->
  exists w1,
    wait self w = (Ok tt, w1) /\
    rate_limiters w1 !! self
    = Some {| requests_per_minute := requests_per_minute l;
              requests := recent (clock w) (requests l) ++ [clock w] |} /\
    sent w1 = sent w /\ files w1 = files w /\
    generated_assets w1 = generated_assets w /\
    (Z.of_nat (length (recent (clock w) (requests l))) < requests_per_minute l ->
     clock w1 = clock w /\ stdout w1 = stdout w) /\
    (requests_per_minute l <= Z.of_nat (length (recent (clock w) (requests l))) ->
     (clock w < clock w1)%Q /\ exists t, stdout w1 = stdout w ++ [LRateLimiting t]).
Proof.
  intros Hl Hq.
  destruct (Z.lt_ge_cases (Z.of_nat (length (recent (clock w) (requests l))))
              (requests_per_minute l)) as [Hbelow | Hfull].
  - eexists. split; [apply (wait_below_quota_run self l w Hl Hbelow) |].
    cbn. rewrite lookup_insert_eq. repeat split; lia.
  - destruct (recent (clock w) (requests l)) as [|oldest rest] eqn:Hkept;
      [cbn in Hfull; lia |].
    eexists. split; [apply (wait_at_quota_run self l w oldest rest Hl Hkept Hfull) |].
    cbn [clock stdout sent files generated_assets rate_limiters].
    rewrite lookup_insert_eq. repeat split; try lia; eauto.
    rewrite <- (Qplus_0_r (clock w)) at 1. apply Qplus_lt_r.
    apply (recent_is_recent _ _ (requests l)). rewrite Hkept. left.
Qed.

(** X24. An audio request, for which nothing is sent, still goes through
    the limiter of its service: the item records the instant of the call
    as an admission, returns at once below the quota, and at the quota
    sleeps like a request that would be sent; it yields [None], sends
    nothing and writes nothing. *)
Theorem audio_item_takes_an_admission
    (env : Env) (root : string) (req : AssetRequest) (l : RateLimiter) (w : World)
    (Hty : type req = "audio"%string)
    (Hlimiter : rate_limiters w !! "elevenlabs"%string = Some l)
    (Hquota : 0 < requests_per_minute l) :
  exists w',
    generate_single_asset env root req w = (Ok None, w') /\
    rate_limiters w' !! "elevenlabs"%string
    = Some {| requests_per_minute := requests_per_minute l;
              requests := recent (clock w) (requests l) ++ [clock w] |} /\
    sent w' = sent w /\ files w' = files w /\
    (Z.of_nat (length (recent (clock w) (requests l))) < requests_per_minute l ->
     clock w' = clock w) /\
    (requests_per_minute l <= Z.of_nat (length (recent (clock w) (requests l))) ->
     (clock w < clock w')%Q).
Proof.
  destruct (wait_positive_quota "elevenlabs" l
              (snd (print (LGenerating "audio" (prefix_chars 50 (prompt req))) w))
              Hlimiter Hquota)
    as (w1 & Hwait & Hrl & Hs & Hf & _ & Hbelow & Hfull).
  cbn [print snd clock sent files stdout] in *.
  unfold generate_single_asset. rewrite Hty.
  cbn [String.eqb Ascii.eqb Bool.eqb andb].
  unfold bind at 1. cbn [time_time]. unfold try_except, bind at 1.
  cbn [print]. unfold bind at 1.
  unfold _generate_audio_asset, bind at 1. rewrite Hwait.
  unfold try_except, bind at 1. cbn [print ret].
  eexists. split; [reflexivity |].
  cbn [rate_limiters sent files clock].
  repeat split; try assumption.
  - intros H. now apply Hbelow.
  - intros H. now apply Hfull.
Qed.

Lemma audio_item_witness :
  let w := fresh_generator stub_env "/proj" in
  exists w',
    generate_single_asset stub_env "/proj" audio_request w = (Ok None, w') /\
    rate_limiters w' !! "elevenlabs"%string
    = Some {| requests_per_minute := 20;
              requests := recent (clock w) [] ++ [clock w] |} /\
    sent w' = sent w /\ files w' = files w /\
    (Z.of_nat (length (recent (clock w) [])) < 20 -> clock w' = clock w) /\
    (20 <= Z.of_nat (length (recent (clock w) [])) -> (clock w < clock w')%Q).
Proof.
  cbv zeta.
  apply (audio_item_takes_an_admission stub_env "/proj" audio_request
           {| requests_per_minute := 20; requests := [] |}
           (fresh_generator stub_env "/proj")).
  - reflexivity.
  - reflexivity.
  - reflexivity.
Defined.

(** ** The order of the timestamps *)

Lemma recent_sorted (now : Q) (reqs : list Q) :
  oldest_first reqs -> oldest_first (recent now reqs).
Proof.
  unfold recent. induction reqs as [|t reqs IH]; [constructor |].
  intros [Hall Hs]. rewrite filter_cons. destruct (decide _); [| now apply IH].
  split; [| now apply IH].
  apply Forall_forall. intros x Hx. apply list_elem_of_filter in Hx.
  destruct Hx as [_ Hx]. rewrite Forall_forall in Hall. now apply Hall.
Qed.

Lemma oldest_first_snoc (reqs : list Q) (now : Q) :
  oldest_first reqs -> Forall (fun t => (t <= now)%Q) reqs ->
  oldest_first (reqs ++ [now]).
Proof.
  induction reqs as [|t reqs IH]; cbn [app oldest_first].
  - intros _ _. split; constructor.
  - intros [Hall Hs] Hb. apply Forall_cons in Hb. destruct Hb as [Ht Hb].
    split; [| now apply IH].
    apply Forall_app. split; [exact Hall | repeat constructor; exact Ht].
Qed.

Lemma recent_bounded (now bound : Q) (reqs : list Q) :
  Forall (fun t => (t <= bound)%Q) reqs ->
  Forall (fun t => (t <= bound)%Q) (recent now reqs).
Proof.
  unfold recent. intros H. apply Forall_forall. intros x Hx.
  apply list_elem_of_filter in Hx. destruct Hx as [_ Hx].
  rewrite Forall_forall in H. now apply H.
Qed.

(** X25. [wait] keeps the timestamps of a limiter in the order of time and
    no later than the clock, so that the first timestamp of the list, the
    one the wait is computed from, is the oldest. *)
Theorem wait_keeps_the_timestamps_in_order
    (self : string) (l : RateLimiter) (w : World)
    (Hlimiter : rate_limiters w !! self = Some l)
    (Hquota : 0 < requests_per_minute l)
    (Horder : timestamps_in_order w l) :
  exists l',
    rate_limiters (snd (wait self w)) !! self = Some l' /\
    timestamps_in_order (snd (wait self w)) l' /\
    (forall oldest rest, requests l' = oldest :: rest -> Forall (Qle oldest) rest).
Proof.
  destruct Horder as [Hsorted Hbound].
  destruct (wait_positive_quota self l w Hlimiter Hquota)
    as (w1 & Hwait & Hrl & _ & _ & _ & Hbelow & Hfull).
  rewrite Hwait. cbn [snd]. eexists. split; [exact Hrl |].
  assert (Hclock : (clock w <= clock w1)%Q).
  { destruct (Z.lt_ge_cases (Z.of_nat (length (recent (clock w) (requests l))))
                (requests_per_minute l)) as [H | H].
    - destruct (Hbelow H) as [-> _]. apply Qle_refl.
    - destruct (Hfull H) as [Hlt _]. now apply Qlt_le_weak. }
  assert (Hs' : oldest_first (recent (clock w) (requests l) ++ [clock w])).
  { apply oldest_first_snoc; [now apply recent_sorted | now apply recent_bounded]. }
  split; [split |]; cbn [requests].
  - exact Hs'.
  - apply Forall_app. split.
    + eapply Forall_impl; [apply recent_bounded, Hbound |].
      intros t Ht. cbn in Ht. eapply Qle_trans; eassumption.
    + repeat constructor. exact Hclock.
  - intros oldest rest Heq. rewrite Heq in Hs'. apply Hs'.
Qed.

Lemma wait_keeps_the_timestamps_witness :
  exists w,
    world_with_limiter "rl" 2 = Ok w /\
    let w1 := snd (advance_to 10 (snd (wait "rl" w))) in
    let w2 := snd (advance_to 50 (snd (wait "rl" w1))) in
    rate_limiters w2 !! "rl"%string
    = Some {| requests_per_minute := 2; requests := [0%Q; 10%Q] |} /\
    exists l',
      rate_limiters (snd (wait "rl" w2)) !! "rl"%string = Some l' /\
      timestamps_in_order (snd (wait "rl" w2)) l' /\
      (forall oldest rest, requests l' = oldest :: rest -> Forall (Qle oldest) rest).
Proof.
  eexists. split; [reflexivity |]. cbv zeta.
  split; [vm_compute; reflexivity |].
  apply (wait_keeps_the_timestamps_in_order "rl"
           {| requests_per_minute := 2; requests := [0%Q; 10%Q] |}).
  - vm_compute. reflexivity.
  - reflexivity.
  - split; vm_compute; repeat constructor; discriminate.
Defined.

(** ** A directory that cannot be created *)

(** X26. If one of the output directories cannot be created, [main] ends
    with status 1 on the uncaught [OSError], after the requests were loaded
    and before anything is sent or written. *)
Theorem main_exits_1_when_a_directory_cannot_be_created
    (env : Env) (args : Args) (w : World)
    (req : AssetRequest) (reqs : list AssetRequest) (key dir : string)
    (Hload : fst (load_asset_requests env (config args) w) = Ok (req :: reqs))
    (Hdir : In (key, dir) CONFIG_output_dirs)
    (Hmkdir : can_mkdir env (path_join (arg_project_root args) dir) = false) :
  exit_status (fst (main env args w)) = 1 /\
  (exists path, fst (main env args w) = Raise (OSError path)) /\
  sent (snd (main env args w)) = sent w /\
  files (snd (main env args w)) = files w.
Proof.
  pose proof (load_needs_the_file env _ w req reqs Hload) as Hexists.
  destruct (load_asset_requests env (config args) w) as [r w1] eqn:Hl.
  cbn [fst] in Hload. subst r.
  destruct (load_asset_requests_frame _ _ _ _ _ Hl) as (_ & Hs & Hf & _ & _).
  assert (Hinit : forall w0,
             exists path w',
               AssetGenerator__init__ env (arg_project_root args) w0
               = (Raise (OSError path), w') /\
               sent w' = sent w0 /\ files w' = files w0).
  { intros w0. unfold AssetGenerator__init__, bind, lift.
    cbn [set_generated_assets fold_right CONFIG_services CONFIG_output_dirs
         RateLimiter__init__ set_rate_limiters].
    unfold bind, raise, ret.
    cbn [In CONFIG_output_dirs] in Hdir.
    repeat match goal with
           | |- context [if can_mkdir env ?p then _ else _] =>
               destruct (can_mkdir env p) eqn:?
           end;
      try (eexists _, _; split; [reflexivity | cbn; auto]).
    exfalso.
    destruct Hdir as [Hd | [Hd | [Hd | [Hd | []]]]]; injection Hd as <- <-; congruence. }
  destruct (Hinit (snd (print (LAssetsToGenerate (length (req :: reqs)))
                     (snd (print (LConfigFile (config args))
                             (snd (print (LProjectRoot (arg_project_root args))
                                     (snd (print LPipelineStart w1))))))))) 
    as (path & w' & Hrun & Hs' & Hf').
  assert (Hmain : main env args w = (Raise (OSError path), w')).
  { unfold main. rewrite Hexists. cbn [negb].
    unfold bind at 1. rewrite Hl.
    unfold bind at 1. unfold bind at 1. unfold bind at 1. unfold bind at 1.
    cbn [print]. cbn [print snd] in Hrun.
    unfold bind at 1. rewrite Hrun. reflexivity. }
  rewrite Hmain. cbn [fst snd exit_status].
  cbn [print snd sent files] in Hs', Hf'.
  repeat split; eauto; congruence.
Qed.

Lemma main_directory_witness :
  exit_status (fst (main env_without_audio_dir args_default empty_world)) = 1 /\
  (exists path,
     fst (main env_without_audio_dir args_default empty_world) = Raise (OSError path)) /\
  sent (snd (main env_without_audio_dir args_default empty_world)) = sent empty_world /\
  files (snd (main env_without_audio_dir args_default empty_world)) = files empty_world.
Proof.
  apply (main_exits_1_when_a_directory_cannot_be_created env_without_audio_dir
           args_default empty_world (mk_request "neon alley" "2d" "background") []
           "audio" "assets/generated/audio").
  - reflexivity.
  - cbn. tauto.
  - reflexivity.
Defined.
